(** * fetch-items.py: the resilient fetch pipeline of the issue archive

    A shallow embedding of [src/fetch-items.py]: the retrying HTTP client
    ([GitHubClient.fetch], [GitHubClient.fetch_paginated]), its rate-limit
    tracker, the backoff policy, the cross-reference extractor
    ([extract_xrefs]), the per-record driver ([process_item]) with its
    marker files, the discovery of the latest record ([discover_latest])
    and the range loop of [main].

    Modelling conventions.
    - JSON values are the inductive [json]; Python's [None] and JSON [null]
      are the same value [JNull], as they are after [response.json()].
    - Strings are byte strings (UTF-8); Python compares [str] by code point,
      which is the byte order of the UTF-8 encodings.
    - Floats of the backoff policy are binary64 numbers, a mantissa and an
      exponent of 2, every operation rounded to 53 bits, ties to even; the
      values of this program are far from overflow and underflow, which
      are left out.
    - The outside world is a [world] of oracles: the reply to the k-th HTTP
      request, the k-th reading of the clock, the k-th random draw.  The
      client records what it does to the world in a [trace] of [event]s.
    - Console logging ([log]) writes nothing the program reads back and is
      left out, as is the wall-clock [timestamp] field of a failure record.
    - Exceptions are values of [pyerr]; a function that may raise returns a
      [result].  The [while True] loop of [fetch_paginated] takes fuel; a
      run that uses it up has result [None] and the state reached so far.
    - [time.sleep] is modelled where it sleeps.  It refuses a pause of more
      than 2^63 nanoseconds (some 292 years) with [OverflowError]; a reset
      time that far ahead is outside this model. *)

From Stdlib Require Import ZArith QArith Qpower Lqa String Ascii List Lia.
From Stdlib Require Import DecimalString Decimal DecimalPos DecimalN.
From stdpp Require Import base option gmap strings.
Import ListNotations.

Open Scope string_scope.
Open Scope list_scope.
Open Scope Z_scope.

(** ** JSON values and the Python operations used on them *)

#[local] Set Warnings "-register-all".

Inductive json : Type :=
| JNull
| JBool (b : bool)
| JInt (n : Z)
| JFloat (q : Q)
| JStr (s : string)
| JList (l : list json)
| JObj (kvs : list (string * json)).

Inductive pyerr : Type :=
| PyException (msg : string)
| AttributeError (msg : string)
| TypeError (msg : string)
| ValueError (msg : string)
| UnicodeDecodeError (msg : string).

Definition str_of_err (e : pyerr) : string :=
  match e with
  | PyException m | AttributeError m | TypeError m
  | ValueError m | UnicodeDecodeError m => m
  end.

Inductive result (A : Type) : Type :=
| Ok (a : A)
| Raise (e : pyerr).
Arguments Ok {A} a.
Arguments Raise {A} e.

Definition rbind {A B} (r : result A) (k : A -> result B) : result B :=
  match r with
  | Ok a => k a
  | Raise e => Raise e
  end.

Notation "x <-! r ; k" := (rbind r (fun x => k))
  (at level 100, r at next level, right associativity).

(** [type(v).__name__] *)
Definition type_name (v : json) : string :=
  match v with
  | JNull => "NoneType"
  | JBool _ => "bool"
  | JInt _ => "int"
  | JFloat _ => "float"
  | JStr _ => "str"
  | JList _ => "list"
  | JObj _ => "dict"
  end.

(** [bool(v)] *)
Definition truthy (v : json) : bool :=
  match v with
  | JNull => false
  | JBool b => b
  | JInt n => negb (n =? 0)
  | JFloat q => negb (Qeq_bool q 0)
  | JStr s => negb (String.eqb s "")
  | JList l => match l with [] => false | _ => true end
  | JObj kvs => match kvs with [] => false | _ => true end
  end.

(** [a or b] *)
Definition py_or (a b : json) : json := if truthy a then a else b.

Fixpoint assoc (k : string) (kvs : list (string * json)) : option json :=
  match kvs with
  | [] => None
  | (k', v) :: rest => if String.eqb k k' then Some v else assoc k rest
  end.

(** [d.get(k)] and [d.get(k, dflt)] on a dict *)
Definition dict_get (kvs : list (string * json)) (k : string) : json :=
  match assoc k kvs with Some v => v | None => JNull end.

Definition dict_get_default (kvs : list (string * json)) (k : string) (dflt : json) : json :=
  match assoc k kvs with Some v => v | None => dflt end.

(** [k in d] *)
Definition dict_contains (k : string) (kvs : list (string * json)) : bool :=
  match assoc k kvs with Some _ => true | None => false end.

(** [d[k] = v]: an existing key keeps its place, a new key goes last *)
Fixpoint dict_set (k : string) (v : json) (kvs : list (string * json)) : list (string * json) :=
  match kvs with
  | [] => [(k, v)]
  | (k', v') :: rest =>
      if String.eqb k k' then (k, v) :: rest else (k', v') :: dict_set k v rest
  end.

Definition no_attribute (v : json) (attr : string) : pyerr :=
  AttributeError ("'" +:+ type_name v +:+ "' object has no attribute '" +:+ attr +:+ "'").

(** [v.get(k)] on an arbitrary value: only a dict has the method *)
Definition py_get (v : json) (k : string) : result json :=
  match v with
  | JObj kvs => Ok (dict_get kvs k)
  | _ => Raise (no_attribute v "get")
  end.

Definition py_get_default (v : json) (k : string) (dflt : json) : result json :=
  match v with
  | JObj kvs => Ok (dict_get_default kvs k dflt)
  | _ => Raise (no_attribute v "get")
  end.

(** [v == s] for a string literal [s] *)
Definition is_str (v : json) (s : string) : bool :=
  match v with
  | JStr s' => String.eqb s' s
  | _ => false
  end.

(** [a >= b] on [str] *)
Definition str_ge (a b : string) : bool :=
  match String.compare a b with
  | Lt => false
  | _ => true
  end.

(** [v >= s] for a string [s]: defined between strings only *)
Definition py_ge_str (v : json) (s : string) : result bool :=
  match v with
  | JStr a => Ok (str_ge a s)
  | _ => Raise (TypeError ("'>=' not supported between instances of '"
                           +:+ type_name v +:+ "' and 'str'"))
  end.

(** ** Constants *)

Definition REPO : string := "rust-lang/rust".
Definition ITEMS_DIR : string := "items".
Definition CUTOFF_DATE : string := "2016-01-01T00:00:00Z".
Definition RATE_LIMIT_BUFFER : Z := 100.
Definition MAX_RETRIES : nat := 5.

(** ** Floats *)

(** A finite binary64 number: [mantissa * 2 ^ exponent]. *)
Record float : Type := {
  mantissa : Z;
  exponent : Z;
}.

Definition float_value (x : float) : Q :=
  (inject_Z (mantissa x) * 2 ^ exponent x)%Q.

(** [n / 2 ^ shift] for [n >= 0], rounded to the nearest integer, a tie to
    the even one. *)
Definition round_half_even (n shift : Z) : Z :=
  let q := n / 2 ^ shift in
  let r := n mod 2 ^ shift in
  let half := 2 ^ (shift - 1) in
  if r <? half then q
  else if half <? r then q + 1
  else if Z.even q then q else q + 1.

(** The float nearest to [m * 2 ^ e]: the 53 leading bits are kept. *)
Definition round_float (m e : Z) : float :=
  let excess := Z.log2 (Z.abs m) + 1 - 53 in
  if excess <=? 0 then {| mantissa := m; exponent := e |}
  else {| mantissa := Z.sgn m * round_half_even (Z.abs m) excess;
          exponent := e + excess |}.

(** [float(n)] *)
Definition float_of_int (n : Z) : float := round_float n 0.

Definition float_mul (x y : float) : float :=
  round_float (mantissa x * mantissa y) (exponent x + exponent y).

Definition float_add (x y : float) : float :=
  let e := Z.min (exponent x) (exponent y) in
  round_float (mantissa x * 2 ^ (exponent x - e) + mantissa y * 2 ^ (exponent y - e)) e.

Definition float_sub (x y : float) : float :=
  float_add x {| mantissa := - mantissa y; exponent := exponent y |}.

(** [b ** n] for a float [b] and an integer [n >= 0].  The C function
    [pow] returns the exact power whenever it is a float, as every power of
    2.0 within range is; so does the repeated product. *)
Definition float_pow (b : float) (n : nat) : float :=
  Nat.iter n (float_mul b) (float_of_int 1).

Definition BASE_BACKOFF : float := {| mantissa := 2; exponent := 0 |}.   (* 2.0 *)
Definition JITTER : float := {| mantissa := 1; exponent := -2 |}.        (* 0.25 *)

(** ** Cross-reference extraction *)

(** One iteration of the loop of [extract_xrefs]: the entry appended for
    [event], if any. *)
Definition xref_of_event (event : json) : result (option json) :=
  match event with
  | JObj ev =>
      let event_type := dict_get ev "event" in
      let actor := dict_get ev "actor" in
      let actor_login :=
        match actor with JObj a => dict_get a "login" | _ => JNull end in
      if is_str event_type "cross-referenced" then
        let source := py_or (dict_get ev "source") (JObj []) in
        issue0 <-! py_get source "issue";
        let issue := py_or issue0 (JObj []) in
        number <-! py_get issue "number";
        if truthy number then
          type <-! py_get_default source "type" (JStr "issue");
          Ok (Some (JObj [("event", JStr "cross-referenced");
                          ("from", number);
                          ("type", type);
                          ("actor", actor_login);
                          ("date", dict_get ev "created_at")]))
        else Ok None
      else if is_str event_type "referenced" then
        let commit_id := dict_get ev "commit_id" in
        if truthy commit_id then
          Ok (Some (JObj [("event", JStr "referenced");
                          ("commit", commit_id);
                          ("actor", actor_login);
                          ("date", dict_get ev "created_at")]))
        else Ok None
      else Ok None
  | _ => Ok None
  end.

Fixpoint extract_xrefs_loop (timeline : list json) (xrefs : list json) : result (list json) :=
  match timeline with
  | [] => Ok xrefs
  | event :: rest =>
      match xref_of_event event with
      | Raise e => Raise e
      | Ok None => extract_xrefs_loop rest xrefs
      | Ok (Some x) => extract_xrefs_loop rest (xrefs ++ [x])
      end
  end.

Definition extract_xrefs (timeline : list json) : result (list json) :=
  extract_xrefs_loop timeline [].

(** ** The outside world and the client's state *)

Record headers : Type := {
  x_ratelimit_remaining : option Z;
  x_ratelimit_reset : option Z;
}.

(** What [self.client.get(endpoint)] does, as far as [fetch] looks at it.
    It raises one of the two httpx exceptions, or returns a response.
    - [Response]: the two rate-limit headers are missing or are integers;
      [body] is what [response.json()] returns, [None] when it raises
      [json.JSONDecodeError].  The body counts for status 200 only.
    - [BadHeader]: one of the two rate-limit headers is no integer, so
      that [int] raises [ValueError] with the message [msg];
      [remaining] is the header x-ratelimit-remaining when it was read
      before that, that is, when the header at fault is x-ratelimit-reset.
    - [BadBody]: a response of status 200 whose body is not text in a
      Unicode encoding, so that [response.json()] raises
      [UnicodeDecodeError] with the message [msg], which is no
      [json.JSONDecodeError]. *)
Inductive reply : Type :=
| TimeoutException
| RequestError
| Response (status_code : Z) (hdrs : headers) (body : option json)
| BadHeader (remaining : option Z) (msg : string)
| BadBody (hdrs : headers) (msg : string).

Record world : Type := {
  net : string -> nat -> reply;   (* reply to the k-th request, by endpoint *)
  clock : nat -> Z;               (* int(time.time()) at the k-th reading *)
  random_bits : nat -> N;         (* the 53 bits behind the k-th random.random() *)
}.

Inductive event : Type :=
| EvGet (endpoint : string)
| EvBackoff (sleep_time : Q)
| EvRateLow (sleep_time : Z)
| EvRateLimited (sleep_time : Z).

Record client : Type := {
  rate_remaining : option Z;
  rate_reset : option Z;
  requests : nat;
  clock_reads : nat;
  draws : nat;
  trace : list event;
}.

Definition new_client : client :=
  {| rate_remaining := None; rate_reset := None;
     requests := 0; clock_reads := 0; draws := 0; trace := [] |}.

Definition emit (e : event) (c : client) : client :=
  {| rate_remaining := rate_remaining c; rate_reset := rate_reset c;
     requests := requests c; clock_reads := clock_reads c; draws := draws c;
     trace := trace c ++ [e] |}.

(** [random.random()]: a multiple of 2^-53 in [0, 1) *)
Definition random_random (w : world) (c : client) : float * client :=
  ({| mantissa := Z.of_N (random_bits w (draws c) mod 2 ^ 53); exponent := -53 |},
   {| rate_remaining := rate_remaining c; rate_reset := rate_reset c;
      requests := requests c; clock_reads := clock_reads c; draws := S (draws c);
      trace := trace c |}).

(** [int(time.time())] *)
Definition time_time (w : world) (c : client) : Z * client :=
  (clock w (clock_reads c),
   {| rate_remaining := rate_remaining c; rate_reset := rate_reset c;
      requests := requests c; clock_reads := S (clock_reads c); draws := draws c;
      trace := trace c |}).

(** [self.client.get(endpoint)] *)
Definition client_get (w : world) (endpoint : string) (c : client) : reply * client :=
  (net w endpoint (requests c),
   {| rate_remaining := rate_remaining c; rate_reset := rate_reset c;
      requests := S (requests c); clock_reads := clock_reads c; draws := draws c;
      trace := trace c ++ [EvGet endpoint] |}).

(** ** Backoff policy *)

Definition backoff_time (attempt : nat) (r : float) : float :=
  let base := float_pow BASE_BACKOFF attempt in
  let jitter :=
    float_mul (float_mul base JITTER)
              (float_sub (float_mul (float_of_int 2) r) (float_of_int 1)) in
  float_add base jitter.

Definition backoff_sleep (w : world) (attempt : nat) (c : client) : client :=
  let '(r, c1) := random_random w c in
  emit (EvBackoff (float_value (backoff_time attempt r))) c1.

(** ** Rate-limit tracker *)

Definition _update_rate_limit (h : headers) (c : client) : client :=
  {| rate_remaining :=
       match x_ratelimit_remaining h with Some v => Some v | None => rate_remaining c end;
     rate_reset :=
       match x_ratelimit_reset h with Some v => Some v | None => rate_reset c end;
     requests := requests c; clock_reads := clock_reads c; draws := draws c;
     trace := trace c |}.

(** [if self.rate_reset:] holds for an integer other than 0 *)
Definition reset_known (c : client) : option Z :=
  match rate_reset c with
  | Some t => if t =? 0 then None else Some t
  | None => None
  end.

Definition _check_rate_limit (w : world) (c : client) : client :=
  match rate_remaining c with
  | Some remaining =>
      if remaining <? RATE_LIMIT_BUFFER then
        match reset_known c with
        | Some reset =>
            let '(now, c1) := time_time w c in
            let sleep_time := reset - now + 5 in
            if 0 <? sleep_time then emit (EvRateLow sleep_time) c1 else c1
        | None => c
        end
      else c
  | None => c
  end.

Definition _handle_rate_limit_response (w : world) (c : client) : client :=
  match reset_known c with
  | Some reset =>
      let '(now, c1) := time_time w c in
      let sleep_time := reset - now + 10 in
      if 0 <? sleep_time then emit (EvRateLimited sleep_time) c1 else c1
  | None => c
  end.

(** ** The resilient client *)

Definition failed_after (endpoint : string) : pyerr :=
  PyException ("Failed after " +:+ NilZero.string_of_uint (Nat.to_uint MAX_RETRIES)
               +:+ " attempts: " +:+ endpoint).

(** The part of [_update_rate_limit] done when [int] raises on the second
    header. *)
Definition set_rate_remaining (remaining : option Z) (c : client) : client :=
  {| rate_remaining :=
       match remaining with Some v => Some v | None => rate_remaining c end;
     rate_reset := rate_reset c;
     requests := requests c; clock_reads := clock_reads c; draws := draws c;
     trace := trace c |}.

(** The body of [for attempt in range(MAX_RETRIES)], over the attempts
    still to run; the [raise] after the loop is the empty case.  The
    [ValueError] of a header and the [UnicodeDecodeError] of a body are
    caught by none of the [except] clauses and leave [fetch] at once. *)
Fixpoint fetch_attempts (w : world) (endpoint : string) (attempts : list nat) (c : client)
  : result json * client :=
  match attempts with
  | [] => (Raise (failed_after endpoint), c)
  | attempt :: rest =>
      let '(rep, c1) := client_get w endpoint c in
      match rep with
      | TimeoutException => fetch_attempts w endpoint rest (backoff_sleep w attempt c1)
      | RequestError => fetch_attempts w endpoint rest (backoff_sleep w attempt c1)
      | Response status_code hdrs body =>
          let c2 := _update_rate_limit hdrs c1 in
          if status_code =? 404 then (Ok JNull, c2)
          else if (status_code =? 403) || (status_code =? 429) then
            fetch_attempts w endpoint rest (_handle_rate_limit_response w c2)
          else if negb (status_code =? 200) then
            fetch_attempts w endpoint rest (backoff_sleep w attempt c2)
          else
            let c3 := _check_rate_limit w c2 in
            match body with
            | Some v => (Ok v, c3)
            | None => fetch_attempts w endpoint rest (backoff_sleep w attempt c3)
            end
      | BadHeader remaining msg =>
          (Raise (ValueError msg), set_rate_remaining remaining c1)
      | BadBody hdrs msg =>
          let c2 := _update_rate_limit hdrs c1 in
          let c3 := _check_rate_limit w c2 in
          (Raise (UnicodeDecodeError msg), c3)
      end
  end.

Definition fetch (w : world) (endpoint : string) (c : client) : result json * client :=
  fetch_attempts w endpoint (seq 0 MAX_RETRIES) c.

(** [str(page)] *)
Definition str_of_nat (n : nat) : string := NilZero.string_of_uint (Nat.to_uint n).

(** ["?" in endpoint] *)
Fixpoint has_qmark (s : string) : bool :=
  match s with
  | EmptyString => false
  | String a rest => if Ascii.eqb a "?"%char then true else has_qmark rest
  end.

Definition page_url (endpoint : string) (page : nat) : string :=
  let sep := if has_qmark endpoint then "&" else "?" in
  endpoint +:+ sep +:+ "per_page=100&page=" +:+ str_of_nat page.

Definition expected_list (data : json) : pyerr :=
  PyException ("Expected list, got <class '" +:+ type_name data +:+ "'>").

(** The [while True] loop of [fetch_paginated].  When the fuel runs out
    before the loop breaks the result is [None], with the client as the
    loop has left it so far. *)
Fixpoint fetch_pages (w : world) (fuel : nat) (endpoint : string) (page : nat)
    (all_items : list json) (c : client) : option (result (list json)) * client :=
  match fuel with
  | O => (None, c)
  | S fuel' =>
      let '(r, c1) := fetch w (page_url endpoint page) c in
      match r with
      | Raise e => (Some (Raise e), c1)
      | Ok JNull => (Some (Ok all_items), c1)
      | Ok (JList data) =>
          if (length data =? 0)%nat then (Some (Ok all_items), c1)
          else
            let all_items' := all_items ++ data in
            if (length data <? 100)%nat then (Some (Ok all_items'), c1)
            else fetch_pages w fuel' endpoint (S page) all_items' c1
      | Ok data => (Some (Raise (expected_list data)), c1)
      end
  end.

Definition fetch_paginated (w : world) (fuel : nat) (endpoint : string) (c : client)
  : option (result (list json)) * client :=
  fetch_pages w fuel endpoint 1 [] c.

(** ** Marker files *)

(** What a marker file holds: nothing ([write_text("")]), a JSON payload
    ([json.dumps(payload, indent=2) + "\n"]) or a failure record. *)
Inductive file : Type :=
| FEmpty
| FJson (payload : json)
| FFailed (error component : string).

Fixpoint zeros (k : nat) : string :=
  match k with
  | O => ""
  | S k' => String "0"%char (zeros k')
  end.

(** [f"{n:06d}"]: the sign counts in the width *)
Definition padded (n : Z) : string :=
  let digits := NilZero.string_of_uint (N.to_uint (Z.abs_N n)) in
  if n <? 0 then "-" +:+ zeros (5 - String.length digits) +:+ digits
  else zeros (6 - String.length digits) +:+ digits.

(** [ITEMS_DIR / f"{prefix}{suffix}"] *)
Definition item_path (num : Z) (suffix : string) : string :=
  ITEMS_DIR +:+ "/" +:+ padded num +:+ suffix.

Definition path_404 (num : Z) : string := item_path num ".404".
Definition path_skip (num : Z) : string := item_path num ".skip".
Definition path_main (num : Z) : string := item_path num "-main.json".
Definition path_main_failed (num : Z) : string := item_path num "-main.failed".
Definition path_comments (num : Z) : string := item_path num "-comments.json".
Definition path_comments_failed (num : Z) : string := item_path num "-comments.failed".
Definition path_timeline (num : Z) : string := item_path num "-timeline.json".
Definition path_timeline_failed (num : Z) : string := item_path num "-timeline.failed".
Definition path_xrefs (num : Z) : string := item_path num "-xrefs.json".
Definition path_xrefs_failed (num : Z) : string := item_path num "-xrefs.failed".

(** [path.exists()] *)
Definition file_exists (path : string) (fs : gmap string file) : bool :=
  match fs !! path with Some _ => true | None => false end.

Definition write_failed (path error component : string) (fs : gmap string file)
  : gmap string file :=
  <[path := FFailed error component]> fs.

(** [str(num)] *)
Definition str_of_Z (n : Z) : string := NilZero.string_of_int (Z.to_int n).

Definition main_endpoint (num : Z) : string :=
  "/repos/" +:+ REPO +:+ "/issues/" +:+ str_of_Z num.
Definition comments_endpoint (num : Z) : string :=
  "/repos/" +:+ REPO +:+ "/issues/" +:+ str_of_Z num +:+ "/comments".
Definition timeline_endpoint (num : Z) : string :=
  "/repos/" +:+ REPO +:+ "/issues/" +:+ str_of_Z num +:+ "/timeline".

(** ** The record driver *)

Record stats : Type := {
  fetched : nat;
  skip_404 : nat;
  skip_date : nat;
  skip_exists : nat;
  failed : nat;
}.

Definition stats0 : stats :=
  {| fetched := 0; skip_404 := 0; skip_date := 0; skip_exists := 0; failed := 0 |}.

Definition incr_fetched (s : stats) : stats :=
  {| fetched := S (fetched s); skip_404 := skip_404 s; skip_date := skip_date s;
     skip_exists := skip_exists s; failed := failed s |}.
Definition set_skip_404 (s : stats) : stats :=
  {| fetched := fetched s; skip_404 := 1; skip_date := skip_date s;
     skip_exists := skip_exists s; failed := failed s |}.
Definition set_skip_date (s : stats) : stats :=
  {| fetched := fetched s; skip_404 := skip_404 s; skip_date := 1;
     skip_exists := skip_exists s; failed := failed s |}.
Definition incr_skip_exists (s : stats) : stats :=
  {| fetched := fetched s; skip_404 := skip_404 s; skip_date := skip_date s;
     skip_exists := S (skip_exists s); failed := failed s |}.
Definition incr_failed (s : stats) : stats :=
  {| fetched := fetched s; skip_404 := skip_404 s; skip_date := skip_date s;
     skip_exists := skip_exists s; failed := S (failed s) |}.

(** What the [try] block of the main component decides for a record body
    that is not [None]. *)
Inductive main_verdict : Type :=
| Excluded
| Persist (payload : json).

Definition classify_main (data : json) : result main_verdict :=
  match data with
  | JObj kvs =>
      let created_at := dict_get_default kvs "created_at" (JStr "") in
      late <-! py_ge_str created_at CUTOFF_DATE;
      if late then Ok Excluded
      else
        let item_type := if dict_contains "pull_request" kvs then "pr" else "issue" in
        Ok (Persist (JObj (dict_set "_meta" (JObj [("type", JStr item_type)]) kvs)))
  | _ => Raise (no_attribute data "get")
  end.

(** Whether [process_item] goes on after a step or has returned. *)
Inductive flow : Type :=
| Continue
| Return.

(** The [# Main] block, run when [do_main] holds. *)
Definition main_step (w : world) (num : Z) (s : stats) (c : client) (fs : gmap string file)
  : flow * stats * client * gmap string file :=
  if file_exists (path_main num) fs then (Continue, incr_skip_exists s, c, fs)
  else
    let '(r, c1) := fetch w (main_endpoint num) c in
    let on_error (e : pyerr) :=
      (Return, incr_failed s, c1,
       write_failed (path_main_failed num) (str_of_err e) "main" fs) in
    match r with
    | Raise e => on_error e
    | Ok JNull => (Return, set_skip_404 s, c1, <[path_404 num := FEmpty]> fs)
    | Ok data =>
        match classify_main data with
        | Raise e => on_error e
        | Ok Excluded => (Return, set_skip_date s, c1, <[path_skip num := FEmpty]> fs)
        | Ok (Persist payload) =>
            (Continue, incr_fetched s, c1,
             delete (path_main_failed num) (<[path_main num := FJson payload]> fs))
        end
    end.

(** The [# Comments], [# Timeline] and [# Xrefs] blocks share one shape:
    skip when the success marker exists, otherwise fetch all pages of
    [endpoint], pass them through [post] and persist, any exception of the
    [try] block becoming a failure marker.  The counts are [None] while the
    pagination has not come back. *)
Definition component_step (w : world) (fuel : nat) (endpoint path path_failed component : string)
    (post : list json -> result (list json))
    (s : stats) (c : client) (fs : gmap string file)
  : option stats * client * gmap string file :=
  if file_exists path fs then (Some (incr_skip_exists s), c, fs)
  else
    let '(r, c1) := fetch_paginated w fuel endpoint c in
    match r with
    | None => (None, c1, fs)
    | Some r =>
        match rbind r post with
        | Ok items =>
            (Some (incr_fetched s), c1,
             delete path_failed (<[path := FJson (JList items)]> fs))
        | Raise e =>
            (Some (incr_failed s), c1,
             write_failed path_failed (str_of_err e) component fs)
        end
    end.

Definition comments_step (w : world) (fuel : nat) (num : Z) :=
  component_step w fuel (comments_endpoint num)
    (path_comments num) (path_comments_failed num) "comments" Ok.

Definition timeline_step (w : world) (fuel : nat) (num : Z) :=
  component_step w fuel (timeline_endpoint num)
    (path_timeline num) (path_timeline_failed num) "timeline" Ok.

Definition xrefs_step (w : world) (fuel : nat) (num : Z) :=
  component_step w fuel (timeline_endpoint num)
    (path_xrefs num) (path_xrefs_failed num) "xrefs" extract_xrefs.

(** A block guarded by its [do_...] flag, run on what the blocks before
    it have left. *)
Definition when (flag : bool)
    (step : stats -> client -> gmap string file -> option stats * client * gmap string file)
    (st : option stats * client * gmap string file)
  : option stats * client * gmap string file :=
  match st with
  | (Some s, c, fs) => if flag then step s c fs else (Some s, c, fs)
  | (None, c, fs) => (None, c, fs)
  end.

(** The three optional blocks, in the order of the source. *)
Definition optional_steps (w : world) (fuel : nat) (num : Z)
    (do_comments do_timeline do_xrefs : bool)
    (st : option stats * client * gmap string file)
  : option stats * client * gmap string file :=
  when do_xrefs (xrefs_step w fuel num)
    (when do_timeline (timeline_step w fuel num)
       (when do_comments (comments_step w fuel num) st)).

Definition process_item (w : world) (fuel : nat) (c : client) (fs : gmap string file) (num : Z)
    (do_main do_comments do_timeline do_xrefs : bool)
  : option stats * client * gmap string file :=
  let s := stats0 in
  if file_exists (path_404 num) fs then (Some (set_skip_404 s), c, fs)
  else if file_exists (path_skip num) fs then (Some (set_skip_date s), c, fs)
  else
    let '(fl, s1, c1, fs1) :=
      if do_main then main_step w num s c fs else (Continue, s, c, fs) in
    match fl with
    | Return => (Some s1, c1, fs1)
    | Continue =>
        if (do_comments || do_timeline || do_xrefs) && negb do_main
           && negb (file_exists (path_main num) fs1)
        then (Some s1, c1, fs1)
        else optional_steps w fuel num do_comments do_timeline do_xrefs (Some s1, c1, fs1)
    end.

(** ** Discovery of the latest record *)

Definition discover_endpoint : string :=
  "/repos/" +:+ REPO +:+ "/issues?state=all&sort=created&direction=desc&per_page=1".

(** What leaves [discover_latest] and [main] uncaught: an exception of
    [pyerr], the [KeyError] or [IndexError] of a subscript, or the
    [FileExistsError] of [mkdir]. *)
Inductive uncaught : Type :=
| Uncaught (e : pyerr)
| KeyError (key : json)
| IndexError (msg : string)
| FileExistsError (msg : string).

Inductive outcome (A : Type) : Type :=
| Returns (a : A)
| Raises (e : uncaught).
Arguments Returns {A} a.
Arguments Raises {A} e.

Definition could_not_discover : pyerr :=
  PyException "Could not discover latest issue number".

(** [len(v) == 0] *)
Definition len_is_0 (v : json) : result bool :=
  match v with
  | JStr s => Ok (String.eqb s "")
  | JList l => Ok (match l with [] => true | _ => false end)
  | JObj kvs => Ok (match kvs with [] => true | _ => false end)
  | _ => Raise (TypeError ("object of type '" +:+ type_name v +:+ "' has no len()"))
  end.

Definition not_subscriptable (v : json) : pyerr :=
  TypeError ("'" +:+ type_name v +:+ "' object is not subscriptable").

(** [v["number"]] *)
Definition subscript_number (v : json) : outcome json :=
  match v with
  | JObj kvs =>
      match assoc "number" kvs with
      | Some n => Returns n
      | None => Raises (KeyError (JStr "number"))
      end
  | JList _ => Raises (Uncaught (TypeError "list indices must be integers or slices, not str"))
  | JStr _ => Raises (Uncaught (TypeError "string indices must be integers, not 'str'"))
  | _ => Raises (Uncaught (not_subscriptable v))
  end.

(** [data[0]["number"]].  The first item of a string is a string again,
    whichever it is, and has no item ["number"]. *)
Definition first_number (data : json) : outcome json :=
  match data with
  | JList [] => Raises (IndexError "list index out of range")
  | JList (first :: _) => subscript_number first
  | JStr EmptyString => Raises (IndexError "string index out of range")
  | JStr (String _ _) => subscript_number data
  | JObj _ => Raises (KeyError (JInt 0))
  | _ => Raises (Uncaught (not_subscriptable data))
  end.

Definition discover_latest (w : world) (c : client) : outcome json * client :=
  let '(r, c1) := fetch w discover_endpoint c in
  match r with
  | Raise e => (Raises (Uncaught e), c1)
  | Ok data =>
      if negb (truthy data) then (Raises (Uncaught could_not_discover), c1)
      else
        match len_is_0 data with
        | Raise e => (Raises (Uncaught e), c1)
        | Ok true => (Raises (Uncaught could_not_discover), c1)
        | Ok false => (first_number data, c1)
        end
  end.

(** ** The program *)

(** The command line after [parse_args]. *)
Record arguments : Type := {
  args_start : option Z;
  args_end : option Z;
  args_main : bool;
  args_comments : bool;
  args_timeline : bool;
  args_xrefs : bool;
  args_discover : bool;
}.

(** [totals[k] += v] for every key of the counts of one record *)
Definition add_stats (totals s : stats) : stats :=
  {| fetched := fetched totals + fetched s;
     skip_404 := skip_404 totals + skip_404 s;
     skip_date := skip_date totals + skip_date s;
     skip_exists := skip_exists totals + skip_exists s;
     failed := failed totals + failed s |}.

(** [range(start, stop)] *)
Definition py_range (start stop : Z) : list Z :=
  map (fun k => start + Z.of_nat k) (seq 0 (Z.to_nat (stop - start))).

(** The [for num in range(...)] loop of [main], over the numbers still to
    come.  A record whose pagination does not come back stops the run. *)
Fixpoint process_items (w : world) (fuel : nat)
    (do_main do_comments do_timeline do_xrefs : bool)
    (nums : list Z) (totals : stats) (c : client) (fs : gmap string file)
  : option stats * client * gmap string file :=
  match nums with
  | [] => (Some totals, c, fs)
  | num :: rest =>
      match process_item w fuel c fs num do_main do_comments do_timeline do_xrefs with
      | (Some s, c1, fs1) =>
          process_items w fuel do_main do_comments do_timeline do_xrefs rest
            (add_stats totals s) c1 fs1
      | (None, c1, fs1) => (None, c1, fs1)
      end
  end.

(** What [main] finds and leaves on disk: the directories and the files. *)
Record disk : Type := {
  directories : gset string;
  files : gmap string file;
}.

(** [ITEMS_DIR.mkdir(exist_ok=True)]: nothing to do when the directory
    exists, [FileExistsError] when a file has its name. *)
Definition mkdir_items (d : disk) : outcome disk :=
  if decide (ITEMS_DIR ∈ directories d) then Returns d
  else
    match files d !! ITEMS_DIR with
    | Some _ => Raises (FileExistsError ("[Errno 17] File exists: '" +:+ ITEMS_DIR +:+ "'"))
    | None => Returns {| directories := {[ ITEMS_DIR ]} ∪ directories d; files := files d |}
    end.

(** How [main] ends: it prints the latest number, stops on the usage
    error of [parser.error], reports the totals, or dies of an exception. *)
Inductive ending : Type :=
| Printed (latest : json)
| UsageError
| Done (totals : stats)
| Traceback (e : uncaught).

(** [main], from the command line.  The directory is made first, before
    the client and before the arguments are looked at.  The credentials of
    the client and the closing of its connection in the [finally] clause
    have no part in what is requested and written and are left out.  The
    ending is [None] when a pagination does not come back. *)
Definition main (w : world) (fuel : nat) (args : arguments) (d : disk)
  : option ending * client * disk :=
  match mkdir_items d with
  | Raises e => (Some (Traceback e), new_client, d)
  | Returns d1 =>
      let client := new_client in
      if args_discover args then
        match discover_latest w client with
        | (Returns latest, c1) => (Some (Printed latest), c1, d1)
        | (Raises e, c1) => (Some (Traceback e), c1, d1)
        end
      else
        match args_start args, args_end args with
        | Some start, Some end_ =>
            let totals := stats0 in
            match process_items w fuel (args_main args) (args_comments args)
                    (args_timeline args) (args_xrefs args)
                    (py_range start (end_ + 1)) totals client (files d1) with
            | (Some totals', c1, fs1) =>
                (Some (Done totals'), c1, {| directories := directories d1; files := fs1 |})
            | (None, c1, fs1) =>
                (None, c1, {| directories := directories d1; files := fs1 |})
            end
        | _, _ => (Some UsageError, client, d1)
        end
  end.

(** * Definitions used by the statements *)

(** ** Cross-reference extraction: shapes and entries *)

(** The extractor calls [.get] on [source] and on [source.issue] after
    [... or {}]: it goes through when each of the two is a dict or falsy. *)
Definition dict_or_falsy (v : json) : bool :=
  match v with
  | JObj _ => true
  | _ => negb (truthy v)
  end.

Definition source_of (ev : list (string * json)) : json :=
  py_or (dict_get ev "source") (JObj []).

Definition issue_of (ev : list (string * json)) : json :=
  match source_of ev with
  | JObj src => py_or (dict_get src "issue") (JObj [])
  | _ => JObj []
  end.

Definition issue_number (ev : list (string * json)) : json :=
  match issue_of ev with
  | JObj issue => dict_get issue "number"
  | _ => JNull
  end.

Definition well_shaped (event : json) : bool :=
  match event with
  | JObj ev =>
      if is_str (dict_get ev "event") "cross-referenced" then
        dict_or_falsy (dict_get ev "source")
        && match source_of ev with
           | JObj src => dict_or_falsy (dict_get src "issue")
           | _ => false
           end
      else true
  | _ => true
  end.

Definition actor_login_of (ev : list (string * json)) : json :=
  match dict_get ev "actor" with
  | JObj a => dict_get a "login"
  | _ => JNull
  end.

(** The entry of one event as section 4.6 of the specification words it,
    "absent" read as Python reads it: not truthy. *)
Definition xref_entry (event : json) : option json :=
  match event with
  | JObj ev =>
      if is_str (dict_get ev "event") "cross-referenced" then
        if truthy (issue_number ev) then
          Some (JObj [("event", JStr "cross-referenced");
                      ("from", issue_number ev);
                      ("type", match source_of ev with
                               | JObj src => dict_get_default src "type" (JStr "issue")
                               | _ => JStr "issue"
                               end);
                      ("actor", actor_login_of ev);
                      ("date", dict_get ev "created_at")])
        else None
      else if is_str (dict_get ev "event") "referenced" then
        if truthy (dict_get ev "commit_id") then
          Some (JObj [("event", JStr "referenced");
                      ("commit", dict_get ev "commit_id");
                      ("actor", actor_login_of ev);
                      ("date", dict_get ev "created_at")])
        else None
      else None
  | _ => None
  end.

(** Sample events of the timeline. *)
Definition xref_populated : json :=
  JObj [("event", JStr "cross-referenced");
        ("created_at", JStr "2015-03-01T10:00:00Z");
        ("actor", JObj [("login", JStr "brson")]);
        ("source", JObj [("type", JStr "issue");
                         ("issue", JObj [("number", JInt 1234)])])].
Definition xref_without_number : json :=
  JObj [("event", JStr "cross-referenced");
        ("source", JObj [("type", JStr "issue"); ("issue", JObj [])])].
Definition referenced_without_commit : json :=
  JObj [("event", JStr "referenced"); ("commit_id", JNull)].
Definition xref_source_string : json :=
  JObj [("event", JStr "cross-referenced"); ("source", JStr "x")].
Definition xref_number_zero : json :=
  JObj [("event", JStr "cross-referenced");
        ("source", JObj [("issue", JObj [("number", JInt 0)])])].


(** ** Reading a trace *)

Definition gets (evs : list event) : list string :=
  omap (fun e => match e with EvGet endpoint => Some endpoint | _ => None end) evs.

(** The pause of [_check_rate_limit], as opposed to requests and backoff. *)
Definition is_pause (e : event) : bool :=
  match e with
  | EvRateLow _ => true
  | _ => false
  end.

Definition without_pauses (evs : list event) : list event :=
  filter (fun e => is_pause e = false) evs.

(** Rounds of one request followed by one backoff wait. *)
Definition rounds (endpoint : string) (waits : list Q) : list event :=
  flat_map (fun d => [EvGet endpoint; EvBackoff d]) waits.

(** ** Kinds of reply, as [fetch] tells them apart *)

Definition is_rate_limited (r : reply) : bool :=
  match r with
  | Response status_code _ _ => (status_code =? 403) || (status_code =? 429)
  | _ => false
  end.

(** The errors [fetch] retries after a backoff: a timeout, a transport
    error, a status other than 200, 404, 403 and 429, or a 200 whose body
    is text that is no JSON ([json.JSONDecodeError]).  A reply on which
    [int] or the decoding of the body raises is none of them. *)
Definition is_transient (r : reply) : bool :=
  match r with
  | TimeoutException | RequestError => true
  | Response status_code _ body =>
      if (status_code =? 404) || (status_code =? 403) || (status_code =? 429) then false
      else if status_code =? 200 then
        match body with None => true | Some _ => false end
      else true
  | BadHeader _ _ | BadBody _ _ => false
  end.

(** The range of [backoff_sleep attempt] over the jitter draws: from 0.75
    to 1.25 times 2 to the power of the attempt, both ends included. *)
Definition in_jitter_bounds (attempt : nat) (d : Q) : Prop :=
  ((3 # 4) * 2 ^ Z.of_nat attempt <= d /\ d <= (5 # 4) * 2 ^ Z.of_nat attempt)%Q.

(** A number that some float holds. *)
Definition representable (q : Q) : Prop :=
  exists m e, Z.abs m < 2 ^ 53 /\ (q == inject_Z m * 2 ^ e)%Q.

(** The tracker holds a quota below the buffer and a reset time that asks
    for a pause of [sleep_time] seconds at clock reading [now]. *)
Definition quota_low (remaining reset : option Z) (now sleep_time : Z) : Prop :=
  exists r t, remaining = Some r /\ r < RATE_LIMIT_BUFFER
              /\ reset = Some t /\ t <> 0
              /\ sleep_time = t - now + 5 /\ 0 < sleep_time.

(** A pause that [time.sleep] takes: it sleeps for some 292 years at
    most, and the model follows it up to 2^32 seconds. *)
Definition sleepable (sleep_time : Z) : Prop := sleep_time <= 2 ^ 32.

(** The headers of a reply that is a response of status 200, whatever its
    body. *)
Definition status_200 (r : reply) : option headers :=
  match r with
  | Response status_code hdrs _ => if status_code =? 200 then Some hdrs else None
  | BadBody hdrs _ => Some hdrs
  | _ => None
  end.


(** Page [S i] of [endpoint] is the [i]-th request after those [c] has made. *)
Definition page_reply (w : world) (endpoint : string) (c : client) (i : nat) : reply :=
  net w (page_url endpoint (S i)) (requests c + i).

Definition serves (w : world) (endpoint : string) (c : client) (i : nat) (data : json) : Prop :=
  exists hdrs, page_reply w endpoint c i = Response 200 hdrs (Some data).

Definition not_found (w : world) (endpoint : string) (c : client) (i : nat) : Prop :=
  exists hdrs body, page_reply w endpoint c i = Response 404 hdrs body.


Definition is_none (v : json) : bool :=
  match v with
  | JNull => true
  | _ => false
  end.




(** ** Components and their markers *)

Inductive component : Type :=
| Main
| Comments
| Timeline
| Xrefs.

Definition success_path (num : Z) (comp : component) : string :=
  match comp with
  | Main => path_main num
  | Comments => path_comments num
  | Timeline => path_timeline num
  | Xrefs => path_xrefs num
  end.

Definition failure_path (num : Z) (comp : component) : string :=
  match comp with
  | Main => path_main_failed num
  | Comments => path_comments_failed num
  | Timeline => path_timeline_failed num
  | Xrefs => path_xrefs_failed num
  end.

(** The optional components asked for by the flags of [process_item]. *)
Definition requested (do_comments do_timeline do_xrefs : bool) (comp : component) : bool :=
  match comp with
  | Main => false
  | Comments => do_comments
  | Timeline => do_timeline
  | Xrefs => do_xrefs
  end.

(** The counts after a block that was asked for found its marker. *)
Definition skipped (flag : bool) (s : stats) : stats :=
  if flag then incr_skip_exists s else s.

(** What a block of the driver may do to the pair of markers at [path] and
    [path_failed], to the other files, to the trace and to the counts. *)
Definition step_effect (path path_failed : string) (flag : bool)
    (st st' : option stats * client * gmap string file) : Prop :=
  (exists evs, trace st'.1.2 = trace st.1.2 ++ evs)
  /\ (forall p, p <> path -> p <> path_failed -> st'.2 !! p = st.2 !! p)
  /\ ((st'.2 !! path = st.2 !! path
       /\ (st'.2 !! path_failed = st.2 !! path_failed \/ st.2 !! path = None))
      \/ (st.2 !! path = None /\ is_Some (st'.2 !! path) /\ st'.2 !! path_failed = None))
  /\ (forall s', st'.1.1 = Some s' ->
        exists s, st.1.1 = Some s
          /\ skip_404 s' = skip_404 s /\ skip_date s' = skip_date s
          /\ (fetched s <= fetched s')%nat /\ (failed s <= failed s')%nat
          /\ (flag = true -> is_Some (st'.2 !! path) \/ is_Some (st'.2 !! path_failed)))
  /\ (flag = false -> st' = st).

(** What the main block may do: it touches the two terminal markers and
    the pair of markers of main only, and goes on only with the main marker
    in place and the terminal markers as they were. *)
Definition main_effect (num : Z) (s : stats) (c : client) (fs : gmap string file)
    (out : flow * stats * client * gmap string file) : Prop :=
  let '(fl, s', c', fs') := out in
  (exists evs, trace c' = trace c ++ evs)
  /\ (forall p, p <> path_404 num -> p <> path_skip num -> p <> path_main num ->
                p <> path_main_failed num -> fs' !! p = fs !! p)
  /\ (fs' !! path_main num = fs !! path_main num
      \/ (fs !! path_main num = None /\ is_Some (fs' !! path_main num)
          /\ fs' !! path_main_failed num = None))
  /\ (fl = Continue ->
      is_Some (fs' !! path_main num)
      /\ fs' !! path_404 num = fs !! path_404 num
      /\ fs' !! path_skip num = fs !! path_skip num
      /\ skip_404 s' = skip_404 s /\ skip_date s' = skip_date s
      /\ (fetched s <= fetched s')%nat /\ (failed s <= failed s')%nat).

(** ** Sample worlds *)

Definition no_headers : headers :=
  {| x_ratelimit_remaining := None; x_ratelimit_reset := None |}.

(** Every request is answered 503. *)
Definition always_503 : world :=
  {| net := fun _ _ =>
       Response 503 no_headers None;
     clock := fun _ => 0;
     random_bits := fun k => (N.of_nat k * 1000003)%N |}.


(** The first reply is a 404 that reports the quota spent until second 1000;
    later replies are 200 with an empty object. *)
Definition quota_spent : world :=
  {| net := fun _ k =>
       match k with
       | O => Response 404 {| x_ratelimit_remaining := Some 0;
                              x_ratelimit_reset := Some 1000 |} None
       | _ => Response 200 no_headers (Some (JObj []))
       end;
     clock := fun _ => 0;
     random_bits := fun _ => 0%N |}.

(** A world that serves the given pages in turn, then empty pages. *)
Definition serving (pages : list (list json)) : world :=
  {| net := fun _ k =>
       Response 200 no_headers (Some (JList (nth k pages [])));
     clock := fun _ => 0;
     random_bits := fun _ => 0%N |}.

Definition items (n : nat) : list json := map (fun i => JInt (Z.of_nat i)) (seq 0 n).

(** Every request is answered 200 with the same body. *)
Definition answering (body : json) : world :=
  {| net := fun _ _ => Response 200 no_headers (Some body);
     clock := fun _ => 0;
     random_bits := fun _ => 0%N |}.

Definition record_created (created_at : string) : json :=
  JObj [("number", JInt 50000); ("title", JStr "an issue"); ("created_at", JStr created_at)].

Definition record_without_date : json :=
  JObj [("number", JInt 9); ("pull_request", JObj [("url", JStr "u")])].

(** Comments are answered 500 at every attempt; any other endpoint gets one
    short page of two timeline events. *)
Definition failing_comments (num : Z) : world :=
  {| net := fun endpoint _ =>
       if String.eqb endpoint (page_url (comments_endpoint num) 1)
       then Response 500 no_headers None
       else Response 200 no_headers (Some (JList [xref_populated; xref_without_number]));
     clock := fun _ => 0;
     random_bits := fun _ => 0%N |}.

(** A first run over record [num]: the record is answered with a body of
    2015, its comments with a 500 at every attempt, anything else with one
    short page of two timeline events. *)
Definition comments_down (num : Z) : world :=
  {| net := fun endpoint _ =>
       if String.eqb endpoint (main_endpoint num)
       then Response 200 no_headers (Some (record_created "2015-06-01T00:00:00Z"))
       else if String.eqb endpoint (page_url (comments_endpoint num) 1)
       then Response 500 no_headers None
       else Response 200 no_headers (Some (JList [xref_populated; xref_without_number]));
     clock := fun _ => 0;
     random_bits := fun _ => 0%N |}.

(** The markers of a record whose main component is in place. *)
Definition main_done (num : Z) : gmap string file :=
  {[ path_main num := FJson (JObj [("number", JInt num)]) ]}.

(** The same with a failure marker left by an earlier run of comments. *)
Definition comments_failed_before (num : Z) : gmap string file :=
  <[ path_comments_failed num := FFailed "Failed after 5 attempts: x" "comments" ]>
    (main_done num).

(** ** Further sample worlds *)

(** Two failed attempts, a 500 and a 429, then replies of 200 with [body]. *)
Definition flaky (body : json) : world :=
  {| net := fun _ k =>
       match k with
       | 0%nat => Response 500 no_headers None
       | 1%nat => Response 429 no_headers None
       | _ => Response 200 no_headers (Some body)
       end;
     clock := fun _ => 0;
     random_bits := fun _ => 0%N |}.

(** A rate-limit status that tells no time of reset: the header is missing
    or is 0. *)
Definition throttled_blind (r : reply) : bool :=
  match r with
  | Response status_code hdrs _ =>
      ((status_code =? 403) || (status_code =? 429))
      && match x_ratelimit_reset hdrs with
         | None => true
         | Some t => t =? 0
         end
  | _ => false
  end.



(** Every request is answered 429 without headers. *)
Definition always_429 : world :=
  {| net := fun _ _ => Response 429 no_headers None;
     clock := fun _ => 0;
     random_bits := fun _ => 0%N |}.

(** Every request is answered 503 and every draw of [random.random()] is
    the largest there is, 1 - 2^-53. *)
Definition always_503_slowest : world :=
  {| net := fun _ _ => Response 503 no_headers None;
     clock := fun _ => 0;
     random_bits := fun _ => (2 ^ 53 - 1)%N |}.

(** The backoff waits of a trace, in order. *)
Definition backoff_waits (evs : list event) : list Q :=
  flat_map (fun e => match e with EvBackoff d => [d] | _ => [] end) evs.

Definition total (waits : list Q) : Q := fold_right Qplus 0%Q waits.

(** The tracker of [c'] knows what the tracker of [c] knew. *)
Definition keeps_tracker (c c' : client) : Prop :=
  (is_Some (rate_remaining c) -> is_Some (rate_remaining c'))
  /\ (is_Some (rate_reset c) -> is_Some (rate_reset c')).

(** Page 1 of the comments of record 1 comes in full; every other request
    is answered 500. *)
Definition second_page_down : world :=
  {| net := fun endpoint _ =>
       if String.eqb endpoint (page_url (comments_endpoint 1) 1)
       then Response 200 no_headers (Some (JList (items 100)))
       else Response 500 no_headers None;
     clock := fun _ => 0;
     random_bits := fun _ => 0%N |}.

(** ** The two shapes of an entry of the cross-reference list *)

(** The value under "from" and the value under "commit" are what the event
    held, of whatever type: the code asks that they are truthy, not that
    they are a number or a string. *)
Definition is_xref_entry (x : json) : Prop :=
  (exists from_value type actor date,
     x = JObj [("event", JStr "cross-referenced"); ("from", from_value); ("type", type);
               ("actor", actor); ("date", date)]
     /\ truthy from_value = true)
  \/ (exists commit actor date,
        x = JObj [("event", JStr "referenced"); ("commit", commit);
                  ("actor", actor); ("date", date)]
        /\ truthy commit = true).

(** A cross-referenced event whose source issue holds [number] under
    "number". *)
Definition xref_numbered (number : json) : json :=
  JObj [("event", JStr "cross-referenced");
        ("source", JObj [("issue", JObj [("number", number)])])].

(** ** Reading a marker name back *)

(** [int(s)] for the text of [padded]: an optional sign, then digits. *)
Definition unpadded (s : string) : option Z :=
  option_map Z.of_int (NilZero.int_of_string s).

Definition is_digit (a : ascii) : bool :=
  (48 <=? nat_of_ascii a)%nat && (nat_of_ascii a <=? 57)%nat.

Fixpoint all_digits (s : string) : bool :=
  match s with
  | EmptyString => true
  | String a rest => is_digit a && all_digits rest
  end.

Fixpoint digits_prefix (s : string) : string :=
  match s with
  | EmptyString => ""
  | String a rest => if is_digit a then String a (digits_prefix rest) else ""
  end.

(** The longest prefix of [s] that reads as a number: a minus sign, if
    first, and the digits that follow. *)
Definition numeral_prefix (s : string) : string :=
  match s with
  | String a rest =>
      if Ascii.eqb a "-"%char then String a (digits_prefix rest) else digits_prefix s
  | EmptyString => ""
  end.

(** The suffixes of the ten markers of a record. *)
Definition marker_suffixes : list string :=
  [".404"; ".skip"; "-main.json"; "-main.failed"; "-comments.json"; "-comments.failed";
   "-timeline.json"; "-timeline.failed"; "-xrefs.json"; "-xrefs.failed"].

Definition starts_non_digit (s : string) : bool :=
  match s with
  | EmptyString => true
  | String a _ => negb (is_digit a)
  end.

(** What the main block may do to the two terminal markers: nothing, or
    write one of them and return. *)
Definition terminal_effect (num : Z) (fs : gmap string file)
    (out : flow * stats * client * gmap string file) : Prop :=
  let '(fl, _, _, fs') := out in
  (fs' !! path_404 num = fs !! path_404 num /\ fs' !! path_skip num = fs !! path_skip num)
  \/ (fl = Return /\ fs' !! path_404 num = Some FEmpty
      /\ fs' !! path_skip num = fs !! path_skip num)
  \/ (fl = Return /\ fs' !! path_skip num = Some FEmpty
      /\ fs' !! path_404 num = fs !! path_404 num).

(** A record body that is a list. *)
Definition record_list : json := JList [JObj [("number", JInt 3)]].

(** A record body whose creation timestamp is a number. *)
Definition record_numeric_date : json :=
  JObj [("number", JInt 3); ("created_at", JInt 1420070400)].

(** Every request is answered 404. *)
Definition always_404 : world :=
  {| net := fun _ _ => Response 404 no_headers None;
     clock := fun _ => 0;
     random_bits := fun _ => 0%N |}.

(** ** Counting *)

(** The number of component outcomes in the counts. *)
Definition outcomes (s : stats) : nat := (fetched s + skip_exists s + failed s)%nat.

Definition asked (flag : bool) : nat := if flag then 1%nat else 0%nat.

(** From [s] to [s'] the terminal counts are the same, no count has gone
    down and [n] component outcomes have been added. *)
Definition counted (n : nat) (s s' : stats) : Prop :=
  skip_404 s' = skip_404 s /\ skip_date s' = skip_date s
  /\ (fetched s <= fetched s')%nat /\ (skip_exists s <= skip_exists s')%nat
  /\ (failed s <= failed s')%nat
  /\ outcomes s' = (outcomes s + n)%nat.

(** The five ways the main block ends. *)
Inductive main_outcome (num : Z) (s : stats) (c : client) (fs : gmap string file)
  : flow * stats * client * gmap string file -> Prop :=
| main_exists :
    is_Some (fs !! path_main num) ->
    main_outcome num s c fs (Continue, incr_skip_exists s, c, fs)
| main_failed c1 e :
    fs !! path_main num = None ->
    main_outcome num s c fs
      (Return, incr_failed s, c1,
       write_failed (path_main_failed num) (str_of_err e) "main" fs)
| main_absent c1 :
    fs !! path_main num = None ->
    main_outcome num s c fs (Return, set_skip_404 s, c1, <[path_404 num := FEmpty]> fs)
| main_excluded c1 :
    fs !! path_main num = None ->
    main_outcome num s c fs (Return, set_skip_date s, c1, <[path_skip num := FEmpty]> fs)
| main_persisted c1 payload :
    fs !! path_main num = None ->
    main_outcome num s c fs
      (Continue, incr_fetched s, c1,
       delete (path_main_failed num) (<[path_main num := FJson payload]> fs)).

(** ** Records that are done *)

(** Every optional component asked for has its success marker. *)
Definition all_present (num : Z) (do_comments do_timeline do_xrefs : bool)
    (fs : gmap string file) : bool :=
  forallb (fun comp => implb (requested do_comments do_timeline do_xrefs comp)
                             (file_exists (success_path num comp) fs))
          [Comments; Timeline; Xrefs].

(** The markers of record [num] leave nothing to do for a call with the
    given flags: a terminal marker, or the main marker where it is needed
    and the success marker of every optional component asked for, or no
    main marker where the optional components wait for it. *)
Definition settled (num : Z) (do_main do_comments do_timeline do_xrefs : bool)
    (fs : gmap string file) : bool :=
  file_exists (path_404 num) fs
  || file_exists (path_skip num) fs
  || (if do_main
      then file_exists (path_main num) fs
           && all_present num do_comments do_timeline do_xrefs fs
      else ((do_comments || do_timeline || do_xrefs)
            && negb (file_exists (path_main num) fs))
           || all_present num do_comments do_timeline do_xrefs fs).

(** The records of a range, with their markers, after a run. *)
Definition range_args (start end_ : Z) (do_main do_comments do_timeline do_xrefs : bool)
  : arguments :=
  {| args_start := Some start; args_end := Some end_;
     args_main := do_main; args_comments := do_comments;
     args_timeline := do_timeline; args_xrefs := do_xrefs;
     args_discover := false |}.

Definition discover_args : arguments :=
  {| args_start := None; args_end := None;
     args_main := true; args_comments := true;
     args_timeline := false; args_xrefs := false;
     args_discover := true |}.

(** The world in which the newest record has number [n]. *)
Definition latest_is (n : Z) : world :=
  {| net := fun _ _ => Response 200 no_headers (Some (JList [JObj [("number", JInt n)]]));
     clock := fun _ => 0;
     random_bits := fun _ => 0%N |}.

(** * Properties *)

(** ** Cross-reference extraction *)

Lemma dict_or_falsy_or (v : json) :
  dict_or_falsy v = true -> exists d, py_or v (JObj []) = JObj d.
Proof.
  unfold py_or. destruct v; simpl; intros H;
    try (apply negb_true_iff in H; simpl in H; rewrite H); eauto.
  destruct kvs; eauto.
Qed.

Lemma not_dict_or_falsy_or (v : json) :
  dict_or_falsy v = false -> py_or v (JObj []) = v /\ forall k, exists e, py_get v k = Raise e.
Proof.
  unfold py_or. destruct v; simpl; intros H; try discriminate;
    apply negb_false_iff in H; simpl in H; rewrite H; eauto.
Qed.

Lemma xref_of_event_well_shaped (event : json) :
  well_shaped event = true -> xref_of_event event = Ok (xref_entry event).
Proof.
  destruct event as [| | | | | |ev]; try reflexivity.
  unfold well_shaped, xref_of_event, xref_entry, issue_number, issue_of, source_of,
    actor_login_of.
  destruct (is_str (dict_get ev "event") "cross-referenced");
    [|intros _; repeat case_match; reflexivity].
  intros H. apply andb_true_iff in H as [Hs Hi].
  destruct (dict_or_falsy_or _ Hs) as [src Hsrc]. rewrite Hsrc in *. simpl.
  destruct (dict_or_falsy_or _ Hi) as [issue Hissue]. rewrite Hissue. simpl.
  destruct (truthy (dict_get issue "number")); reflexivity.
Qed.

Lemma xref_of_event_ill_shaped (event : json) :
  well_shaped event = false -> exists e, xref_of_event event = Raise e.
Proof.
  destruct event as [| | | | | |ev]; try discriminate.
  unfold well_shaped, xref_of_event, source_of.
  destruct (is_str (dict_get ev "event") "cross-referenced"); [|discriminate].
  intros H. apply andb_false_iff in H as [Hs | Hi].
  - destruct (not_dict_or_falsy_or _ Hs) as [-> Hget].
    destruct (Hget "issue") as [e ->]. simpl. eauto.
  - destruct (py_or (dict_get ev "source") (JObj [])) as [| | | | | |src]; simpl; eauto.
    destruct (not_dict_or_falsy_or _ Hi) as [-> Hget].
    destruct (Hget "number") as [e ->]. simpl. eauto.
Qed.

Lemma extract_xrefs_loop_well_shaped (timeline xrefs : list json) :
  forallb well_shaped timeline = true ->
  extract_xrefs_loop timeline xrefs = Ok (xrefs ++ omap xref_entry timeline).
Proof.
  revert xrefs. induction timeline as [|event rest IH]; intros xrefs H; simpl.
  - by rewrite app_nil_r.
  - simpl in H. apply andb_true_iff in H as [He Hrest].
    rewrite (xref_of_event_well_shaped _ He).
    destruct (xref_entry event) as [x|]; rewrite IH by done; [|done].
    by rewrite <- app_assoc.
Qed.

Lemma extract_xrefs_loop_ill_shaped (timeline xrefs : list json) :
  forallb well_shaped timeline = false ->
  exists e, extract_xrefs_loop timeline xrefs = Raise e.
Proof.
  revert xrefs. induction timeline as [|event rest IH]; intros xrefs H; simpl in *.
  - discriminate.
  - destruct (well_shaped event) eqn:He; simpl in H.
    + rewrite (xref_of_event_well_shaped _ He).
      destruct (xref_entry event); by apply IH.
    + destruct (xref_of_event_ill_shaped _ He) as [e ->]. eauto.
Qed.

Lemma omap_length_le {A B} (f : A -> option B) (l : list A) :
  (length (omap f l) <= length l)%nat.
Proof.
  induction l as [|a l IH]; [done|].
  change (omap f (a :: l)) with (match f a with Some b => b :: omap f l | None => omap f l end).
  destruct (f a); simpl; lia.
Qed.

(** C6, as stated, fails: the extractor does not return on every sequence
    of events.  A cross-referenced event whose [source] is a non-empty
    string makes [source.get] raise [AttributeError], so no sequence is
    returned; and an issue number that is present but is 0 is dropped. *)
Lemma extract_xrefs_counterexample :
  extract_xrefs [xref_source_string]
    = Raise (AttributeError "'str' object has no attribute 'get'")
  /\ ~ (exists out, extract_xrefs [xref_source_string] = Ok out
                    /\ (length out <= 1)%nat)
  /\ extract_xrefs [xref_number_zero] = Ok [].
Proof.
  split; [reflexivity|]. split; [|reflexivity].
  intros [out [H _]]. discriminate H.
Qed.

(** C6, amended: [extract_xrefs] returns exactly on the sequences whose
    cross-referenced events have a [source] and a [source.issue] that are
    each a dict or falsy, and raises on the others.  When it returns, the
    result is the in-order sequence of the entries of [xref_entry]: one for
    a cross-referenced event exactly when its nested issue number is truthy,
    one for a referenced event exactly when its commit id is truthy, nothing
    for any other event; it is no longer than the input.  One populated
    cross-referenced event and one without the number give one entry; a
    referenced event without commit id gives none. *)
Theorem extract_xrefs_spec (timeline : list json) :
  ((exists out, extract_xrefs timeline = Ok out) <-> forallb well_shaped timeline = true)
  /\ (forall out, extract_xrefs timeline = Ok out ->
        out = omap xref_entry timeline /\ (length out <= length timeline)%nat)
  /\ (exists entry, extract_xrefs [xref_populated; xref_without_number] = Ok [entry])
  /\ extract_xrefs [referenced_without_commit] = Ok [].
Proof.
  assert (Hret : forall out, extract_xrefs timeline = Ok out ->
                   forallb well_shaped timeline = true).
  { intros out H. destruct (forallb well_shaped timeline) eqn:E; [done|].
    destruct (extract_xrefs_loop_ill_shaped timeline [] E) as [e He].
    unfold extract_xrefs in H. congruence. }
  split; [|split; [|split]].
  - split; [intros [out H]; eauto|].
    intros H. eexists. by apply extract_xrefs_loop_well_shaped.
  - intros out H. pose proof (Hret _ H) as Hws.
    unfold extract_xrefs in H. rewrite extract_xrefs_loop_well_shaped in H by done.
    simpl in H. injection H as <-. split; [done|apply omap_length_le].
  - eexists. reflexivity.
  - reflexivity.
Qed.

Lemma extract_xrefs_spec_witness :
  extract_xrefs [xref_populated; xref_number_zero; referenced_without_commit; JInt 3]
  = Ok [JObj [("event", JStr "cross-referenced"); ("from", JInt 1234);
              ("type", JStr "issue"); ("actor", JStr "brson");
              ("date", JStr "2015-03-01T10:00:00Z")]].
Proof.
  pose proof (extract_xrefs_spec
    [xref_populated; xref_number_zero; referenced_without_commit; JInt 3]) as [Hret [Hout _]].
  destruct (proj2 Hret eq_refl) as [out Hok].
  destruct (Hout out Hok) as [-> _]. exact Hok.
Defined.

(** * Floats: exact operations and the range of a rounded one *)

Lemma pow2_Q_pos (z : Z) : (0 < 2 ^ z)%Q.
Proof. apply Qpower_0_lt. reflexivity. Qed.

Lemma pow2_Q_plus (a b : Z) : (2 ^ (a + b) == 2 ^ a * 2 ^ b)%Q.
Proof. apply Qpower_plus. discriminate. Qed.

Lemma pow2_Q_inject (z : Z) : 0 <= z -> (2 ^ z == inject_Z (2 ^ z))%Q.
Proof. intros H. symmetry. exact (Zpower_Qpower 2 z H). Qed.

Lemma pow2_Z_pos (z : Z) : 0 <= z -> 0 < 2 ^ z.
Proof. intros H. apply Z.pow_pos_nonneg; lia. Qed.

(** ** Rounding an integer *)

Lemma round_half_even_exact (n s : Z) : 0 < s -> round_half_even (n * 2 ^ s) s = n.
Proof.
  intros Hs. unfold round_half_even.
  pose proof (pow2_Z_pos s ltac:(lia)) as Hp.
  pose proof (pow2_Z_pos (s - 1) ltac:(lia)) as Hh.
  rewrite Z.div_mul, Z.mod_mul by lia. cbv zeta.
  destruct (Z.ltb_spec 0 (2 ^ (s - 1))); [done|lia].
Qed.

Lemma round_half_even_scale (n s j : Z) :
  0 < s -> 0 <= j -> round_half_even (n * 2 ^ j) (s + j) = round_half_even n s.
Proof.
  intros Hs Hj. unfold round_half_even.
  pose proof (pow2_Z_pos s ltac:(lia)) as Hp.
  pose proof (pow2_Z_pos j Hj) as Hq.
  rewrite (Z.pow_add_r 2 s j) by lia.
  replace (s + j - 1) with ((s - 1) + j) by lia.
  rewrite (Z.pow_add_r 2 (s - 1) j) by lia.
  rewrite Z.div_mul_cancel_r, Z.mul_mod_distr_r by lia. cbv zeta.
  set (r := n mod 2 ^ s). set (h := 2 ^ (s - 1)). set (q := n / 2 ^ s).
  destruct (Z.ltb_spec r h), (Z.ltb_spec (r * 2 ^ j) (h * 2 ^ j)); try done; try nia.
  destruct (Z.ltb_spec h r), (Z.ltb_spec (h * 2 ^ j) (r * 2 ^ j)); try done; nia.
Qed.

Lemma round_half_even_bounds (n s : Z) :
  0 < s -> n / 2 ^ s <= round_half_even n s <= n / 2 ^ s + 1.
Proof. intros Hs. unfold round_half_even. cbv zeta. repeat case_match; lia. Qed.

(** ** Rounding to a float *)

Lemma round_float_small (m e : Z) :
  Z.abs m < 2 ^ 53 -> round_float m e = {| mantissa := m; exponent := e |}.
Proof.
  intros H. unfold round_float. cbv zeta.
  destruct (Z.eq_dec m 0) as [->|Hm]; [done|].
  assert (Z.log2 (Z.abs m) < 53) by (apply Z.log2_lt_pow2; lia).
  destruct (Z.leb_spec (Z.log2 (Z.abs m) + 1 - 53) 0); [done|lia].
Qed.

Lemma float_value_scale (m e j : Z) :
  0 <= j -> (inject_Z (m * 2 ^ j) * 2 ^ (e - j) == inject_Z m * 2 ^ e)%Q.
Proof.
  intros Hj. rewrite inject_Z_mult, <- (pow2_Q_inject j Hj).
  replace e with ((e - j) + j) at 2 by lia. rewrite (pow2_Q_plus (e - j) j). ring.
Qed.

(** The float of a number does not depend on how the number is written. *)
Lemma round_float_scale (m e j : Z) :
  0 <= j ->
  (float_value (round_float (m * 2 ^ j) (e - j)) == float_value (round_float m e))%Q.
Proof.
  intros Hj. pose proof (pow2_Z_pos j Hj) as Hq.
  destruct (Z.eq_dec m 0) as [->|Hm].
  { rewrite Z.mul_0_l. unfold round_float, float_value. simpl. ring. }
  unfold round_float. cbv zeta.
  assert (Ha : Z.abs (m * 2 ^ j) = Z.abs m * 2 ^ j) by (rewrite Z.abs_mul; f_equal; lia).
  assert (Hl : Z.log2 (Z.abs (m * 2 ^ j)) = Z.log2 (Z.abs m) + j).
  { rewrite Ha, Z.log2_mul_pow2 by lia. lia. }
  assert (Hs : Z.sgn (m * 2 ^ j) = Z.sgn m) by (rewrite Z.sgn_mul; lia).
  rewrite Hl, Hs, Ha.
  set (x := Z.log2 (Z.abs m) + 1 - 53).
  replace (Z.log2 (Z.abs m) + j + 1 - 53) with (x + j) by (unfold x; lia).
  destruct (Z.leb_spec x 0) as [Hx|Hx].
  - destruct (Z.leb_spec (x + j) 0) as [Hxj|Hxj]; unfold float_value; simpl.
    + by apply float_value_scale.
    + replace (Z.abs m * 2 ^ j) with ((Z.abs m * 2 ^ (j - (x + j))) * 2 ^ (x + j)).
      2:{ rewrite <- Z.mul_assoc, <- Z.pow_add_r by lia. do 2 f_equal. lia. }
      rewrite round_half_even_exact by lia.
      assert (Hsa : Z.sgn m * Z.abs m = m) by (destruct m; simpl; lia).
      rewrite Z.mul_assoc, Hsa.
      replace (e - j + (x + j)) with (e - (j - (x + j))) by lia.
      apply float_value_scale. lia.
  - destruct (Z.leb_spec (x + j) 0) as [Hxj|Hxj]; [lia|].
    rewrite round_half_even_scale by lia.
    by replace (e - j + (x + j)) with (e + x) by lia.
Qed.

Lemma round_float_indep (m e m' e' : Z) :
  (inject_Z m * 2 ^ e == inject_Z m' * 2 ^ e')%Q ->
  (float_value (round_float m e) == float_value (round_float m' e'))%Q.
Proof.
  assert (Hmain : forall m e m' e', e <= e' ->
            (inject_Z m * 2 ^ e == inject_Z m' * 2 ^ e')%Q ->
            (float_value (round_float m e) == float_value (round_float m' e'))%Q).
  { clear. intros m e m' e' Hle H.
    assert (Hm : m = m' * 2 ^ (e' - e)).
    { apply inject_Z_injective. rewrite inject_Z_mult, <- pow2_Q_inject by lia.
      pose proof (pow2_Q_pos e) as Hp.
      replace e' with (e + (e' - e)) in H by lia. rewrite pow2_Q_plus in H.
      apply (Qmult_inj_r _ _ (2 ^ e)%Q); [intros E; rewrite E in Hp; by apply Qlt_irrefl in Hp|].
      rewrite H. ring. }
    pose proof (round_float_scale m' e' (e' - e) ltac:(lia)) as R.
    replace (e' - (e' - e)) with e in R by lia. by rewrite Hm. }
  intros H. destruct (Z.le_ge_cases e e'); [by apply Hmain|].
  symmetry. apply Hmain; [lia|by symmetry].
Qed.

Lemma round_float_exact (m e : Z) :
  representable (inject_Z m * 2 ^ e) ->
  (float_value (round_float m e) == inject_Z m * 2 ^ e)%Q.
Proof.
  intros (m' & e' & Hm & H). rewrite (round_float_indep m e m' e' H).
  by rewrite round_float_small, H.
Qed.

Lemma float_mul_exact (x y : float) :
  representable (float_value x * float_value y) ->
  (float_value (float_mul x y) == float_value x * float_value y)%Q.
Proof.
  assert (E : (float_value x * float_value y
               == inject_Z (mantissa x * mantissa y) * 2 ^ (exponent x + exponent y))%Q).
  { unfold float_value. rewrite inject_Z_mult, pow2_Q_plus. ring. }
  intros (m & e & Hm & H). unfold float_mul. rewrite E.
  apply round_float_exact. exists m, e. split; [done|]. by rewrite <- E.
Qed.

Lemma float_add_sum (x y : float) :
  let e := Z.min (exponent x) (exponent y) in
  (inject_Z (mantissa x * 2 ^ (exponent x - e) + mantissa y * 2 ^ (exponent y - e)) * 2 ^ e
   == float_value x + float_value y)%Q.
Proof.
  cbv zeta. set (e := Z.min (exponent x) (exponent y)).
  assert (Hx : 0 <= exponent x - e) by lia. assert (Hy : 0 <= exponent y - e) by lia.
  unfold float_value. rewrite inject_Z_plus, Qmult_plus_distr_l.
  rewrite <- (float_value_scale (mantissa x) (exponent x) (exponent x - e) Hx).
  rewrite <- (float_value_scale (mantissa y) (exponent y) (exponent y - e) Hy).
  by replace (exponent x - (exponent x - e)) with e by lia;
     replace (exponent y - (exponent y - e)) with e by lia.
Qed.

Lemma float_add_exact (x y : float) :
  representable (float_value x + float_value y) ->
  (float_value (float_add x y) == float_value x + float_value y)%Q.
Proof.
  intros (m & e & Hm & H). unfold float_add. cbv zeta.
  rewrite <- (float_add_sum x y).
  apply round_float_exact. exists m, e. split; [done|]. by rewrite (float_add_sum x y).
Qed.

Lemma float_sub_exact (x y : float) :
  representable (float_value x - float_value y) ->
  (float_value (float_sub x y) == float_value x - float_value y)%Q.
Proof.
  intros H. unfold float_sub.
  assert (E : (float_value {| mantissa := - mantissa y; exponent := exponent y |}
               == - float_value y)%Q).
  { unfold float_value. simpl. rewrite inject_Z_opp. ring. }
  rewrite float_add_exact.
  - by rewrite E.
  - destruct H as (m & e & Hm & H). exists m, e. split; [done|]. by rewrite E.
Qed.

(** ** The wait of [backoff_sleep] *)

Lemma float_pow_base (a : nat) :
  (float_value (float_pow BASE_BACKOFF a) == 2 ^ Z.of_nat a)%Q.
Proof.
  induction a as [|a IH].
  - reflexivity.
  - change (float_pow BASE_BACKOFF (S a))
      with (float_mul BASE_BACKOFF (float_pow BASE_BACKOFF a)).
    assert (E : (float_value BASE_BACKOFF * float_value (float_pow BASE_BACKOFF a)
                 == 2 ^ Z.of_nat (S a))%Q).
    { rewrite IH, Nat2Z.inj_succ. unfold Z.succ. rewrite pow2_Q_plus.
      change (float_value BASE_BACKOFF) with (2 * 2 ^ 0)%Q. change (2 ^ 0)%Q with 1%Q.
      change (2 ^ 1)%Q with 2%Q. ring. }
    rewrite float_mul_exact; [exact E|].
    exists 1, (Z.of_nat (S a)). split; [reflexivity|]. rewrite E.
    change (inject_Z 1) with 1%Q. ring.
Qed.

(** Up to the last sum every operation of [backoff_time] is exact: the
    wait is the float nearest to [(3 * 2^52 + k) * 2^(attempt - 54)], for
    the draw [k * 2^-53]. *)
Lemma backoff_time_value (a : nat) (k : Z) :
  0 <= k < 2 ^ 53 ->
  (float_value (backoff_time a {| mantissa := k; exponent := -53 |})
   == float_value (round_float (3 * 2 ^ 52 + k) (Z.of_nat a - 54)))%Q.
Proof.
  intros Hk. unfold backoff_time. cbv zeta.
  set (r := {| mantissa := k; exponent := -53 |}).
  set (base := float_pow BASE_BACKOFF a).
  pose proof (float_pow_base a) as Hbase. fold base in Hbase.
  assert (Hr : (float_value r == inject_Z k * 2 ^ (-53))%Q) by reflexivity.
  (* 2 * r *)
  assert (H2r : (float_value (float_mul (float_of_int 2) r) == inject_Z k * 2 ^ (-52))%Q).
  { assert (E : (float_value (float_of_int 2) * float_value r == inject_Z k * 2 ^ (-52))%Q).
    { rewrite Hr. change (float_value (float_of_int 2)) with (2 * 2 ^ 0)%Q.
      change (2 ^ 0)%Q with 1%Q. change (-52) with (1 + -53).
      rewrite pow2_Q_plus. change (2 ^ 1)%Q with 2%Q. ring. }
    rewrite float_mul_exact; [exact E|].
    exists k, (-52). split; [lia|exact E]. }
  (* 2 * r - 1 *)
  set (t := float_mul (float_of_int 2) r) in *.
  assert (Hu : (float_value (float_sub t (float_of_int 1))
                == inject_Z (k - 2 ^ 52) * 2 ^ (-52))%Q).
  { assert (E : (float_value t - float_value (float_of_int 1)
                 == inject_Z (k - 2 ^ 52) * 2 ^ (-52))%Q).
    { rewrite H2r. change (float_value (float_of_int 1)) with 1%Q.
      unfold Zminus. rewrite inject_Z_plus, inject_Z_opp.
      change (inject_Z (2 ^ 52)) with (2 ^ 52)%Q.
      assert (P : (2 ^ 52 * 2 ^ (-52) == 1)%Q) by reflexivity.
      transitivity (inject_Z k * 2 ^ (-52) - 2 ^ 52 * 2 ^ (-52))%Q; [by rewrite P|ring]. }
    rewrite float_sub_exact; [exact E|].
    exists (k - 2 ^ 52), (-52). split; [lia|exact E]. }
  set (u := float_sub t (float_of_int 1)) in *.
  (* base * JITTER *)
  assert (Hbj : (float_value (float_mul base JITTER) == 2 ^ (Z.of_nat a - 2))%Q).
  { assert (E : (float_value base * float_value JITTER == 2 ^ (Z.of_nat a - 2))%Q).
    { rewrite Hbase. change (float_value JITTER) with (1 * 2 ^ (-2))%Q.
      replace (Z.of_nat a - 2) with (Z.of_nat a + -2) by lia.
      rewrite pow2_Q_plus. ring. }
    rewrite float_mul_exact; [exact E|].
    exists 1, (Z.of_nat a - 2). split; [reflexivity|]. rewrite E.
    change (inject_Z 1) with 1%Q. ring. }
  set (bj := float_mul base JITTER) in *.
  (* jitter *)
  assert (Hj : (float_value (float_mul bj u)
                == inject_Z (k - 2 ^ 52) * 2 ^ (Z.of_nat a - 54))%Q).
  { assert (E : (float_value bj * float_value u
                 == inject_Z (k - 2 ^ 52) * 2 ^ (Z.of_nat a - 54))%Q).
    { rewrite Hbj, Hu. replace (Z.of_nat a - 54) with ((Z.of_nat a - 2) + -52) by lia.
      rewrite pow2_Q_plus. ring. }
    rewrite float_mul_exact; [exact E|].
    exists (k - 2 ^ 52), (Z.of_nat a - 54). split; [lia|exact E]. }
  set (j := float_mul bj u) in *.
  (* base + jitter *)
  unfold float_add. cbv zeta. apply round_float_indep.
  rewrite (float_add_sum base j), Hbase, Hj.
  replace (3 * 2 ^ 52 + k) with (2 ^ 54 + (k - 2 ^ 52)) by lia.
  rewrite inject_Z_plus, Qmult_plus_distr_l.
  apply Qplus_comp; [|reflexivity].
  change (inject_Z (2 ^ 54)) with (2 ^ 54)%Q.
  rewrite <- pow2_Q_plus. by replace (54 + (Z.of_nat a - 54)) with (Z.of_nat a) by lia.
Qed.

Lemma backoff_time_bounds (a : nat) (k : Z) :
  0 <= k < 2 ^ 53 ->
  in_jitter_bounds a (float_value (backoff_time a {| mantissa := k; exponent := -53 |})).
Proof.
  intros Hk. unfold in_jitter_bounds. rewrite (backoff_time_value a k Hk).
  set (n := 3 * 2 ^ 52 + k). unfold round_float. cbv zeta.
  assert (Hn : 3 * 2 ^ 52 <= n < 5 * 2 ^ 52) by (unfold n; lia).
  rewrite Z.abs_eq by lia.
  assert (Hsg : Z.sgn n = 1) by (apply Z.sgn_pos; lia). rewrite Hsg, Z.mul_1_l.
  pose proof (pow2_Q_pos (Z.of_nat a)) as Hpa.
  destruct (Z.lt_ge_cases n (2 ^ 54)) as [Hlt|Hge].
  - assert (Hl : Z.log2 n = 53) by (apply Z.log2_unique; lia). rewrite Hl.
    change (53 + 1 - 53 <=? 0) with false. cbn iota. change (53 + 1 - 53) with 1.
    pose proof (round_half_even_bounds n 1 ltac:(lia)) as Hb.
    change (2 ^ 1) with 2 in Hb.
    set (x := round_half_even n 1) in *.
    assert (Hx : 3 * 2 ^ 51 <= x <= 2 ^ 53)
      by (clearbody x; Z.to_euclidean_division_equations; lia).
    unfold float_value. cbn [mantissa exponent].
    replace (Z.of_nat a - 54 + 1) with (Z.of_nat a + -53) by lia.
    rewrite pow2_Q_plus.
    assert (Elo : ((3 # 4) == inject_Z (3 * 2 ^ 51) * 2 ^ (-53))%Q) by reflexivity.
    assert (Ehi : (inject_Z (2 ^ 53) * 2 ^ (-53) <= 5 # 4)%Q) by (vm_compute; discriminate).
    assert (Hlo : (inject_Z (3 * 2 ^ 51) <= inject_Z x)%Q) by (rewrite <- Zle_Qle; lia).
    assert (Hhi : (inject_Z x <= inject_Z (2 ^ 53))%Q) by (rewrite <- Zle_Qle; lia).
    assert (Hp : (0 < 2 ^ (-53))%Q) by apply pow2_Q_pos.
    rewrite Elo. split; nra.
  - assert (Hl : Z.log2 n = 54) by (apply Z.log2_unique; lia). rewrite Hl.
    change (54 + 1 - 53 <=? 0) with false. cbn iota. change (54 + 1 - 53) with 2.
    pose proof (round_half_even_bounds n 2 ltac:(lia)) as Hb.
    change (2 ^ 2) with 4 in Hb.
    set (x := round_half_even n 2) in *.
    assert (Hx : 2 ^ 52 <= x <= 5 * 2 ^ 50)
      by (clearbody x; Z.to_euclidean_division_equations; lia).
    unfold float_value. cbn [mantissa exponent].
    replace (Z.of_nat a - 54 + 2) with (Z.of_nat a + -52) by lia.
    rewrite pow2_Q_plus.
    assert (Elo : ((3 # 4) <= inject_Z (2 ^ 52) * 2 ^ (-52))%Q) by (vm_compute; discriminate).
    assert (Ehi : (inject_Z (5 * 2 ^ 50) * 2 ^ (-52) == 5 # 4)%Q) by reflexivity.
    assert (Hlo : (inject_Z (2 ^ 52) <= inject_Z x)%Q) by (rewrite <- Zle_Qle; lia).
    assert (Hhi : (inject_Z x <= inject_Z (5 * 2 ^ 50))%Q) by (rewrite <- Zle_Qle; lia).
    assert (Hp : (0 < 2 ^ (-52))%Q) by apply pow2_Q_pos.
    rewrite <- Ehi. split; nra.
Qed.

(** The two ends of the range are reached: the smallest draw gives 0.75
    times the base, and at the largest draw, 1 - 2^-53, the sum is rounded
    up to 1.25 times the base. *)
Lemma backoff_time_extremes (a : nat) :
  (float_value (backoff_time a {| mantissa := 0; exponent := -53 |})
   == (3 # 4) * 2 ^ Z.of_nat a)%Q
  /\ (float_value (backoff_time a {| mantissa := 2 ^ 53 - 1; exponent := -53 |})
      == (5 # 4) * 2 ^ Z.of_nat a)%Q.
Proof.
  split.
  - rewrite (backoff_time_value a 0) by lia.
    assert (E : round_float (3 * 2 ^ 52 + 0) (Z.of_nat a - 54)
                = {| mantissa := 3 * 2 ^ 51; exponent := Z.of_nat a - 54 + 1 |})
      by reflexivity.
    rewrite E. unfold float_value. cbn [mantissa exponent].
    replace (Z.of_nat a - 54 + 1) with (-53 + Z.of_nat a) by lia.
    rewrite pow2_Q_plus, Qmult_assoc. apply Qmult_comp; reflexivity.
  - rewrite (backoff_time_value a (2 ^ 53 - 1)) by lia.
    assert (E : round_float (3 * 2 ^ 52 + (2 ^ 53 - 1)) (Z.of_nat a - 54)
                = {| mantissa := 5 * 2 ^ 50; exponent := Z.of_nat a - 54 + 2 |})
      by reflexivity.
    rewrite E. unfold float_value. cbn [mantissa exponent].
    replace (Z.of_nat a - 54 + 2) with (-52 + Z.of_nat a) by lia.
    rewrite pow2_Q_plus, Qmult_assoc. apply Qmult_comp; reflexivity.
Qed.

(** ** Backoff policy: the range of a wait *)

Lemma unit_draw (bits : N) : 0 <= Z.of_N (bits mod 2 ^ 53) < 2 ^ 53.
Proof.
  assert (H : (bits mod 2 ^ 53 < 2 ^ 53)%N) by (apply N.mod_upper_bound; discriminate).
  change (2 ^ 53) with (Z.of_N (2 ^ 53)).
  generalize dependent (bits mod 2 ^ 53)%N. generalize (2 ^ 53)%N. lia.
Qed.


(** ** What one step of the client does to the request count and the trace *)

Ltac app_norm :=
  repeat (rewrite <- app_assoc || rewrite <- app_comm_cons || (progress simpl)).

Section ClientSteps.
Context (w : world).

Lemma backoff_sleep_spec (attempt : nat) (c : client) :
  exists d, in_jitter_bounds attempt d
    /\ trace (backoff_sleep w attempt c) = trace c ++ [EvBackoff d]
    /\ requests (backoff_sleep w attempt c) = requests c.
Proof.
  unfold backoff_sleep, random_random, emit; simpl.
  eexists; split; [|split; reflexivity].
  apply backoff_time_bounds, unit_draw.
Qed.

Lemma update_rate_limit_spec (h : headers) (c : client) :
  trace (_update_rate_limit h c) = trace c
  /\ requests (_update_rate_limit h c) = requests c.
Proof. done. Qed.

Lemma check_rate_limit_spec (c : client) :
  exists pause, trace (_check_rate_limit w c) = trace c ++ pause
    /\ without_pauses pause = [] /\ gets pause = []
    /\ requests (_check_rate_limit w c) = requests c.
Proof.
  unfold _check_rate_limit, time_time, emit.
  repeat case_match; simpl;
    first [ by exists []; rewrite app_nil_r | by eexists [_] ].
Qed.

Lemma handle_rate_limit_response_spec (c : client) :
  exists evs, trace (_handle_rate_limit_response w c) = trace c ++ evs
    /\ gets evs = []
    /\ requests (_handle_rate_limit_response w c) = requests c.
Proof.
  unfold _handle_rate_limit_response, time_time, emit.
  repeat case_match; simpl;
    first [ by exists []; rewrite app_nil_r | by eexists [_] ].
Qed.

(** An attempt that meets a transient error asks once, waits the backoff
    of its index and leaves the rest of the budget to the next attempts. *)
Lemma fetch_attempts_transient_step (endpoint : string) (attempt : nat)
    (rest : list nat) (c : client) :
  is_transient (net w endpoint (requests c)) = true ->
  exists c1 pause d,
    fetch_attempts w endpoint (attempt :: rest) c = fetch_attempts w endpoint rest c1
    /\ requests c1 = S (requests c)
    /\ trace c1 = trace c ++ EvGet endpoint :: pause ++ [EvBackoff d]
    /\ without_pauses pause = [] /\ gets pause = []
    /\ in_jitter_bounds attempt d.
Proof.
  intros Ht. cbn [fetch_attempts client_get].
  set (c0 := {| rate_remaining := rate_remaining c; rate_reset := rate_reset c;
                requests := S (requests c); clock_reads := clock_reads c;
                draws := draws c; trace := trace c ++ [EvGet endpoint] |}).
  assert (Happ : forall (l : list event) e l', (l ++ [e]) ++ l' = l ++ e :: l')
    by (intros; by rewrite <- app_assoc).
  destruct (net w endpoint (requests c)) as [| |status hdrs body|rem msg|hdrs msg];
    simpl in Ht; [| | |done|done].
  - destruct (backoff_sleep_spec attempt c0) as (d & Hd & Htr & Hrq).
    exists (backoff_sleep w attempt c0), [], d.
    rewrite Htr, Hrq. simpl. by rewrite Happ.
  - destruct (backoff_sleep_spec attempt c0) as (d & Hd & Htr & Hrq).
    exists (backoff_sleep w attempt c0), [], d.
    rewrite Htr, Hrq. simpl. by rewrite Happ.
  - destruct (status =? 404) eqn:E404; simpl in Ht; [done|].
    destruct ((status =? 403) || (status =? 429)) eqn:Erl; simpl in Ht; [done|].
    destruct (status =? 200) eqn:E200; simpl.
    + destruct body; [done|].
      destruct (check_rate_limit_spec (_update_rate_limit hdrs c0))
        as (pause & Htr1 & Hp & Hg & Hrq1).
      destruct (backoff_sleep_spec attempt (_check_rate_limit w (_update_rate_limit hdrs c0)))
        as (d & Hd & Htr & Hrq).
      eexists _, pause, d. split; [reflexivity|].
      rewrite Htr, Hrq, Htr1, Hrq1. simpl.
      by rewrite <- !app_assoc.
    + destruct (backoff_sleep_spec attempt (_update_rate_limit hdrs c0))
        as (d & Hd & Htr & Hrq).
      eexists _, [], d. split; [reflexivity|].
      rewrite Htr, Hrq. simpl. by rewrite Happ.
Qed.

(** An attempt that meets a rate-limit status asks once, may wait for the
    quota to reset, and uses up its place in the budget all the same. *)
Lemma fetch_attempts_rate_limited_step (endpoint : string) (attempt : nat)
    (rest : list nat) (c : client) :
  is_rate_limited (net w endpoint (requests c)) = true ->
  exists c1 evs,
    fetch_attempts w endpoint (attempt :: rest) c = fetch_attempts w endpoint rest c1
    /\ requests c1 = S (requests c)
    /\ trace c1 = trace c ++ EvGet endpoint :: evs
    /\ gets evs = [].
Proof.
  intros Ht. cbn [fetch_attempts client_get].
  set (c0 := {| rate_remaining := rate_remaining c; rate_reset := rate_reset c;
                requests := S (requests c); clock_reads := clock_reads c;
                draws := draws c; trace := trace c ++ [EvGet endpoint] |}).
  destruct (net w endpoint (requests c)) as [| |status hdrs body|rem msg|hdrs msg];
    simpl in Ht; try done.
  destruct (status =? 404) eqn:E404; [lia|]. rewrite Ht.
  destruct (handle_rate_limit_response_spec (_update_rate_limit hdrs c0))
    as (evs & Htr & Hg & Hrq).
  eexists _, evs. split; [reflexivity|].
  rewrite Htr, Hrq. simpl. by rewrite <- app_assoc.
Qed.

Lemma gets_app (l1 l2 : list event) : gets (l1 ++ l2) = gets l1 ++ gets l2.
Proof. apply omap_app. Qed.

Lemma without_pauses_app (l1 l2 : list event) :
  without_pauses (l1 ++ l2) = without_pauses l1 ++ without_pauses l2.
Proof. apply filter_app. Qed.

(** ** Using up the attempt budget *)

Lemma fetch_attempts_exhausts (endpoint : string) (n a : nat) (c : client) :
  (forall k, (requests c <= k < requests c + n)%nat ->
     is_transient (net w endpoint k) || is_rate_limited (net w endpoint k) = true) ->
  exists c' evs,
    fetch_attempts w endpoint (seq a n) c = (Raise (failed_after endpoint), c')
    /\ trace c' = trace c ++ evs
    /\ requests c' = (requests c + n)%nat
    /\ gets evs = repeat endpoint n.
Proof.
  revert a c. induction n as [|n IH]; intros a c H.
  - exists c, []. simpl. by rewrite app_nil_r, Nat.add_0_r.
  - cbn [seq repeat].
    assert (Hnow : is_transient (net w endpoint (requests c))
                   || is_rate_limited (net w endpoint (requests c)) = true)
      by (apply H; lia).
    apply orb_true_iff in Hnow as [Ht | Hr].
    + destruct (fetch_attempts_transient_step endpoint a (seq (S a) n) c Ht)
        as (c1 & pause & d & -> & Hrq & Htr & _ & Hg & _).
      destruct (IH (S a) c1) as (c' & evs & -> & Htr' & Hrq' & Hg').
      { intros k Hk. apply H. lia. }
      exists c', (EvGet endpoint :: pause ++ [EvBackoff d] ++ evs).
      split; [done|]. rewrite Htr', Htr, Hrq', Hrq.
      split; [by app_norm|]. split; [lia|].
      change (EvGet endpoint :: pause ++ [EvBackoff d] ++ evs)
        with ([EvGet endpoint] ++ pause ++ [EvBackoff d] ++ evs).
      rewrite !gets_app, Hg, Hg'. done.
    + destruct (fetch_attempts_rate_limited_step endpoint a (seq (S a) n) c Hr)
        as (c1 & evs1 & -> & Hrq & Htr & Hg).
      destruct (IH (S a) c1) as (c' & evs & -> & Htr' & Hrq' & Hg').
      { intros k Hk. apply H. lia. }
      exists c', (EvGet endpoint :: evs1 ++ evs).
      split; [done|]. rewrite Htr', Htr, Hrq', Hrq.
      split; [by app_norm|]. split; [lia|].
      change (EvGet endpoint :: evs1 ++ evs) with ([EvGet endpoint] ++ evs1 ++ evs).
      rewrite !gets_app, Hg, Hg'. done.
Qed.

Lemma fetch_attempts_all_transient (endpoint : string) (n a : nat) (c : client) :
  (forall k, (requests c <= k < requests c + n)%nat ->
     is_transient (net w endpoint k) = true) ->
  exists c' evs waits,
    fetch_attempts w endpoint (seq a n) c = (Raise (failed_after endpoint), c')
    /\ trace c' = trace c ++ evs
    /\ without_pauses evs = rounds endpoint waits
    /\ Forall2 in_jitter_bounds (seq a n) waits.
Proof.
  revert a c. induction n as [|n IH]; intros a c H.
  - exists c, [], []. simpl. by rewrite app_nil_r.
  - cbn [seq].
    destruct (fetch_attempts_transient_step endpoint a (seq (S a) n) c)
      as (c1 & pause & d & -> & Hrq & Htr & Hp & _ & Hd); [apply H; lia|].
    destruct (IH (S a) c1) as (c' & evs & waits & -> & Htr' & Hp' & Hw).
    { intros k Hk. apply H. lia. }
    exists c', (EvGet endpoint :: pause ++ [EvBackoff d] ++ evs), (d :: waits).
    split; [done|]. rewrite Htr', Htr.
    split; [by app_norm|]. split; [|by constructor].
    change (EvGet endpoint :: pause ++ [EvBackoff d] ++ evs)
      with ([EvGet endpoint] ++ pause ++ [EvBackoff d] ++ evs).
    rewrite !without_pauses_app, Hp, Hp'. done.
Qed.

End ClientSteps.



(** ** One attempt of the loop *)

Section ClientAttempt.
Context (w : world).

Lemma check_rate_limit_pause (c : client) :
  let now := clock w (clock_reads c) in
  (forall sleep_time, quota_low (rate_remaining c) (rate_reset c) now sleep_time ->
     trace (_check_rate_limit w c) = trace c ++ [EvRateLow sleep_time])
  /\ (~ (exists sleep_time, quota_low (rate_remaining c) (rate_reset c) now sleep_time) ->
     trace (_check_rate_limit w c) = trace c).
Proof.
  unfold quota_low, _check_rate_limit, reset_known, time_time, emit. simpl. split.
  - intros sleep_time (r & t & -> & Hr & -> & Ht & -> & Hpos).
    destruct (Z.ltb_spec r RATE_LIMIT_BUFFER); [|lia].
    destruct (Z.eqb_spec t 0); [lia|].
    destruct (Z.ltb_spec 0 (t - clock w (clock_reads c) + 5)); [done|lia].
  - intros Hno.
    destruct (rate_remaining c) as [r|]; [|done].
    destruct (Z.ltb_spec r RATE_LIMIT_BUFFER); [|done].
    destruct (rate_reset c) as [t|]; [|done].
    destruct (Z.eqb_spec t 0); [done|].
    destruct (Z.ltb_spec 0 (t - clock w (clock_reads c) + 5)); [|done].
    exfalso. apply Hno. eexists _, r, t. repeat split; eauto.
Qed.

Lemma handle_rate_limit_no_pause (c : client) :
  exists evs, trace (_handle_rate_limit_response w c) = trace c ++ evs
    /\ gets evs = []
    /\ requests (_handle_rate_limit_response w c) = requests c
    /\ Forall (fun e => is_pause e = false) evs.
Proof.
  unfold _handle_rate_limit_response, time_time, emit.
  repeat case_match; simpl;
    first [ exists []; rewrite app_nil_r; by repeat constructor
          | eexists [_]; by repeat constructor ].
Qed.

Lemma check_rate_limit_shape (c : client) :
  exists pause, trace (_check_rate_limit w c) = trace c ++ pause
    /\ (pause = [] \/ exists sleep_time, pause = [EvRateLow sleep_time]).
Proof.
  unfold _check_rate_limit, time_time, emit.
  repeat case_match; simpl;
    first [ exists []; rewrite app_nil_r; split; [done|by left]
          | eexists [_]; split; [done|right; by eexists] ].
Qed.

(** The check of the quota after a reply of status 200 with headers
    [hdrs] to a request of client [c]. *)
Lemma check_after_reply (endpoint : string) (hdrs : headers) (c : client) :
  let c2 := _update_rate_limit hdrs (client_get w endpoint c).2 in
  let remaining :=
    match x_ratelimit_remaining hdrs with Some x => Some x | None => rate_remaining c end in
  let reset :=
    match x_ratelimit_reset hdrs with Some x => Some x | None => rate_reset c end in
  let now := clock w (clock_reads c) in
  exists pause,
    trace (_check_rate_limit w c2) = trace c ++ EvGet endpoint :: pause
    /\ requests (_check_rate_limit w c2) = S (requests c)
    /\ gets pause = [] /\ without_pauses pause = []
    /\ (pause = [] \/ exists sleep_time, pause = [EvRateLow sleep_time])
    /\ (forall sleep_time, quota_low remaining reset now sleep_time ->
          pause = [EvRateLow sleep_time])
    /\ (~ (exists sleep_time, quota_low remaining reset now sleep_time) -> pause = []).
Proof.
  intros c2 remaining reset now.
  destruct (check_rate_limit_spec w c2) as (pause & Htr & Hp & Hg & Hrq).
  destruct (check_rate_limit_pause c2) as [Hlow Hno].
  exists pause. rewrite Htr, Hrq. cbn [c2 client_get snd _update_rate_limit trace requests].
  split; [by rewrite <- app_assoc|]. split; [done|]. split; [done|]. split; [done|].
  split.
  { destruct (check_rate_limit_shape c2) as (pause' & Htr' & Hsh).
    rewrite Htr in Htr'. by apply app_inv_head in Htr' as <-. }
  change (rate_remaining c2) with remaining in Hlow, Hno.
  change (rate_reset c2) with reset in Hlow, Hno.
  change (clock w (clock_reads c2)) with now in Hlow, Hno.
  split.
  - intros sleep_time Hq. specialize (Hlow _ Hq). rewrite Htr in Hlow.
    by apply app_inv_head in Hlow.
  - intros Hq. specialize (Hno Hq). rewrite Htr in Hno.
    rewrite <- (app_nil_r (trace c2)) in Hno at 2. by apply app_inv_head in Hno.
Qed.

(** What one attempt does: the request first, then the pause of the quota
    check when the reply has status 200, then a wait when the attempt is to
    be followed by another.  It ends the fetch or hands over to the
    attempts that are left. *)
Lemma fetch_attempt_shape (endpoint : string) (attempt : nat) (rest : list nat)
    (c : client) :
  let rep := net w endpoint (requests c) in
  let now := clock w (clock_reads c) in
  exists c' pause tail,
    trace c' = trace c ++ EvGet endpoint :: pause ++ tail
    /\ requests c' = S (requests c)
    /\ gets pause = [] /\ gets tail = []
    /\ (pause = [] \/ exists sleep_time, pause = [EvRateLow sleep_time])
    /\ Forall (fun e => is_pause e = false) tail
    /\ (fetch_attempts w endpoint (attempt :: rest) c = fetch_attempts w endpoint rest c'
        \/ exists r, fetch_attempts w endpoint (attempt :: rest) c = (r, c'))
    /\ (forall hdrs, status_200 rep = Some hdrs ->
          let remaining :=
            match x_ratelimit_remaining hdrs with
            | Some x => Some x | None => rate_remaining c end in
          let reset :=
            match x_ratelimit_reset hdrs with
            | Some x => Some x | None => rate_reset c end in
          (forall sleep_time, quota_low remaining reset now sleep_time ->
             sleepable sleep_time -> pause = [EvRateLow sleep_time])
          /\ (~ (exists sleep_time, quota_low remaining reset now sleep_time) ->
              pause = [])
          /\ (forall v, rep = Response 200 hdrs (Some v) ->
                fetch_attempts w endpoint (attempt :: rest) c = (Ok v, c') /\ tail = [])
          /\ (rep = Response 200 hdrs None ->
                fetch_attempts w endpoint (attempt :: rest) c
                = fetch_attempts w endpoint rest c'
                /\ exists d, tail = [EvBackoff d])
          /\ (forall msg, rep = BadBody hdrs msg ->
                fetch_attempts w endpoint (attempt :: rest) c
                = (Raise (UnicodeDecodeError msg), c') /\ tail = []))
    /\ (status_200 rep = None -> pause = []).
Proof.
  intros rep now. cbn [fetch_attempts]. unfold rep.
  set (c1 := (client_get w endpoint c).2).
  assert (Hc1 : client_get w endpoint c = (net w endpoint (requests c), c1)) by done.
  rewrite Hc1.
  assert (Htr1 : trace c1 = trace c ++ [EvGet endpoint]) by done.
  assert (Hrq1 : requests c1 = S (requests c)) by done.
  assert (Hback : forall c2 evs, trace c2 = trace c1 ++ evs -> requests c2 = requests c1 ->
            exists d, trace (backoff_sleep w attempt c2)
                      = trace c ++ EvGet endpoint :: evs ++ [EvBackoff d]
                      /\ requests (backoff_sleep w attempt c2) = S (requests c)).
  { intros c2 evs H2 R2. destruct (backoff_sleep_spec w attempt c2) as (d & _ & Htr & Hrq).
    exists d. rewrite Htr, Hrq, H2, Htr1, R2. split; [by rewrite <- !app_assoc|done]. }
  assert (Hno200 : forall hdrs0 : headers, @None headers = Some hdrs0 -> False) by done.
  destruct (net w endpoint (requests c)) as [| |status hdrs body|rem msg|hdrs msg].
  - destruct (Hback c1 [] ltac:(by rewrite app_nil_r) eq_refl) as (d & Htr & Hrq).
    exists (backoff_sleep w attempt c1), [], [EvBackoff d].
    split; [done|]. split; [done|]. split; [done|]. split; [done|]. split; [by left|].
    split; [by repeat constructor|]. split; [by left|]. split; [done|done].
  - destruct (Hback c1 [] ltac:(by rewrite app_nil_r) eq_refl) as (d & Htr & Hrq).
    exists (backoff_sleep w attempt c1), [], [EvBackoff d].
    split; [done|]. split; [done|]. split; [done|]. split; [done|]. split; [by left|].
    split; [by repeat constructor|]. split; [by left|]. split; [done|done].
  - cbn [status_200].
    destruct (Z.eqb_spec status 404) as [->|N404].
    { exists (_update_rate_limit hdrs c1), [], []. cbn [app].
      split; [done|]. split; [done|]. split; [done|]. split; [done|]. split; [by left|].
      split; [constructor|]. split; [right; by eexists|]. split; [done|done]. }
    destruct ((status =? 403) || (status =? 429)) eqn:Erl.
    { destruct (handle_rate_limit_no_pause (_update_rate_limit hdrs c1))
        as (evs & Htr & Hg & Hrq & Hnp).
      exists (_handle_rate_limit_response w (_update_rate_limit hdrs c1)), [], evs.
      rewrite Htr, Hrq. cbn [_update_rate_limit trace requests app].
      split; [by rewrite Htr1, <- app_assoc|]. split; [done|]. split; [done|]. split; [done|].
      split; [by left|]. split; [done|].
      split; [by left|].
      destruct (Z.eqb_spec status 200) as [->|N200]; [done|]. split; [done|done]. }
    destruct (Z.eqb_spec status 200) as [->|N200]; cbn [negb].
    + destruct (check_after_reply endpoint hdrs c)
        as (pause & Htr & Hrq & Hg & Hp & Hsh & Hlow & Hno).
      fold c1 in Htr, Hrq.
      set (c3 := _check_rate_limit w (_update_rate_limit hdrs c1)) in *.
      destruct body as [v|].
      * exists c3, pause, []. rewrite app_nil_r.
        split; [done|]. split; [done|]. split; [done|]. split; [done|]. split; [done|].
        split; [constructor|]. split; [right; by eexists|]. split; [|done].
        intros h [= <-]. cbv zeta. split; [intros s Hq _; by apply Hlow|].
        split; [exact Hno|]. split; [by intros v' [= <-]|]. split; [done|done].
      * destruct (backoff_sleep_spec w attempt c3) as (d & _ & Htrb & Hrqb).
        exists (backoff_sleep w attempt c3), pause, [EvBackoff d].
        rewrite Htrb, Hrqb, Htr, Hrq.
        split; [by rewrite <- app_assoc|].
        split; [done|]. split; [done|]. split; [done|]. split; [done|].
        split; [by repeat constructor|]. split; [by left|]. split; [|done].
        intros h [= <-]. cbv zeta. split; [intros s Hq _; by apply Hlow|].
        split; [exact Hno|]. split; [done|]. split; [|done].
        intros _. split; [done|by eexists].
    + destruct (Hback (_update_rate_limit hdrs c1) [] ltac:(by rewrite app_nil_r) eq_refl)
        as (d & Htr & Hrq).
      exists (backoff_sleep w attempt (_update_rate_limit hdrs c1)), [], [EvBackoff d].
      split; [done|]. split; [done|]. split; [done|]. split; [done|]. split; [by left|].
      split; [by repeat constructor|]. split; [by left|]. split; [done|done].
  - exists (set_rate_remaining rem c1), [], []. cbn [app].
    split; [done|]. split; [done|]. split; [done|]. split; [done|]. split; [by left|].
    split; [constructor|]. split; [right; by eexists|]. split; [done|done].
  - cbn [status_200].
    destruct (check_after_reply endpoint hdrs c)
      as (pause & Htr & Hrq & Hg & Hp & Hsh & Hlow & Hno).
    fold c1 in Htr, Hrq.
    exists (_check_rate_limit w (_update_rate_limit hdrs c1)), pause, []. rewrite app_nil_r.
    split; [done|]. split; [done|]. split; [done|]. split; [done|]. split; [done|].
    split; [constructor|]. split; [right; by eexists|]. split; [|done].
    intros h [= <-]. cbv zeta. split; [intros s Hq _; by apply Hlow|].
    split; [exact Hno|]. split; [done|]. split; [done|]. by intros m [= <-].
Qed.

End ClientAttempt.

(** ** A reply that ends the fetch *)

Section ClientSuccess.
Context (w : world).

Lemma fetch_attempts_extends (endpoint : string) (attempts : list nat) :
  forall c, exists evs,
    trace (fetch_attempts w endpoint attempts c).2 = trace c ++ evs.
Proof.
  induction attempts as [|a rest IH]; intros c.
  - exists []. simpl. by rewrite app_nil_r.
  - destruct (fetch_attempt_shape w endpoint a rest c)
      as (c' & pause & tail & Htr & _ & _ & _ & _ & _ & [-> | [r ->]] & _).
    + destruct (IH c') as [evs ->]. rewrite Htr. eexists. by app_norm.
    + cbn [snd]. rewrite Htr. by eexists.
Qed.

(** The request goes out first, whatever the tracker holds. *)
Lemma fetch_attempts_asks_first (endpoint : string) (a : nat) (rest : list nat)
    (c : client) :
  exists evs,
    trace (fetch_attempts w endpoint (a :: rest) c).2 = trace c ++ EvGet endpoint :: evs.
Proof.
  destruct (fetch_attempt_shape w endpoint a rest c)
    as (c' & pause & tail & Htr & _ & _ & _ & _ & _ & [-> | [r ->]] & _).
  - destruct (fetch_attempts_extends endpoint rest c') as [evs ->]. rewrite Htr.
    eexists. by app_norm.
  - cbn [snd]. rewrite Htr. by eexists.
Qed.

Lemma fetch_asks_first (endpoint : string) (c : client) :
  exists evs, trace (fetch w endpoint c).2 = trace c ++ EvGet endpoint :: evs.
Proof. apply fetch_attempts_asks_first. Qed.

Lemma fetch_attempts_ok (endpoint : string) (a : nat) (rest : list nat) (c : client)
    (hdrs : headers) (v : json) :
  net w endpoint (requests c) = Response 200 hdrs (Some v) ->
  fetch_attempts w endpoint (a :: rest) c
  = (Ok v, _check_rate_limit w (_update_rate_limit hdrs (client_get w endpoint c).2)).
Proof. intros H. cbn [fetch_attempts client_get]. by rewrite H. Qed.

Lemma fetch_attempts_not_found (endpoint : string) (a : nat) (rest : list nat)
    (c : client) (hdrs : headers) (body : option json) :
  net w endpoint (requests c) = Response 404 hdrs body ->
  fetch_attempts w endpoint (a :: rest) c
  = (Ok JNull, _update_rate_limit hdrs (client_get w endpoint c).2).
Proof. intros H. cbn [fetch_attempts client_get]. by rewrite H. Qed.

Lemma fetch_ok (endpoint : string) (c : client) (hdrs : headers) (v : json) :
  net w endpoint (requests c) = Response 200 hdrs (Some v) ->
  exists c' pause,
    fetch w endpoint c = (Ok v, c')
    /\ c' = _check_rate_limit w (_update_rate_limit hdrs (client_get w endpoint c).2)
    /\ requests c' = S (requests c)
    /\ trace c' = trace c ++ EvGet endpoint :: pause
    /\ gets pause = [].
Proof.
  intros H. unfold fetch. change (seq 0 MAX_RETRIES) with (0 :: seq 1 4)%nat.
  rewrite (fetch_attempts_ok endpoint 0 (seq 1 4) c hdrs v H).
  destruct (check_rate_limit_spec w
              (_update_rate_limit hdrs (client_get w endpoint c).2))
    as (pause & Htr & _ & Hg & Hrq).
  eexists _, pause. split; [reflexivity|]. split; [reflexivity|].
  rewrite Htr, Hrq. cbn [client_get snd _update_rate_limit trace requests].
  by rewrite <- app_assoc.
Qed.

Lemma fetch_not_found (endpoint : string) (c : client) (hdrs : headers)
    (body : option json) :
  net w endpoint (requests c) = Response 404 hdrs body ->
  exists c',
    fetch w endpoint c = (Ok JNull, c')
    /\ requests c' = S (requests c)
    /\ trace c' = trace c ++ [EvGet endpoint].
Proof.
  intros H. unfold fetch. change (seq 0 MAX_RETRIES) with (0 :: seq 1 4)%nat.
  rewrite (fetch_attempts_not_found endpoint 0 (seq 1 4) c hdrs body H).
  eexists. split; [reflexivity|]. done.
Qed.

(** ** Where the pauses of the tracker are *)




End ClientSuccess.




(** ** Pagination *)

Section Pagination.
Context (w : world) (endpoint : string).

(** Full pages keep the loop going: each is asked once, in order, and
    appended to the items. *)
Lemma fetch_pages_full (full : list (list json)) :
  forall (fuel page : nat) (all_items : list json) (c : client),
    Forall (fun p => (100 <= length p)%nat) full ->
    (forall i p, full !! i = Some p ->
       exists hdrs, net w (page_url endpoint (page + i)) (requests c + i)
                    = Response 200 hdrs (Some (JList p))) ->
    exists c' evs,
      fetch_pages w (length full + fuel) endpoint page all_items c
      = fetch_pages w fuel endpoint (page + length full) (all_items ++ concat full) c'
      /\ requests c' = (requests c + length full)%nat
      /\ trace c' = trace c ++ evs
      /\ gets evs = map (page_url endpoint) (seq page (length full)).
Proof.
  induction full as [|p full IH]; intros fuel page all_items c Hfull Hnet.
  - exists c, []. simpl. by rewrite !Nat.add_0_r, !app_nil_r.
  - apply Forall_cons in Hfull as [Hp Hfull].
    destruct (Hnet 0%nat p eq_refl) as [hdrs H0]. rewrite !Nat.add_0_r in H0.
    destruct (fetch_ok w _ c hdrs _ H0) as (c1 & pause & Hf & _ & Hrq & Htr & Hg).
    destruct (IH fuel (S page) (all_items ++ p) c1 Hfull) as (c' & evs & Hf' & Hrq' & Htr' & Hg').
    { intros i p' Hi. destruct (Hnet (S i) p' Hi) as [h Hh]. exists h.
      rewrite <- Hh, Hrq. f_equal; [f_equal|]; lia. }
    exists c', (EvGet (page_url endpoint page) :: pause ++ evs).
    cbn [length Nat.add fetch_pages concat seq map]. rewrite Hf.
    destruct (Nat.eqb_spec (length p) 0); [lia|].
    destruct (Nat.ltb_spec (length p) 100); [lia|].
    rewrite Hf', Hrq', Hrq, Htr', Htr.
    split; [f_equal; [lia | by rewrite app_assoc]|].
    split; [lia|]. split; [by app_norm|].
    change (EvGet (page_url endpoint page) :: pause ++ evs)
      with ([EvGet (page_url endpoint page)] ++ pause ++ evs).
    rewrite !gets_app, Hg, Hg'. done.
Qed.






End Pagination.



(** ** Marker paths *)

Lemma string_app_inv_head (p a b : string) : p +:+ a = p +:+ b -> a = b.
Proof.
  induction p as [|ch p IH]; simpl; [done|].
  intros H. injection H as H. by apply IH.
Qed.

Lemma item_path_inj (num : Z) (s1 s2 : string) :
  item_path num s1 = item_path num s2 -> s1 = s2.
Proof.
  unfold item_path, ITEMS_DIR. intros H.
  apply (string_app_inv_head "items") in H.
  apply (string_app_inv_head "/") in H.
  by apply string_app_inv_head in H.
Qed.

(** The ten markers of a record have ten different paths. *)
Ltac path_ne :=
  let H := fresh in
  intros H; apply item_path_inj in H; discriminate H.

Ltac fs_simpl :=
  unfold write_failed;
  repeat (rewrite lookup_insert_eq || rewrite lookup_delete_eq
          || (rewrite lookup_insert_ne by path_ne)
          || (rewrite lookup_delete_ne by path_ne)).

Lemma file_exists_true (path : string) (fs : gmap string file) :
  file_exists path fs = true <-> is_Some (fs !! path).
Proof.
  unfold file_exists. destruct (fs !! path); split; intros H; try done.
Qed.

Lemma file_exists_false (path : string) (fs : gmap string file) :
  file_exists path fs = false <-> fs !! path = None.
Proof. unfold file_exists. by destruct (fs !! path). Qed.

(** ** Terminal markers *)

(** C1: when the not-found or the excluded-by-date marker of a record
    exists, [process_item] returns at once, whatever components are asked
    for and even without fuel: the client is unchanged (no request, no
    wait), the files are unchanged (no marker written) and the only count
    set is that of the marker found, the not-found marker being looked for
    first. *)
Theorem terminal_marker_short_circuit (w : world) (fuel : nat) (c : client)
    (fs : gmap string file) (num : Z) (do_main do_comments do_timeline do_xrefs : bool) :
  is_Some (fs !! path_404 num) \/ is_Some (fs !! path_skip num) ->
  exists s,
    process_item w fuel c fs num do_main do_comments do_timeline do_xrefs = (Some s, c, fs)
    /\ fetched s = 0%nat /\ skip_exists s = 0%nat /\ failed s = 0%nat
    /\ (is_Some (fs !! path_404 num) -> skip_404 s = 1%nat /\ skip_date s = 0%nat)
    /\ (fs !! path_404 num = None -> skip_404 s = 0%nat /\ skip_date s = 1%nat).
Proof.
  intros H. unfold process_item.
  destruct (file_exists (path_404 num) fs) eqn:E404.
  - exists (set_skip_404 stats0). split; [reflexivity|].
    split; [reflexivity|]. split; [reflexivity|]. split; [reflexivity|].
    split; [done|]. intros Hnone.
    apply file_exists_true in E404. rewrite Hnone in E404. by destruct E404.
  - apply file_exists_false in E404.
    destruct H as [H|H]; [rewrite E404 in H; by destruct H|].
    apply file_exists_true in H. rewrite H.
    exists (set_skip_date stats0). split; [reflexivity|].
    split; [reflexivity|]. split; [reflexivity|]. split; [reflexivity|].
    split; [|done]. intros Hs. rewrite E404 in Hs. by destruct Hs.
Qed.

Lemma terminal_marker_short_circuit_witness :
  process_item always_503 0 new_client {[ path_skip 40000 := FEmpty ]} 40000
    true true true true
  = (Some (set_skip_date stats0), new_client, {[ path_skip 40000 := FEmpty ]}).
Proof.
  destruct (terminal_marker_short_circuit always_503 0 new_client
              {[ path_skip 40000 := FEmpty ]} 40000 true true true true)
    as (s & Hp & Hf & He & Hfail & _ & Hskip).
  - right. exists FEmpty. reflexivity.
  - rewrite Hp. destruct Hskip as [H4 Hd]; [reflexivity|].
    destruct s; simpl in *. by subst.
Defined.

(** ** The trace only grows *)

Section Traces.
Context (w : world).

Lemma fetch_pages_extends (endpoint : string) (fuel : nat) :
  forall (page : nat) (all_items : list json) (c : client),
    exists evs, trace (fetch_pages w fuel endpoint page all_items c).2 = trace c ++ evs.
Proof.
  induction fuel as [|fuel IH]; intros page all_items c.
  - exists []. simpl. by rewrite app_nil_r.
  - cbn [fetch_pages].
    destruct (fetch_asks_first w (page_url endpoint page) c) as [evs Hf].
    destruct (fetch w (page_url endpoint page) c) as [r c1]. cbn [snd] in Hf.
    destruct r as [v|e]; [|cbn [snd]; eauto].
    destruct v as [| | | | |l|]; cbn [snd]; eauto.
    destruct (length l =? 0)%nat; [cbn [snd]; eauto|].
    destruct (length l <? 100)%nat; [cbn [snd]; eauto|].
    destruct (IH (S page) (all_items ++ l) c1) as [evs' ->]. rewrite Hf.
    eexists. by app_norm.
Qed.

(** With fuel for one round, the loop starts by asking for its page. *)
Lemma fetch_pages_asks_first (endpoint : string) (fuel page : nat)
    (all_items : list json) (c : client) :
  exists evs,
    trace (fetch_pages w (S fuel) endpoint page all_items c).2
    = trace c ++ EvGet (page_url endpoint page) :: evs.
Proof.
  cbn [fetch_pages].
  destruct (fetch_asks_first w (page_url endpoint page) c) as [evs Hf].
  destruct (fetch w (page_url endpoint page) c) as [r c1]. cbn [snd] in Hf.
  destruct r as [v|e]; [|cbn [snd]; eauto].
  destruct v as [| | | | |l|]; cbn [snd]; eauto.
  destruct (length l =? 0)%nat; [cbn [snd]; eauto|].
  destruct (length l <? 100)%nat; [cbn [snd]; eauto|].
  destruct (fetch_pages_extends endpoint fuel (S page) (all_items ++ l) c1) as [evs' ->].
  rewrite Hf. eexists. by app_norm.
Qed.

Lemma fetch_paginated_asks_first (endpoint : string) (fuel : nat) (c : client) :
  exists evs,
    trace (fetch_paginated w (S fuel) endpoint c).2
    = trace c ++ EvGet (page_url endpoint 1) :: evs.
Proof. apply fetch_pages_asks_first. Qed.

(** A result of [fetch_paginated] means there was fuel. *)
Lemma fetch_paginated_fuel (endpoint : string) (fuel : nat) (c c' : client)
    (r : result (list json)) :
  fetch_paginated w fuel endpoint c = (Some r, c') -> exists fuel', fuel = S fuel'.
Proof. destruct fuel; [discriminate|eauto]. Qed.

End Traces.

(** ** The blocks of the driver *)

Section Steps.
Context (w : world) (fuel : nat).

Lemma component_step_effect (endpoint path path_failed comp : string)
    (post : list json -> result (list json)) (s : stats) (c : client)
    (fs : gmap string file) :
  path <> path_failed ->
  step_effect path path_failed true (Some s, c, fs)
    (component_step w fuel endpoint path path_failed comp post s c fs).
Proof.
  intros Hne. unfold step_effect, component_step.
  destruct (file_exists path fs) eqn:Ex.
  - apply file_exists_true in Ex. simpl.
    split; [exists []; by rewrite app_nil_r|]. split; [done|].
    split; [by left; split; [|left]|]. split; [|done].
    intros s' [= <-]. exists s. repeat split; try done. by left.
  - apply file_exists_false in Ex.
    destruct (fetch_pages_extends w endpoint fuel 1 [] c) as [evs Hev].
    unfold fetch_paginated.
    destruct (fetch_pages w fuel endpoint 1 [] c) as [r c1]. cbn [snd] in Hev.
    destruct r as [r|]; simpl.
    + destruct (rbind r post) as [items|e]; simpl.
      * split; [eauto|].
        split; [intros p H1 H2; by rewrite lookup_delete_ne, lookup_insert_ne|].
        split.
        { right. split; [done|].
          rewrite lookup_delete_ne, lookup_insert_eq, lookup_delete_eq by done. eauto. }
        split; [|done].
        intros s' [= <-]. exists s. simpl. repeat split; try done; try lia.
        left. rewrite lookup_delete_ne, lookup_insert_eq by done. eauto.
      * unfold write_failed.
        split; [eauto|].
        split; [intros p H1 H2; by rewrite lookup_insert_ne|].
        split; [left; split; [by rewrite lookup_insert_ne|by right]|].
        split; [|done].
        intros s' [= <-]. exists s. simpl. repeat split; try done; try lia.
        right. rewrite lookup_insert_eq. eauto.
    + split; [eauto|]. split; [done|]. split; [by left; split; [|left]|]. done.
Qed.

Lemma step_effect_refl (path path_failed : string) (flag : bool)
    (st : option stats * client * gmap string file) :
  (flag = true -> st.1.1 = None) ->
  step_effect path path_failed flag st st.
Proof.
  intros Hflag. unfold step_effect.
  split; [exists []; by rewrite app_nil_r|]. split; [done|].
  split; [by left; split; [|left]|]. split; [|done].
  intros s' Hs'. exists s'. repeat split; try done.
  intros Hf. rewrite (Hflag Hf) in Hs'. done.
Qed.

Lemma when_step_effect (flag : bool) (endpoint path path_failed comp : string)
    (post : list json -> result (list json))
    (st : option stats * client * gmap string file) :
  path <> path_failed ->
  step_effect path path_failed flag st
    (when flag (component_step w fuel endpoint path path_failed comp post) st).
Proof.
  intros Hne. destruct st as [[[s|] c] fs]; simpl.
  - destruct flag; [by apply component_step_effect|].
    by apply step_effect_refl.
  - by apply step_effect_refl.
Qed.

End Steps.

Section Driver.
Context (w : world) (fuel : nat) (num : Z).

Lemma success_failure_ne (comp : component) :
  success_path num comp <> failure_path num comp.
Proof. destruct comp; path_ne. Qed.

Lemma optional_steps_effect (do_comments do_timeline do_xrefs : bool)
    (st : option stats * client * gmap string file) :
  let st' := optional_steps w fuel num do_comments do_timeline do_xrefs st in
  (exists evs, trace st'.1.2 = trace st.1.2 ++ evs)
  /\ (forall p, (forall comp, requested do_comments do_timeline do_xrefs comp = true ->
                   p <> success_path num comp /\ p <> failure_path num comp) ->
        st'.2 !! p = st.2 !! p)
  /\ (forall comp, comp <> Main ->
        st'.2 !! success_path num comp = st.2 !! success_path num comp
        \/ (st.2 !! success_path num comp = None
            /\ is_Some (st'.2 !! success_path num comp)
            /\ st'.2 !! failure_path num comp = None))
  /\ (forall s', st'.1.1 = Some s' ->
        exists s, st.1.1 = Some s
          /\ skip_404 s' = skip_404 s /\ skip_date s' = skip_date s
          /\ (fetched s <= fetched s')%nat /\ (failed s <= failed s')%nat
          /\ (forall comp, requested do_comments do_timeline do_xrefs comp = true ->
                is_Some (st'.2 !! success_path num comp)
                \/ is_Some (st'.2 !! failure_path num comp))).
Proof.
  unfold optional_steps.
  pose proof (when_step_effect w fuel do_comments (comments_endpoint num)
                (path_comments num) (path_comments_failed num) "comments" Ok st
                (success_failure_ne Comments)) as E1.
  fold (comments_step w fuel num) in E1.
  set (st1 := when do_comments (comments_step w fuel num) st) in *.
  pose proof (when_step_effect w fuel do_timeline (timeline_endpoint num)
                (path_timeline num) (path_timeline_failed num) "timeline" Ok st1
                (success_failure_ne Timeline)) as E2.
  fold (timeline_step w fuel num) in E2.
  set (st2 := when do_timeline (timeline_step w fuel num) st1) in *.
  pose proof (when_step_effect w fuel do_xrefs (timeline_endpoint num)
                (path_xrefs num) (path_xrefs_failed num) "xrefs" extract_xrefs st2
                (success_failure_ne Xrefs)) as E3.
  fold (xrefs_step w fuel num) in E3.
  set (st3 := when do_xrefs (xrefs_step w fuel num) st2) in *.
  clearbody st1 st2 st3.
  destruct E1 as ([ev1 T1] & F1 & J1 & S1 & N1).
  destruct E2 as ([ev2 T2] & F2 & J2 & S2 & N2).
  destruct E3 as ([ev3 T3] & F3 & J3 & S3 & N3).
  cbv zeta. split; [|split; [|split]].
  - exists (ev1 ++ ev2 ++ ev3). rewrite T3, T2, T1. by app_norm.
  - intros p Hp.
    assert (H3 : st3.2 !! p = st2.2 !! p).
    { destruct do_xrefs; [|by rewrite N3].
      destruct (Hp Xrefs) as [? ?]; [done|]. by apply F3. }
    assert (H2 : st2.2 !! p = st1.2 !! p).
    { destruct do_timeline; [|by rewrite N2].
      destruct (Hp Timeline) as [? ?]; [done|]. by apply F2. }
    assert (H1 : st1.2 !! p = st.2 !! p).
    { destruct do_comments; [|by rewrite N1].
      destruct (Hp Comments) as [? ?]; [done|]. by apply F1. }
    by rewrite H3, H2, H1.
  - intros comp Hcomp. destruct comp; [done| | |]; simpl.
    + rewrite !F3, !F2 by path_ne. destruct J1 as [[-> _]|J1]; eauto.
    + rewrite !F3 by path_ne. rewrite <- !F1 by path_ne.
      destruct J2 as [[-> _]|J2]; eauto.
    + rewrite <- !F1, <- !F2 by path_ne. destruct J3 as [[-> _]|J3]; eauto.
  - intros s3 H3. destruct (S3 s3 H3) as (s2 & H2 & A3 & B3 & C3 & D3 & R3).
    destruct (S2 s2 H2) as (s1 & H1 & A2 & B2 & C2 & D2 & R2).
    destruct (S1 s1 H1) as (s & H0 & A1 & B1 & C1 & D1 & R1).
    exists s. split; [done|]. repeat split; try congruence; try lia.
    intros comp Hreq. destruct comp; simpl in Hreq |- *; [done| | |].
    + rewrite !F3, !F2 by path_ne. by apply R1.
    + rewrite !F3 by path_ne. by apply R2.
    + by apply R3.
Qed.

Lemma main_step_effect (s : stats) (c : client) (fs : gmap string file) :
  main_effect num s c fs (main_step w num s c fs).
Proof.
  unfold main_step.
  destruct (file_exists (path_main num) fs) eqn:Ex.
  - apply file_exists_true in Ex.
    split; [exists []; by rewrite app_nil_r|]. split; [done|]. split; [by left|].
    intros _. simpl. repeat split; try done; lia.
  - apply file_exists_false in Ex.
    destruct (fetch_asks_first w (main_endpoint num) c) as [evs Hev].
    destruct (fetch w (main_endpoint num) c) as [r c1]. cbn [snd] in Hev.
    assert (Hfail : forall e s',
      main_effect num s c fs
        (Return, s', c1, write_failed (path_main_failed num) (str_of_err e) "main" fs)).
    { intros e s'. unfold write_failed. split; [eauto|].
      split; [intros p ? ? ? ?; by rewrite lookup_insert_ne|].
      split; [left; by fs_simpl|]. done. }
    assert (H404 : forall s',
      main_effect num s c fs (Return, s', c1, <[path_404 num := FEmpty]> fs)).
    { intros s'. split; [eauto|].
      split; [intros p ? ? ? ?; by rewrite lookup_insert_ne|].
      split; [left; by fs_simpl|]. done. }
    assert (Hskip : forall s',
      main_effect num s c fs (Return, s', c1, <[path_skip num := FEmpty]> fs)).
    { intros s'. split; [eauto|].
      split; [intros p ? ? ? ?; by rewrite lookup_insert_ne|].
      split; [left; by fs_simpl|]. done. }
    assert (Hok : forall payload,
      main_effect num s c fs
        (Continue, incr_fetched s, c1,
         delete (path_main_failed num) (<[path_main num := FJson payload]> fs))).
    { intros payload. split; [eauto|].
      split; [intros p ? ? ? ?; by rewrite lookup_delete_ne, lookup_insert_ne|].
      split; [right; split; [done|]; fs_simpl; eauto|].
      intros _. fs_simpl. simpl. repeat split; eauto; lia. }
    destruct r as [data|e]; [|apply Hfail].
    destruct data; try apply H404;
      destruct (classify_main _) as [[|payload]|e]; auto.
Qed.

End Driver.

(** ** The driver as a whole *)

Section ProcessItem.
Context (w : world) (fuel : nat) (num : Z).

(** The check "need main data" passes when main was asked for. *)
Lemma gate_with_main (b x : bool) : b && negb true && x = false.
Proof. by rewrite andb_false_r. Qed.

(** With the main marker in place and no terminal marker, the driver goes
    straight to the optional blocks. *)
Lemma process_item_main_exists (c : client) (fs : gmap string file)
    (do_main do_comments do_timeline do_xrefs : bool) :
  fs !! path_404 num = None -> fs !! path_skip num = None ->
  is_Some (fs !! path_main num) ->
  process_item w fuel c fs num do_main do_comments do_timeline do_xrefs
  = optional_steps w fuel num do_comments do_timeline do_xrefs
      (Some (if do_main then incr_skip_exists stats0 else stats0), c, fs).
Proof.
  intros H404 Hskip Hmain. unfold process_item, main_step.
  apply file_exists_false in H404, Hskip. apply file_exists_true in Hmain.
  rewrite H404, Hskip. destruct do_main.
  - rewrite Hmain. cbn [negb]. by rewrite andb_false_r.
  - rewrite Hmain. cbn [negb]. by rewrite andb_false_r.
Qed.

(** With [do_main], no marker, and a record body in reply to the first
    request, the [try] block of the main component decides the rest. *)
Lemma process_item_main_fetched (c : client) (fs : gmap string file)
    (do_comments do_timeline do_xrefs : bool) (hdrs : headers) (data : json) :
  fs !! path_404 num = None -> fs !! path_skip num = None ->
  fs !! path_main num = None ->
  net w (main_endpoint num) (requests c) = Response 200 hdrs (Some data) ->
  is_none data = false ->
  exists c1,
    fetch w (main_endpoint num) c = (Ok data, c1)
    /\ requests c1 = S (requests c)
    /\ process_item w fuel c fs num true do_comments do_timeline do_xrefs
       = match classify_main data with
         | Raise e =>
             (Some (incr_failed stats0), c1,
              write_failed (path_main_failed num) (str_of_err e) "main" fs)
         | Ok Excluded =>
             (Some (set_skip_date stats0), c1, <[path_skip num := FEmpty]> fs)
         | Ok (Persist payload) =>
             optional_steps w fuel num do_comments do_timeline do_xrefs
               (Some (incr_fetched stats0), c1,
                delete (path_main_failed num) (<[path_main num := FJson payload]> fs))
         end.
Proof.
  intros H404 Hskip Hmain Hnet Hdata. unfold process_item, main_step.
  apply file_exists_false in H404, Hskip, Hmain.
  rewrite H404, Hskip, Hmain.
  destruct (fetch_ok w _ c hdrs data Hnet) as (c1 & pause & Hf & _ & Hrq & _).
  exists c1. split; [done|]. split; [done|]. rewrite Hf.
  destruct data; try discriminate Hdata;
    destruct (classify_main _) as [[|payload]|e]; rewrite ?gate_with_main; reflexivity.
Qed.

(** With [do_main], no marker, and a given result of the fetch of the
    record, what [process_item] does. *)
Lemma process_item_main_result (c c1 : client) (fs : gmap string file)
    (do_comments do_timeline do_xrefs : bool) (r : result json) :
  fs !! path_404 num = None -> fs !! path_skip num = None ->
  fs !! path_main num = None ->
  fetch w (main_endpoint num) c = (r, c1) ->
  process_item w fuel c fs num true do_comments do_timeline do_xrefs
  = match r with
    | Raise e =>
        (Some (incr_failed stats0), c1,
         write_failed (path_main_failed num) (str_of_err e) "main" fs)
    | Ok JNull => (Some (set_skip_404 stats0), c1, <[path_404 num := FEmpty]> fs)
    | Ok data =>
        match classify_main data with
        | Raise e =>
            (Some (incr_failed stats0), c1,
             write_failed (path_main_failed num) (str_of_err e) "main" fs)
        | Ok Excluded =>
            (Some (set_skip_date stats0), c1, <[path_skip num := FEmpty]> fs)
        | Ok (Persist payload) =>
            optional_steps w fuel num do_comments do_timeline do_xrefs
              (Some (incr_fetched stats0), c1,
               delete (path_main_failed num) (<[path_main num := FJson payload]> fs))
        end
    end.
Proof.
  intros H404 Hskip Hmain Hf. unfold process_item, main_step.
  apply file_exists_false in H404, Hskip, Hmain.
  rewrite H404, Hskip, Hmain, Hf.
  destruct r as [data|e]; [|done].
  destruct data; try done;
    destruct (classify_main _) as [[|payload]|e]; rewrite ?gate_with_main; reflexivity.
Qed.

Lemma main_step_outcome (s : stats) (c : client) (fs : gmap string file) :
  main_outcome num s c fs (main_step w num s c fs).
Proof.
  unfold main_step. destruct (file_exists (path_main num) fs) eqn:Ex.
  - apply file_exists_true in Ex. by constructor.
  - apply file_exists_false in Ex.
    destruct (fetch w (main_endpoint num) c) as [r c1].
    destruct r as [data|e]; [|by constructor].
    destruct data; try (by constructor);
      destruct (classify_main _) as [[|payload]|e]; by constructor.
Qed.

(** The call with no optional component asked for runs the main block
    alone.  When it leaves the main marker in place, a call with optional
    components goes on with their blocks from there; when it does not, the
    call returns as it stands, whatever is asked for. *)
Lemma process_item_main_alone (c : client) (fs : gmap string file) (do_main : bool) :
  fs !! path_404 num = None -> fs !! path_skip num = None ->
  exists s1 c1 fs1,
    process_item w fuel c fs num do_main false false false = (Some s1, c1, fs1)
    /\ (forall p, p <> path_404 num -> p <> path_skip num -> p <> path_main num ->
                  p <> path_main_failed num -> fs1 !! p = fs !! p)
    /\ ((is_Some (fs1 !! path_main num)
         /\ forall dc dt dx,
              process_item w fuel c fs num do_main dc dt dx
              = optional_steps w fuel num dc dt dx (Some s1, c1, fs1))
        \/ (fs1 !! path_main num = None
            /\ forall dc dt dx,
                 process_item w fuel c fs num do_main dc dt dx = (Some s1, c1, fs1))).
Proof.
  intros H404 Hskip. unfold process_item.
  apply file_exists_false in H404 as X404. apply file_exists_false in Hskip as Xskip.
  rewrite X404, Xskip. destruct do_main.
  - pose proof (main_step_effect w num stats0 c fs) as Heff.
    destruct (main_step_outcome stats0 c fs)
      as [Hex | c' e Hn | c' Hn | c' Hn | c' payload Hn];
      destruct Heff as (_ & Hframe & _).
    + eexists _, _, _. split; [by rewrite gate_with_main|]. split; [done|]. left.
      split; [done|]. intros dc dt dx. by rewrite gate_with_main.
    + eexists _, _, _. split; [done|]. split; [done|]. right.
      split; [unfold write_failed; by fs_simpl|done].
    + eexists _, _, _. split; [done|]. split; [done|]. right.
      split; [by fs_simpl|done].
    + eexists _, _, _. split; [done|]. split; [done|]. right.
      split; [by fs_simpl|done].
    + eexists _, _, _. split; [by rewrite gate_with_main|]. split; [done|]. left.
      split; [fs_simpl; eauto|]. intros dc dt dx. by rewrite gate_with_main.
  - exists stats0, c, fs. split; [done|]. split; [done|].
    destruct (fs !! path_main num) as [x|] eqn:Hm.
    + left. split; [eauto|]. intros dc dt dx.
      assert (X : file_exists (path_main num) fs = true)
        by (apply file_exists_true; rewrite Hm; eauto).
      rewrite X. cbn [negb]. by rewrite andb_false_r.
    + right. split; [done|]. intros dc dt dx.
      apply file_exists_false in Hm. rewrite Hm. cbn [negb]. rewrite !andb_true_r.
      by destruct dc, dt, dx.
Qed.

(** The blocks of the components not asked for leave their markers alone. *)
Lemma process_item_untouched (c : client) (fs : gmap string file)
    (do_main do_comments do_timeline do_xrefs : bool) (comp : component) :
  comp <> Main -> requested do_comments do_timeline do_xrefs comp = false ->
  let fs' := (process_item w fuel c fs num do_main do_comments do_timeline do_xrefs).2 in
  fs' !! success_path num comp = fs !! success_path num comp
  /\ fs' !! failure_path num comp = fs !! failure_path num comp.
Proof.
  intros Hcomp Hreq. cbv zeta. unfold process_item.
  destruct (file_exists (path_404 num) fs); [done|].
  destruct (file_exists (path_skip num) fs); [done|].
  assert (Hmain :
    let '(fl, s1, c1, fs1) :=
      (if do_main then main_step w num stats0 c fs else (Continue, stats0, c, fs)) in
    fs1 !! success_path num comp = fs !! success_path num comp
    /\ fs1 !! failure_path num comp = fs !! failure_path num comp).
  { destruct do_main; [|done].
    pose proof (main_step_effect w num stats0 c fs) as H. unfold main_effect in H.
    destruct (main_step w num stats0 c fs) as [[[fl s1] c1] fs1].
    destruct H as (_ & H & _). split; apply H; destruct comp; try done; path_ne. }
  destruct (if do_main then main_step w num stats0 c fs else (Continue, stats0, c, fs))
    as [[[fl s1] c1] fs1].
  destruct fl; [|done].
  destruct (_ && _); [done|].
  pose proof (optional_steps_effect w fuel num do_comments do_timeline do_xrefs
                (Some s1, c1, fs1)) as (_ & F & _).
  cbn [snd] in F. destruct Hmain as [<- <-].
  split; apply F; intros comp' Hreq'; destruct comp, comp'; simpl in Hreq, Hreq';
    try done; try congruence; split; path_ne.
Qed.

(** The trace of an invocation begins with the trace it found. *)
Lemma process_item_extends (c : client) (fs : gmap string file)
    (do_main do_comments do_timeline do_xrefs : bool) :
  exists evs,
    trace (process_item w fuel c fs num do_main do_comments do_timeline do_xrefs).1.2
    = trace c ++ evs.
Proof.
  assert (Hrefl : exists evs, trace c = trace c ++ evs)
    by (exists []; by rewrite app_nil_r).
  unfold process_item.
  destruct (file_exists (path_404 num) fs); [done|].
  destruct (file_exists (path_skip num) fs); [done|].
  assert (Hmain :
    let '(fl, s1, c1, fs1) :=
      (if do_main then main_step w num stats0 c fs else (Continue, stats0, c, fs)) in
    exists evs, trace c1 = trace c ++ evs).
  { destruct do_main; [|done].
    pose proof (main_step_effect w num stats0 c fs) as H. unfold main_effect in H.
    destruct (main_step w num stats0 c fs) as [[[fl s1] c1] fs1]. by destruct H. }
  destruct (if do_main then main_step w num stats0 c fs else (Continue, stats0, c, fs))
    as [[[fl s1] c1] fs1].
  destruct fl; [|done].
  destruct (_ && _); [done|].
  pose proof (optional_steps_effect w fuel num do_comments do_timeline do_xrefs
                (Some s1, c1, fs1)) as ([evs Hev] & _).
  destruct Hmain as [evs0 Hev0]. exists (evs0 ++ evs).
  rewrite Hev. cbn [fst snd]. rewrite Hev0. by app_norm.
Qed.

Lemma when_false (step : stats -> client -> gmap string file ->
                          option stats * client * gmap string file)
    (st : option stats * client * gmap string file) :
  when false step st = st.
Proof. by destruct st as [[[s|] c] fs]. Qed.

(** A call seen as the call without its last components, followed by
    their blocks. *)
Lemma process_item_after_main (c c1 : client) (fs fs1 : gmap string file)
    (do_main : bool) (s1 : stats) :
  fs !! path_404 num = None -> fs !! path_skip num = None ->
  process_item w fuel c fs num do_main false false false = (Some s1, c1, fs1) ->
  is_Some (fs1 !! path_main num) ->
  forall dc dt dx,
    process_item w fuel c fs num do_main dc dt dx
    = optional_steps w fuel num dc dt dx (Some s1, c1, fs1).
Proof.
  intros H404 Hskip Hrun Hmain.
  destruct (process_item_main_alone c fs do_main H404 Hskip)
    as (s1' & c1' & fs1' & Hrun' & _ & [[_ Hall] | [Hnone Hall]]);
    rewrite Hrun in Hrun'; injection Hrun' as <- <- <-; [done|].
  rewrite Hnone in Hmain. by destruct Hmain.
Qed.

Lemma process_item_after_comments (c c2 : client) (fs fs2 : gmap string file)
    (do_main do_comments : bool) (s2 : stats) :
  fs !! path_404 num = None -> fs !! path_skip num = None ->
  process_item w fuel c fs num do_main do_comments false false = (Some s2, c2, fs2) ->
  is_Some (fs2 !! path_main num) ->
  forall dt dx,
    process_item w fuel c fs num do_main do_comments dt dx
    = optional_steps w fuel num false dt dx (Some s2, c2, fs2).
Proof.
  intros H404 Hskip Hrun Hmain dt dx.
  destruct (process_item_main_alone c fs do_main H404 Hskip)
    as (s1 & c1 & fs1 & _ & _ & [[_ Hall] | [Hnone Hall]]).
  - rewrite Hall in Hrun |- *. unfold optional_steps in Hrun |- *.
    rewrite !when_false in Hrun. by rewrite Hrun.
  - rewrite Hall in Hrun. injection Hrun as <- <- <-. rewrite Hnone in Hmain.
    by destruct Hmain.
Qed.

Lemma process_item_after_timeline (c c2 : client) (fs fs2 : gmap string file)
    (do_main do_comments do_timeline : bool) (s2 : stats) :
  fs !! path_404 num = None -> fs !! path_skip num = None ->
  process_item w fuel c fs num do_main do_comments do_timeline false = (Some s2, c2, fs2) ->
  is_Some (fs2 !! path_main num) ->
  process_item w fuel c fs num do_main do_comments do_timeline true
  = xrefs_step w fuel num s2 c2 fs2.
Proof.
  intros H404 Hskip Hrun Hmain.
  destruct (process_item_main_alone c fs do_main H404 Hskip)
    as (s1 & c1 & fs1 & _ & _ & [[_ Hall] | [Hnone Hall]]).
  - rewrite Hall in Hrun |- *. unfold optional_steps in Hrun |- *.
    rewrite when_false in Hrun. by rewrite Hrun.
  - rewrite Hall in Hrun. injection Hrun as <- <- <-. rewrite Hnone in Hmain.
    by destruct Hmain.
Qed.

Lemma optional_path_other (p : string) :
  p = path_404 num \/ p = path_skip num \/ p = path_main num \/ p = path_main_failed num ->
  forall (do_comments do_timeline do_xrefs : bool) comp,
    requested do_comments do_timeline do_xrefs comp = true ->
    p <> success_path num comp /\ p <> failure_path num comp.
Proof.
  intros [-> | [-> | [-> | ->]]] dc dt dx comp Hcomp; destruct comp; try done;
    split; path_ne.
Qed.

End ProcessItem.

(** C5: a record body fetched for the main component -- at the first
    attempt or after retries -- whose creation timestamp is a string (the
    empty string when the field is missing) is excluded if and only if
    that string is at or after [CUTOFF_DATE] in string order.  Excluded
    means: the empty excluded-by-date marker is written and no other file
    touched, the excluded count is 1 and every other count 0, nothing is
    persisted and nothing more requested.  The timestamp equal to the
    cutoff is excluded, the second before it is not. *)
Theorem cutoff_exclusion (w : world) (fuel : nat) (c c1 : client) (fs : gmap string file)
    (num : Z) (do_comments do_timeline do_xrefs : bool)
    (kvs : list (string * json)) (created_at : string) :
  fs !! path_404 num = None -> fs !! path_skip num = None ->
  fs !! path_main num = None ->
  fetch w (main_endpoint num) c = (Ok (JObj kvs), c1) ->
  dict_get_default kvs "created_at" (JStr "") = JStr created_at ->
  let '(r, c', fs') := process_item w fuel c fs num true do_comments do_timeline do_xrefs in
  ((fs' !! path_skip num = Some FEmpty
    /\ (forall p, p <> path_skip num -> fs' !! p = fs !! p)
    /\ (exists s, r = Some s
                  /\ skip_date s = 1%nat /\ skip_404 s = 0%nat /\ fetched s = 0%nat
                  /\ skip_exists s = 0%nat /\ failed s = 0%nat)
    /\ c' = c1)
   <-> str_ge created_at CUTOFF_DATE = true)
  /\ (str_ge created_at CUTOFF_DATE = false ->
      fs' !! path_skip num = None /\ is_Some (fs' !! path_main num)
      /\ forall s, r = Some s -> skip_date s = 0%nat)
  /\ str_ge "2016-01-01T00:00:00Z" CUTOFF_DATE = true
  /\ str_ge "2015-12-31T23:59:59Z" CUTOFF_DATE = false.
Proof.
  intros H404 Hskip Hmain Hf Hcreated.
  rewrite (process_item_main_result w fuel num c c1 fs do_comments do_timeline do_xrefs
             (Ok (JObj kvs)) H404 Hskip Hmain Hf).
  unfold classify_main. rewrite Hcreated. simpl.
  destruct (str_ge created_at CUTOFF_DATE) eqn:Hge.
  - split; [|split; [done|split; reflexivity]].
    split; [done|]. intros _. split; [by fs_simpl|].
    split; [intros p Hp; by rewrite lookup_insert_ne|]. split; [|done].
    exists (set_skip_date stats0). by repeat split.
  - pose proof (optional_steps_effect w fuel num do_comments do_timeline do_xrefs
                  (Some (incr_fetched stats0), c1,
                   delete (path_main_failed num)
                     (<[path_main num :=
                          FJson (JObj (dict_set "_meta"
                            (JObj [("type",
                                    JStr (if dict_contains "pull_request" kvs
                                          then "pr" else "issue"))]) kvs))]> fs)))
      as (_ & Hframe & _ & Hstats).
    destruct (optional_steps _ _ _ _ _ _ _) as [[r c'] fs']. simpl in Hframe, Hstats.
    assert (Hs : fs' !! path_skip num = None).
    { rewrite Hframe by (apply optional_path_other; auto). by fs_simpl. }
    assert (Hm : is_Some (fs' !! path_main num)).
    { rewrite Hframe by (apply optional_path_other; auto). fs_simpl. eauto. }
    split; [|split; [|split; reflexivity]].
    + split; [|done]. intros [H _]. congruence.
    + intros _. split; [done|]. split; [done|].
      intros s Hr. destruct (Hstats s Hr) as (s0 & [= <-] & _ & -> & _). done.
Qed.

Lemma cutoff_exclusion_witness :
  exists s c' fs',
    process_item (flaky (record_created "2016-01-01T00:00:00Z")) 3 new_client ∅ 50000
      true true true true = (Some s, c', fs')
    /\ skip_date s = 1%nat
    /\ fs' !! path_skip 50000 = Some FEmpty
    /\ requests c' = 3%nat.
Proof.
  destruct (fetch (flaky (record_created "2016-01-01T00:00:00Z")) (main_endpoint 50000)
              new_client) as [r0 c1] eqn:Ef.
  assert (Hr0 : r0 = Ok (JObj [("number", JInt 50000); ("title", JStr "an issue");
                               ("created_at", JStr "2016-01-01T00:00:00Z")])).
  { apply (f_equal fst) in Ef. cbn [fst] in Ef. rewrite <- Ef. vm_compute. reflexivity. }
  assert (Hrq : requests c1 = 3%nat).
  { apply (f_equal (fun x => requests x.2)) in Ef. cbn [snd] in Ef. rewrite <- Ef.
    vm_compute. reflexivity. }
  subst r0.
  pose proof (cutoff_exclusion (flaky (record_created "2016-01-01T00:00:00Z")) 3
                new_client c1 ∅ 50000 true true true _ "2016-01-01T00:00:00Z"
                (lookup_empty _) (lookup_empty _) (lookup_empty _) Ef eq_refl) as H.
  destruct (process_item _ _ _ _ _ _ _ _ _) as [[r c'] fs'].
  destruct H as [[_ H] _]. destruct (H eq_refl) as (Hs & _ & (s & -> & Hd & _) & ->).
  exists s, c1, fs'. by repeat split.
Defined.

(** C10: a record body without creation timestamp, or with the empty
    string for it, counts as created before the cutoff: the default [""]
    is below [CUTOFF_DATE] in string order, so no excluded-by-date marker is
    written and the body is classified (issue or pull request) and
    persisted with its [_meta] field, the failure marker of main cleared. *)
Theorem missing_created_at_not_excluded (w : world) (fuel : nat) (c : client)
    (fs : gmap string file) (num : Z) (do_comments do_timeline do_xrefs : bool)
    (hdrs : headers) (kvs : list (string * json)) :
  fs !! path_404 num = None -> fs !! path_skip num = None ->
  fs !! path_main num = None ->
  net w (main_endpoint num) (requests c) = Response 200 hdrs (Some (JObj kvs)) ->
  assoc "created_at" kvs = None \/ assoc "created_at" kvs = Some (JStr "") ->
  let item_type := if dict_contains "pull_request" kvs then "pr" else "issue" in
  let '(r, _, fs') := process_item w fuel c fs num true do_comments do_timeline do_xrefs in
  dict_get_default kvs "created_at" (JStr "") = JStr ""
  /\ str_ge "" CUTOFF_DATE = false
  /\ fs' !! path_skip num = None
  /\ fs' !! path_main num
     = Some (FJson (JObj (dict_set "_meta" (JObj [("type", JStr item_type)]) kvs)))
  /\ fs' !! path_main_failed num = None
  /\ forall s, r = Some s -> skip_date s = 0%nat /\ (1 <= fetched s)%nat.
Proof.
  intros H404 Hskip Hmain Hnet Hmissing item_type.
  assert (Hcreated : dict_get_default kvs "created_at" (JStr "") = JStr "").
  { unfold dict_get_default. by destruct Hmissing as [-> | ->]. }
  destruct (process_item_main_fetched w fuel num c fs do_comments do_timeline do_xrefs
              hdrs (JObj kvs) H404 Hskip Hmain Hnet eq_refl) as (c1 & _ & _ & Hp).
  rewrite Hp. unfold classify_main. rewrite Hcreated. simpl. fold item_type.
  pose proof (optional_steps_effect w fuel num do_comments do_timeline do_xrefs
                (Some (incr_fetched stats0), c1,
                 delete (path_main_failed num)
                   (<[path_main num :=
                        FJson (JObj (dict_set "_meta"
                          (JObj [("type", JStr item_type)]) kvs))]> fs)))
    as (_ & Hframe & _ & Hstats).
  destruct (optional_steps _ _ _ _ _ _ _) as [[r c'] fs']. simpl in Hframe, Hstats.
  split; [done|]. split; [reflexivity|].
  rewrite !Hframe by (apply optional_path_other; auto). fs_simpl.
  repeat split; try done.
  - destruct (Hstats s H) as (s0 & [= <-] & _ & -> & _). done.
  - destruct (Hstats s H) as (s0 & [= <-] & _ & _ & Hf & _). simpl in Hf. lia.
Qed.

Lemma missing_created_at_not_excluded_witness :
  exists c' fs',
    process_item (answering record_without_date) 3 new_client ∅ 9 true false false false
    = (Some (incr_fetched stats0), c', fs')
    /\ fs' !! path_skip 9 = None
    /\ fs' !! path_main 9
       = Some (FJson (JObj [("number", JInt 9);
                            ("pull_request", JObj [("url", JStr "u")]);
                            ("_meta", JObj [("type", JStr "pr")])])).
Proof.
  pose proof (missing_created_at_not_excluded (answering record_without_date) 3 new_client
                ∅ 9 false false false no_headers
                [("number", JInt 9); ("pull_request", JObj [("url", JStr "u")])]
                eq_refl eq_refl eq_refl eq_refl (or_introl eq_refl)) as H.
  cbv zeta in H.
  destruct (process_item _ _ _ _ _ _ _ _ _) as [[r c'] fs'] eqn:E.
  destruct H as (_ & _ & Hs & Hm & _).
  exists c', fs'. split; [|split; [exact Hs|exact Hm]].
  assert (Hr : r = Some (incr_fetched stats0)).
  { apply (f_equal (fun x => x.1.1)) in E. simpl in E. rewrite <- E. vm_compute. reflexivity. }
  by rewrite Hr.
Defined.

(** ** Success and failure markers *)

Section Markers.
Context (w : world) (fuel : nat) (num : Z).

Lemma component_step_success (endpoint path path_failed comp : string)
    (post : list json -> result (list json)) (s : stats) (c c1 : client)
    (fs : gmap string file) (pages out : list json) :
  path <> path_failed ->
  fs !! path = None ->
  fetch_paginated w fuel endpoint c = (Some (Ok pages), c1) ->
  post pages = Ok out ->
  exists fs1,
    component_step w fuel endpoint path path_failed comp post s c fs
    = (Some (incr_fetched s), c1, fs1)
    /\ fs1 !! path = Some (FJson (JList out))
    /\ fs1 !! path_failed = None.
Proof.
  intros Hne Hnone Hf Hpost. unfold component_step.
  apply file_exists_false in Hnone. rewrite Hnone, Hf. simpl. rewrite Hpost.
  eexists. split; [reflexivity|].
  by rewrite lookup_delete_ne, lookup_insert_eq, lookup_delete_eq.
Qed.

Lemma component_step_failure (endpoint path path_failed comp : string)
    (post : list json -> result (list json)) (s : stats) (c c1 : client)
    (fs : gmap string file) (r : result (list json)) (e : pyerr) :
  fs !! path = None ->
  fetch_paginated w fuel endpoint c = (Some r, c1) ->
  rbind r post = Raise e ->
  component_step w fuel endpoint path path_failed comp post s c fs
  = (Some (incr_failed s), c1, write_failed path_failed (str_of_err e) comp fs).
Proof.
  intros Hnone Hf Hpost. unfold component_step.
  apply file_exists_false in Hnone. by rewrite Hnone, Hf, Hpost.
Qed.

Lemma main_step_success (s : stats) (c c1 : client) (fs : gmap string file)
    (data payload : json) :
  fs !! path_main num = None ->
  fetch w (main_endpoint num) c = (Ok data, c1) ->
  is_none data = false ->
  classify_main data = Ok (Persist payload) ->
  exists fs1,
    main_step w num s c fs = (Continue, incr_fetched s, c1, fs1)
    /\ fs1 !! path_main num = Some (FJson payload)
    /\ fs1 !! path_main_failed num = None.
Proof.
  intros Hnone Hf Hdata Hc. unfold main_step.
  apply file_exists_false in Hnone. rewrite Hnone, Hf.
  destruct data; try discriminate Hdata; rewrite Hc;
    (eexists; split; [reflexivity|]; by fs_simpl).
Qed.

(** Over a whole invocation: a success marker that appears comes without
    the failure marker of its component. *)
Lemma process_item_success_clears (c : client) (fs : gmap string file)
    (do_main do_comments do_timeline do_xrefs : bool) (comp : component) :
  let fs' := (process_item w fuel c fs num do_main do_comments do_timeline do_xrefs).2 in
  fs !! success_path num comp = None ->
  is_Some (fs' !! success_path num comp) ->
  fs' !! failure_path num comp = None.
Proof.
  cbv zeta. unfold process_item.
  destruct (file_exists (path_404 num) fs); [simpl; intros -> [? ?]; done|].
  destruct (file_exists (path_skip num) fs); [simpl; intros -> [? ?]; done|].
  assert (Hmain :
    let '(fl, s1, c1, fs1) :=
      (if do_main then main_step w num stats0 c fs else (Continue, stats0, c, fs)) in
    (forall p, p <> path_404 num -> p <> path_skip num -> p <> path_main num ->
               p <> path_main_failed num -> fs1 !! p = fs !! p)
    /\ (fs1 !! path_main num = fs !! path_main num
        \/ (fs !! path_main num = None /\ is_Some (fs1 !! path_main num)
            /\ fs1 !! path_main_failed num = None))).
  { destruct do_main; [|by split; [|left]].
    pose proof (main_step_effect w num stats0 c fs) as H. unfold main_effect in H.
    destruct (main_step w num stats0 c fs) as [[[fl s1] c1] fs1].
    destruct H as (_ & H1 & H2 & _). by split. }
  destruct (if do_main then main_step w num stats0 c fs else (Continue, stats0, c, fs))
    as [[[fl s1] c1] fs1].
  destruct Hmain as [Fm Jm].
  assert (Hbase : fs !! success_path num comp = None ->
                  is_Some (fs1 !! success_path num comp) ->
                  fs1 !! failure_path num comp = None).
  { intros Hnone Hsome. destruct comp; simpl in *.
    - destruct Jm as [Jm | (_ & _ & Jm)]; [|done].
      rewrite Jm, Hnone in Hsome. by destruct Hsome.
    - rewrite Fm, Hnone in Hsome by path_ne. by destruct Hsome.
    - rewrite Fm, Hnone in Hsome by path_ne. by destruct Hsome.
    - rewrite Fm, Hnone in Hsome by path_ne. by destruct Hsome. }
  destruct fl; [|exact Hbase].
  destruct (_ && _); [exact Hbase|].
  pose proof (optional_steps_effect w fuel num do_comments do_timeline do_xrefs
                (Some s1, c1, fs1)) as (_ & Fo & Jo & _).
  destruct (optional_steps _ _ _ _ _ _ _) as [[r c'] fs']. simpl in Fo, Jo |- *.
  intros Hnone Hsome. destruct comp.
  - simpl in *. rewrite Fo in Hsome |- * by (apply optional_path_other; auto).
    by apply Hbase.
  - destruct (Jo Comments) as [J | (_ & _ & J)]; [done| |done].
    simpl in *. rewrite J, Fm, Hnone in Hsome by path_ne. by destruct Hsome.
  - destruct (Jo Timeline) as [J | (_ & _ & J)]; [done| |done].
    simpl in *. rewrite J, Fm, Hnone in Hsome by path_ne. by destruct Hsome.
  - destruct (Jo Xrefs) as [J | (_ & _ & J)]; [done| |done].
    simpl in *. rewrite J, Fm, Hnone in Hsome by path_ne. by destruct Hsome.
Qed.

End Markers.

(** C8: for every record and component, a fetch that succeeds writes the
    success marker with the payload and deletes the failure marker of the
    same pair (shown for the block of each of the four components); and
    over a whole invocation of [process_item], whenever the success marker
    of a component appears, no failure marker of that pair is left. *)
Theorem success_clears_failure (w : world) (fuel : nat) (c : client)
    (fs : gmap string file) (num : Z) (do_main do_comments do_timeline do_xrefs : bool) :
  (forall comp,
     let fs' := (process_item w fuel c fs num do_main do_comments do_timeline do_xrefs).2 in
     fs !! success_path num comp = None ->
     is_Some (fs' !! success_path num comp) ->
     fs' !! failure_path num comp = None)
  /\ (forall s c1 data payload,
       fs !! path_main num = None ->
       fetch w (main_endpoint num) c = (Ok data, c1) ->
       is_none data = false ->
       classify_main data = Ok (Persist payload) ->
       exists fs1,
         main_step w num s c fs = (Continue, incr_fetched s, c1, fs1)
         /\ fs1 !! path_main num = Some (FJson payload)
         /\ fs1 !! path_main_failed num = None)
  /\ (forall s c1 comments,
       fs !! path_comments num = None ->
       fetch_paginated w fuel (comments_endpoint num) c = (Some (Ok comments), c1) ->
       exists fs1,
         comments_step w fuel num s c fs = (Some (incr_fetched s), c1, fs1)
         /\ fs1 !! path_comments num = Some (FJson (JList comments))
         /\ fs1 !! path_comments_failed num = None)
  /\ (forall s c1 timeline,
       fs !! path_timeline num = None ->
       fetch_paginated w fuel (timeline_endpoint num) c = (Some (Ok timeline), c1) ->
       exists fs1,
         timeline_step w fuel num s c fs = (Some (incr_fetched s), c1, fs1)
         /\ fs1 !! path_timeline num = Some (FJson (JList timeline))
         /\ fs1 !! path_timeline_failed num = None)
  /\ (forall s c1 timeline xrefs,
       fs !! path_xrefs num = None ->
       fetch_paginated w fuel (timeline_endpoint num) c = (Some (Ok timeline), c1) ->
       extract_xrefs timeline = Ok xrefs ->
       exists fs1,
         xrefs_step w fuel num s c fs = (Some (incr_fetched s), c1, fs1)
         /\ fs1 !! path_xrefs num = Some (FJson (JList xrefs))
         /\ fs1 !! path_xrefs_failed num = None).
Proof.
  split; [|split; [|split; [|split]]].
  - intros comp. apply process_item_success_clears.
  - intros s c1 data payload. apply main_step_success.
  - intros s c1 comments Hnone Hf.
    by apply (component_step_success w fuel _ _ _ _ Ok s c c1 fs comments comments
                (success_failure_ne num Comments)).
  - intros s c1 timeline Hnone Hf.
    by apply (component_step_success w fuel _ _ _ _ Ok s c c1 fs timeline timeline
                (success_failure_ne num Timeline)).
  - intros s c1 timeline xrefs Hnone Hf Hx.
    by apply (component_step_success w fuel _ _ _ _ extract_xrefs s c c1 fs timeline xrefs
                (success_failure_ne num Xrefs)).
Qed.

Lemma success_clears_failure_witness :
  let fs' := (process_item (answering (JList [JObj [("body", JStr "hello")]])) 2 new_client
                (comments_failed_before 7) 7 true true false false).2 in
  comments_failed_before 7 !! path_comments_failed 7
    = Some (FFailed "Failed after 5 attempts: x" "comments")
  /\ fs' !! path_comments 7 = Some (FJson (JList [JObj [("body", JStr "hello")]]))
  /\ fs' !! path_comments_failed 7 = None.
Proof.
  cbv zeta. split; [reflexivity|]. split; [reflexivity|].
  destruct (success_clears_failure (answering (JList [JObj [("body", JStr "hello")]])) 2
              new_client (comments_failed_before 7) 7 true true false false) as [H _].
  apply (H Comments); [reflexivity|]. eexists. reflexivity.
Defined.

(** ** Optional components *)

Section Optional.
Context (w : world) (fuel : nat) (num : Z).

(** The blocks after a failed comments block run on the state the
    failure has left, as they would without comments asked for. *)
Lemma optional_steps_comments_failed (do_timeline do_xrefs : bool) (s : stats)
    (c c1 : client) (fs : gmap string file) (r : result (list json)) (e : pyerr) :
  fs !! path_comments num = None ->
  fetch_paginated w fuel (comments_endpoint num) c = (Some r, c1) ->
  rbind r Ok = Raise e ->
  optional_steps w fuel num true do_timeline do_xrefs (Some s, c, fs)
  = optional_steps w fuel num false do_timeline do_xrefs
      (Some (incr_failed s), c1,
       write_failed (path_comments_failed num) (str_of_err e) "comments" fs).
Proof.
  intros Hnone Hf He. unfold optional_steps. cbn [when]. unfold comments_step.
  by rewrite (component_step_failure w fuel _ _ _ _ Ok s c c1 fs r e Hnone Hf He).
Qed.

Lemma when_step_asks_first (endpoint path path_failed comp : string)
    (post : list json -> result (list json)) (s : stats) (c : client)
    (fs : gmap string file) (fuel' : nat) :
  fuel = S fuel' ->
  fs !! path = None ->
  exists evs,
    trace (component_step w fuel endpoint path path_failed comp post s c fs).1.2
    = trace c ++ EvGet (page_url endpoint 1) :: evs.
Proof.
  intros -> Hnone. unfold component_step.
  apply file_exists_false in Hnone. rewrite Hnone.
  destruct (fetch_paginated_asks_first w endpoint fuel' c) as [evs Hev].
  destruct (fetch_paginated w (S fuel') endpoint c) as [r c1]. simpl in Hev.
  destruct r as [r|]; [|simpl; eauto].
  destruct (rbind r post); simpl; eauto.
Qed.

Lemma optional_steps_timeline_failed (do_xrefs : bool) (s : stats)
    (c c1 : client) (fs : gmap string file) (r : result (list json)) (e : pyerr) :
  fs !! path_timeline num = None ->
  fetch_paginated w fuel (timeline_endpoint num) c = (Some r, c1) ->
  rbind r Ok = Raise e ->
  optional_steps w fuel num false true do_xrefs (Some s, c, fs)
  = optional_steps w fuel num false false do_xrefs
      (Some (incr_failed s), c1,
       write_failed (path_timeline_failed num) (str_of_err e) "timeline" fs).
Proof.
  intros Hnone Hf He. unfold optional_steps. cbn [when]. unfold timeline_step.
  by rewrite (component_step_failure w fuel _ _ _ _ Ok s c c1 fs r e Hnone Hf He).
Qed.

(** The first thing the optional blocks do when timeline is the first
    of them to run: ask for page 1 of the timeline. *)
Lemma optional_steps_timeline_first (do_xrefs : bool) (s : stats) (c : client)
    (fs : gmap string file) (fuel' : nat) :
  fuel = S fuel' ->
  fs !! path_timeline num = None ->
  exists evs,
    trace (optional_steps w fuel num false true do_xrefs (Some s, c, fs)).1.2
    = trace c ++ EvGet (page_url (timeline_endpoint num) 1) :: evs.
Proof.
  intros Hfuel Hnone. unfold optional_steps. cbn [when].
  destruct (when_step_asks_first (timeline_endpoint num) (path_timeline num)
              (path_timeline_failed num) "timeline" Ok s c fs fuel' Hfuel Hnone)
    as [evs Hev].
  fold (timeline_step w fuel num) in Hev.
  destruct (when_step_effect w fuel do_xrefs (timeline_endpoint num)
              (path_xrefs num) (path_xrefs_failed num) "xrefs" extract_xrefs
              (timeline_step w fuel num s c fs) (success_failure_ne num Xrefs))
    as ([evs' T] & _).
  fold (xrefs_step w fuel num) in T. rewrite T, Hev. eexists. by app_norm.
Qed.

Lemma optional_steps_xrefs_first (s : stats) (c : client)
    (fs : gmap string file) (fuel' : nat) :
  fuel = S fuel' ->
  fs !! path_xrefs num = None ->
  exists evs,
    trace (optional_steps w fuel num false false true (Some s, c, fs)).1.2
    = trace c ++ EvGet (page_url (timeline_endpoint num) 1) :: evs.
Proof.
  intros Hfuel Hnone. unfold optional_steps. cbn [when].
  apply (when_step_asks_first (timeline_endpoint num) (path_xrefs num)
           (path_xrefs_failed num) "xrefs" extract_xrefs s c fs fuel' Hfuel Hnone).
Qed.

End Optional.

(** C9: in one invocation of [process_item] that gets past the main
    block -- no terminal marker, and the main marker in place after the
    block, whether it was there before or has just been fetched -- a
    failure of one optional component does not stop the others.  Whenever
    the invocation returns, every requested optional component has its
    success or its failure marker.  When the comments fetch fails, the
    failure marker of comments is written, the failed count is at least 1,
    the remaining blocks run as they would on their own, and a requested
    timeline without marker is asked for right after the comments
    requests.  A failed timeline fetch, after whatever the comments block
    has done, is likewise followed by the timeline request of xrefs. *)
Theorem optional_failure_does_not_block (w : world) (fuel : nat) (c c1 : client)
    (fs fs1 : gmap string file) (num : Z) (do_main do_comments do_timeline do_xrefs : bool)
    (s1 : stats) :
  fs !! path_404 num = None -> fs !! path_skip num = None ->
  process_item w fuel c fs num do_main false false false = (Some s1, c1, fs1) ->
  is_Some (fs1 !! path_main num) ->
  (let '(r, _, fs') :=
     process_item w fuel c fs num do_main do_comments do_timeline do_xrefs in
   forall s, r = Some s ->
     forall comp, requested do_comments do_timeline do_xrefs comp = true ->
       is_Some (fs' !! success_path num comp) \/ is_Some (fs' !! failure_path num comp))
  /\ (forall e c2,
       fs !! path_comments num = None ->
       fetch_paginated w fuel (comments_endpoint num) c1 = (Some (Raise e), c2) ->
       let '(r, c', fs') := process_item w fuel c fs num do_main true do_timeline do_xrefs in
       (r, c', fs') = optional_steps w fuel num false do_timeline do_xrefs
                        (Some (incr_failed s1), c2,
                         write_failed (path_comments_failed num) (str_of_err e)
                           "comments" fs1)
       /\ fs' !! path_comments_failed num = Some (FFailed (str_of_err e) "comments")
       /\ (forall s, r = Some s -> (1 <= failed s)%nat)
       /\ (do_timeline = true -> fs !! path_timeline num = None ->
           exists evs,
             trace c' = trace c2 ++ EvGet (page_url (timeline_endpoint num) 1) :: evs))
  /\ (forall s2 c2 fs2 e c3,
       fs !! path_timeline num = None -> fs !! path_xrefs num = None ->
       process_item w fuel c fs num do_main do_comments false false = (Some s2, c2, fs2) ->
       fetch_paginated w fuel (timeline_endpoint num) c2 = (Some (Raise e), c3) ->
       let '(r, c', fs') := process_item w fuel c fs num do_main do_comments true true in
       fs' !! path_timeline_failed num = Some (FFailed (str_of_err e) "timeline")
       /\ (forall s, r = Some s -> (1 <= failed s)%nat)
       /\ exists evs,
            trace c' = trace c3 ++ EvGet (page_url (timeline_endpoint num) 1) :: evs).
Proof.
  intros H404 Hskip Hrun Hmain.
  pose proof (process_item_after_main w fuel num c c1 fs fs1 do_main s1
                H404 Hskip Hrun Hmain) as Hall.
  split; [|split].
  - rewrite Hall.
    pose proof (optional_steps_effect w fuel num do_comments do_timeline do_xrefs
                  (Some s1, c1, fs1)) as (_ & _ & _ & Hs).
    destruct (optional_steps _ _ _ _ _ _ _) as [[r c'] fs']. cbn in Hs.
    intros s Hr comp Hreq. destruct (Hs s Hr) as (s' & _ & _ & _ & _ & _ & H). by apply H.
  - intros e c2 Hnone Hf. rewrite Hall.
    assert (Hnone1 : fs1 !! path_comments num = None).
    { destruct (process_item_untouched w fuel num c fs do_main false false false Comments)
        as [H _]; [done|done|]. rewrite Hrun in H. cbn [snd success_path] in H. congruence. }
    assert (Htl1 : fs1 !! path_timeline num = fs !! path_timeline num).
    { destruct (process_item_untouched w fuel num c fs do_main false false false Timeline)
        as [H _]; [done|done|]. by rewrite Hrun in H. }
    rewrite (optional_steps_comments_failed w fuel num do_timeline do_xrefs s1 c1 c2 fs1
               (Raise e) e Hnone1 Hf eq_refl).
    destruct (fetch_paginated_fuel w _ _ _ _ _ Hf) as [fuel' Hfuel].
    set (fs2 := write_failed (path_comments_failed num) (str_of_err e) "comments" fs1).
    pose proof (optional_steps_effect w fuel num false do_timeline do_xrefs
                  (Some (incr_failed s1), c2, fs2)) as (_ & F & _ & S).
    pose proof (fun dx => optional_steps_timeline_first w fuel num dx (incr_failed s1)
                            c2 fs2 fuel' Hfuel) as A.
    destruct (optional_steps w fuel num false do_timeline do_xrefs
                (Some (incr_failed s1), c2, fs2)) as [[r c'] fs'] eqn:E.
    cbn in F, S. split; [done|]. split; [|split].
    + rewrite F; [unfold fs2; by fs_simpl|].
      intros comp Hreq. destruct comp; try done; split; path_ne.
    + intros s Hr. destruct (S s Hr) as (s' & [= <-] & _ & _ & _ & D & _).
      simpl in D. lia.
    + intros -> Hn. destruct (A do_xrefs) as [evs Hev].
      { unfold fs2, write_failed. rewrite lookup_insert_ne by path_ne. congruence. }
      rewrite E in Hev. eauto.
  - intros s2 c2 fs2 e c3 Hnt Hnx Hrun2 Hf.
    assert (Hmain2 : is_Some (fs2 !! path_main num)).
    { rewrite Hall in Hrun2. unfold optional_steps in Hrun2.
      rewrite !when_false in Hrun2.
      pose proof (when_step_effect w fuel do_comments (comments_endpoint num)
                    (path_comments num) (path_comments_failed num) "comments" Ok
                    (Some s1, c1, fs1) (success_failure_ne num Comments)) as (_ & F & _).
      fold (comments_step w fuel num) in F. rewrite Hrun2 in F. cbn [snd] in F.
      rewrite F by path_ne. done. }
    rewrite (process_item_after_comments w fuel num c c2 fs fs2 do_main do_comments s2
               H404 Hskip Hrun2 Hmain2 true true).
    assert (Hnt2 : fs2 !! path_timeline num = None).
    { destruct (process_item_untouched w fuel num c fs do_main do_comments false false
                  Timeline) as [H _]; [done|done|].
      rewrite Hrun2 in H. cbn [snd success_path] in H. congruence. }
    assert (Hnx2 : fs2 !! path_xrefs num = None).
    { destruct (process_item_untouched w fuel num c fs do_main do_comments false false
                  Xrefs) as [H _]; [done|done|].
      rewrite Hrun2 in H. cbn [snd success_path] in H. congruence. }
    rewrite (optional_steps_timeline_failed w fuel num true s2 c2 c3 fs2
               (Raise e) e Hnt2 Hf eq_refl).
    destruct (fetch_paginated_fuel w _ _ _ _ _ Hf) as [fuel' Hfuel].
    set (fs3 := write_failed (path_timeline_failed num) (str_of_err e) "timeline" fs2).
    pose proof (optional_steps_effect w fuel num false false true
                  (Some (incr_failed s2), c3, fs3)) as (_ & F & _ & S).
    destruct (optional_steps_xrefs_first w fuel num (incr_failed s2) c3 fs3 fuel' Hfuel)
      as [evs Hev]; [unfold fs3; by fs_simpl|].
    destruct (optional_steps w fuel num false false true
                (Some (incr_failed s2), c3, fs3)) as [[r c'] fs'].
    cbn in F, S, Hev. split; [|split].
    + rewrite F; [unfold fs3; by fs_simpl|].
      intros comp Hreq. destruct comp; try done; split; path_ne.
    + intros s Hr. destruct (S s Hr) as (s' & [= <-] & _ & _ & _ & D & _).
      simpl in D. lia.
    + eauto.
Qed.

Lemma optional_failure_does_not_block_witness :
  let '(r, c', fs') :=
    process_item (comments_down 7) 2 new_client ∅ 7 true true true false in
  is_Some (fs' !! path_main 7)
  /\ fs' !! path_comments_failed 7
     = Some (FFailed ("Failed after 5 attempts: "
                      +:+ page_url (comments_endpoint 7) 1) "comments")
  /\ (forall s, r = Some s -> (1 <= failed s)%nat)
  /\ gets (trace c') = main_endpoint 7
                       :: repeat (page_url (comments_endpoint 7) 1) 5
                       ++ [page_url (timeline_endpoint 7) 1].
Proof.
  destruct (process_item (comments_down 7) 2 new_client ∅ 7 true false false false)
    as [[r1 c1] fs1] eqn:E1.
  assert (Hr1 : r1 = Some (incr_fetched stats0)).
  { apply (f_equal (fun x => x.1.1)) in E1. cbn [fst] in E1. rewrite <- E1.
    vm_compute. reflexivity. }
  assert (Hm1 : is_Some (fs1 !! path_main 7)).
  { apply (f_equal (fun x => file_exists (path_main 7) x.2)) in E1. cbn [snd] in E1.
    apply file_exists_true. rewrite <- E1. vm_compute. reflexivity. }
  subst r1.
  destruct (optional_failure_does_not_block (comments_down 7) 2 new_client c1 ∅ fs1
              7 true true true false (incr_fetched stats0)
              (lookup_empty _) (lookup_empty _) E1 Hm1)
    as (_ & H & _).
  assert (Hc1 : c1 = (process_item (comments_down 7) 2 new_client ∅ 7
                        true false false false).1.2) by (by rewrite E1).
  specialize (H (failed_after (page_url (comments_endpoint 7) 1))
                (fetch_paginated (comments_down 7) 2 (comments_endpoint 7) c1).2
                (lookup_empty _)).
  destruct (process_item (comments_down 7) 2 new_client ∅ 7 true true true false)
    as [[r c'] fs'] eqn:E.
  destruct H as (_ & Hm & Hs & _).
  { rewrite Hc1. vm_compute. reflexivity. }
  split.
  { apply (f_equal (fun x => file_exists (path_main 7) x.2)) in E. cbn [snd] in E.
    apply file_exists_true. rewrite <- E. vm_compute. reflexivity. }
  split; [exact Hm|]. split; [exact Hs|].
  apply (f_equal (fun x => gets (trace x.1.2))) in E. simpl in E. rewrite <- E.
  vm_compute. reflexivity.
Defined.

(** ** Cross-references come from a fresh pull of the timeline *)

Section XrefsStep.
Context (w : world) (fuel : nat) (num : Z).

Lemma component_step_exists (endpoint path path_failed comp : string)
    (post : list json -> result (list json)) (s : stats) (c : client)
    (fs : gmap string file) :
  is_Some (fs !! path) ->
  component_step w fuel endpoint path path_failed comp post s c fs
  = (Some (incr_skip_exists s), c, fs).
Proof.
  intros H. apply file_exists_true in H. unfold component_step. by rewrite H.
Qed.

(** What the xrefs block does when its marker is missing, in terms of one
    call of [fetch_paginated] on the timeline endpoint. *)
Lemma xrefs_step_fetches (s : stats) (c : client) (fs : gmap string file) :
  fs !! path_xrefs num = None ->
  let '(pages, c1) := fetch_paginated w fuel (timeline_endpoint num) c in
  let '(r, c', fs') := xrefs_step w fuel num s c fs in
  c' = c1
  /\ (forall timeline xrefs,
        pages = Some (Ok timeline) -> extract_xrefs timeline = Ok xrefs ->
        r = Some (incr_fetched s)
        /\ fs' = delete (path_xrefs_failed num)
                   (<[path_xrefs num := FJson (JList xrefs)]> fs))
  /\ (forall e,
        pages = Some (Raise e)
        \/ (exists timeline, pages = Some (Ok timeline)
                             /\ extract_xrefs timeline = Raise e) ->
        r = Some (incr_failed s)
        /\ fs' = write_failed (path_xrefs_failed num) (str_of_err e) "xrefs" fs)
  /\ (pages = None -> r = None /\ fs' = fs).
Proof.
  intros Hnone. apply file_exists_false in Hnone.
  unfold xrefs_step, component_step. rewrite Hnone.
  destruct (fetch_paginated w fuel (timeline_endpoint num) c) as [pages c1].
  destruct pages as [[timeline|e]|]; simpl.
  - destruct (extract_xrefs timeline) as [xrefs|e] eqn:Ex.
    + split; [done|].
      split; [intros ? ? [= <-] H; rewrite Ex in H; by injection H as <-|].
      split; [|done]. intros e [H|(tl & [= <-] & H)]; congruence.
    + split; [done|]. split; [intros ? ? [= <-]; congruence|].
      split; [|done]. intros e' [H|(tl & [= <-] & H)]; [done|].
      rewrite Ex in H. by injection H as <-.
  - split; [done|]. split; [done|]. split; [|done].
    intros e' [[= <-]|(tl & H & _)]; done.
  - split; [done|]. split; [done|]. split; [|done].
    intros e' [H|(tl & H & _)]; done.
Qed.

(** A block whose markers are not the timeline marker commutes with a
    change of the content under the timeline marker. *)
Lemma component_step_content (endpoint path path_failed comp : string)
    (post : list json -> result (list json)) (s : stats) (c : client)
    (fs : gmap string file) (content : file) :
  path <> path_timeline num -> path_failed <> path_timeline num ->
  component_step w fuel endpoint path path_failed comp post s c
    (<[path_timeline num := content]> fs)
  = let '(r, c', fs') := component_step w fuel endpoint path path_failed comp post s c fs in
    (r, c', <[path_timeline num := content]> fs').
Proof.
  intros H1 H2. unfold component_step, file_exists.
  rewrite lookup_insert_ne by done.
  destruct (fs !! path); [done|].
  destruct (fetch_paginated w fuel endpoint c) as [pages c1].
  destruct pages as [r|]; [|done].
  destruct (rbind r post) as [items|e]; f_equal.
  - rewrite <- delete_insert_ne by done. f_equal. by apply insert_insert_ne.
  - unfold write_failed. by apply insert_insert_ne.
Qed.

(** The block never looks at the persisted timeline: with any content
    under the timeline marker it does the same, and leaves that content. *)
Lemma xrefs_step_ignores_timeline (s : stats) (c : client) (fs : gmap string file)
    (content : file) :
  xrefs_step w fuel num s c (<[path_timeline num := content]> fs)
  = let '(r, c', fs') := xrefs_step w fuel num s c fs in
    (r, c', <[path_timeline num := content]> fs').
Proof. unfold xrefs_step. apply component_step_content; path_ne. Qed.

Lemma main_step_content (s : stats) (c : client) (fs : gmap string file)
    (content : file) :
  main_step w num s c (<[path_timeline num := content]> fs)
  = let '(fl, s1, c1, fs1) := main_step w num s c fs in
    (fl, s1, c1, <[path_timeline num := content]> fs1).
Proof.
  unfold main_step, file_exists. rewrite lookup_insert_ne by path_ne.
  destruct (fs !! path_main num); [done|].
  destruct (fetch w (main_endpoint num) c) as [r c1].
  assert (Herr : forall e,
    write_failed (path_main_failed num) (str_of_err e) "main"
      (<[path_timeline num := content]> fs)
    = <[path_timeline num := content]>
        (write_failed (path_main_failed num) (str_of_err e) "main" fs)).
  { intros e. unfold write_failed. apply insert_insert_ne. path_ne. }
  destruct r as [data|e]; [|by rewrite Herr].
  destruct data; try (f_equal; apply insert_insert_ne; path_ne);
    (destruct (classify_main _) as [[|payload]|e]; [| |by rewrite Herr]; f_equal;
     [apply insert_insert_ne; path_ne|];
     rewrite <- delete_insert_ne by path_ne; f_equal; apply insert_insert_ne; path_ne).
Qed.

(** With a timeline marker in place, the optional blocks do the same
    whatever is stored under it. *)
Lemma optional_steps_content (do_comments do_timeline do_xrefs : bool) (s : stats)
    (c : client) (fs : gmap string file) (content : file) :
  is_Some (fs !! path_timeline num) ->
  optional_steps w fuel num do_comments do_timeline do_xrefs
    (Some s, c, <[path_timeline num := content]> fs)
  = let '(r, c', fs') :=
      optional_steps w fuel num do_comments do_timeline do_xrefs (Some s, c, fs) in
    (r, c', <[path_timeline num := content]> fs').
Proof.
  intros Htl. unfold optional_steps.
  assert (H1 : exists r1 c1 fs1,
    when do_comments (comments_step w fuel num) (Some s, c, fs) = (r1, c1, fs1)
    /\ when do_comments (comments_step w fuel num)
         (Some s, c, <[path_timeline num := content]> fs)
       = (r1, c1, <[path_timeline num := content]> fs1)
    /\ is_Some (fs1 !! path_timeline num)).
  { destruct do_comments; [|by eexists _, _, _].
    cbn [when]. unfold comments_step.
    rewrite component_step_content by path_ne.
    pose proof (component_step_effect w fuel (comments_endpoint num) (path_comments num)
                  (path_comments_failed num) "comments" Ok s c fs
                  (success_failure_ne num Comments)) as (_ & F & _).
    destruct (component_step _ _ _ _ _ _ _ _ _ _) as [[r1 c1] fs1].
    eexists _, _, _. split; [done|]. split; [done|].
    cbn [snd] in F. rewrite F by path_ne. done. }
  destruct H1 as (r1 & c1 & fs1 & -> & -> & Htl1).
  destruct r1 as [s1|]; [|done].
  assert (H2 : when do_timeline (timeline_step w fuel num) (Some s1, c1, fs1)
               = (Some (skipped do_timeline s1), c1, fs1)
               /\ when do_timeline (timeline_step w fuel num)
                    (Some s1, c1, <[path_timeline num := content]> fs1)
                  = (Some (skipped do_timeline s1), c1,
                     <[path_timeline num := content]> fs1)).
  { destruct do_timeline; [|done]. cbn [when]. unfold timeline_step.
    rewrite !component_step_exists; [done| |done]. fs_simpl. eauto. }
  destruct H2 as [-> ->].
  destruct do_xrefs; [|done]. cbn [when]. apply xrefs_step_ignores_timeline.
Qed.

(** The same for an invocation of [process_item]. *)
Lemma process_item_content (c : client) (fs : gmap string file)
    (do_main do_comments do_timeline do_xrefs : bool) (content : file) :
  is_Some (fs !! path_timeline num) ->
  process_item w fuel c (<[path_timeline num := content]> fs) num
    do_main do_comments do_timeline do_xrefs
  = let '(r, c', fs') :=
      process_item w fuel c fs num do_main do_comments do_timeline do_xrefs in
    (r, c', <[path_timeline num := content]> fs').
Proof.
  intros Htl. unfold process_item.
  assert (E : forall p, p <> path_timeline num ->
    file_exists p (<[path_timeline num := content]> fs) = file_exists p fs).
  { intros p Hp. unfold file_exists. by rewrite lookup_insert_ne. }
  rewrite !E by path_ne.
  destruct (file_exists (path_404 num) fs); [done|].
  destruct (file_exists (path_skip num) fs); [done|].
  assert (H1 : exists fl s1 c1 fs1,
    (if do_main then main_step w num stats0 c fs else (Continue, stats0, c, fs))
    = (fl, s1, c1, fs1)
    /\ (if do_main then main_step w num stats0 c (<[path_timeline num := content]> fs)
        else (Continue, stats0, c, <[path_timeline num := content]> fs))
       = (fl, s1, c1, <[path_timeline num := content]> fs1)
    /\ is_Some (fs1 !! path_timeline num)).
  { destruct do_main; [|by eexists _, _, _, _].
    rewrite main_step_content.
    pose proof (main_step_effect w num stats0 c fs) as F. unfold main_effect in F.
    destruct (main_step w num stats0 c fs) as [[[fl s1] c1] fs1].
    destruct F as (_ & F & _).
    eexists _, _, _, _. split; [done|]. split; [done|]. rewrite F by path_ne. done. }
  destruct H1 as (fl & s1 & c1 & fs1 & -> & -> & Htl1).
  destruct fl; [|done].
  assert (E1 : file_exists (path_main num) (<[path_timeline num := content]> fs1)
               = file_exists (path_main num) fs1).
  { unfold file_exists. rewrite lookup_insert_ne by path_ne. done. }
  rewrite E1. destruct (_ && _); [done|].
  by apply optional_steps_content.
Qed.

(** With comments and timeline complete or not asked for, the optional
    blocks come down to the xrefs block. *)
Lemma optional_steps_only_xrefs (do_comments do_timeline : bool) (s : stats)
    (c : client) (fs : gmap string file) :
  do_comments = false \/ is_Some (fs !! path_comments num) ->
  do_timeline = false \/ is_Some (fs !! path_timeline num) ->
  optional_steps w fuel num do_comments do_timeline true (Some s, c, fs)
  = xrefs_step w fuel num (skipped do_timeline (skipped do_comments s)) c fs.
Proof.
  intros Hc Ht. unfold optional_steps.
  assert (H1 : when do_comments (comments_step w fuel num) (Some s, c, fs)
               = (Some (skipped do_comments s), c, fs)).
  { destruct do_comments; [|done].
    destruct Hc as [Hc|Hc]; [done|]. cbn [when]. unfold comments_step.
    by rewrite component_step_exists. }
  rewrite H1.
  assert (H2 : when do_timeline (timeline_step w fuel num)
                 (Some (skipped do_comments s), c, fs)
               = (Some (skipped do_timeline (skipped do_comments s)), c, fs)).
  { destruct do_timeline; [|done].
    destruct Ht as [Ht|Ht]; [done|]. cbn [when]. unfold timeline_step.
    by rewrite component_step_exists. }
  by rewrite H2.
Qed.

End XrefsStep.

(** C7, as stated, fails: asking for xrefs with no xrefs marker is not
    enough for the timeline to be fetched.  With the not-found marker in
    place, or with main neither asked for nor persisted, [process_item]
    returns without a single request. *)
Lemma xrefs_refetch_counterexample :
  ({[ path_404 1 := FEmpty ]} : gmap string file) !! path_xrefs 1 = None
  /\ process_item (serving [items 3]) 5 new_client {[ path_404 1 := FEmpty ]} 1
       true true true true
     = (Some (set_skip_404 stats0), new_client, {[ path_404 1 := FEmpty ]})
  /\ process_item (serving [items 3]) 5 new_client ∅ 1 false false false true
     = (Some stats0, new_client, ∅).
Proof. split; [reflexivity|]. split; reflexivity. Qed.

(** C7, amended: whenever [process_item] reaches its xrefs block with
    xrefs requested and the xrefs marker missing -- no terminal marker at
    the start, and the call with xrefs left out returns counts and leaves
    the main marker in place, whether main, comments and timeline were on
    disk or have just been fetched in this very call -- the block makes one
    call of [fetch_paginated] on the timeline endpoint, from the client the
    earlier blocks have left, and what the invocation returns is decided by
    that call alone: the cross-references extracted from its pages are
    persisted and counted as fetched, an exception of the call or of the
    extraction becomes the failure marker of xrefs.  Page 1 of the timeline
    is the first thing asked for after the earlier blocks.  The persisted
    timeline is not read: whatever is stored under the timeline marker,
    before the call or when the block is reached, the outcome is the
    same. *)
Theorem xrefs_refetches_timeline (w : world) (fuel : nat) (c c2 : client)
    (fs fs2 : gmap string file) (num : Z) (do_main do_comments do_timeline : bool)
    (s2 : stats) :
  fs !! path_404 num = None -> fs !! path_skip num = None ->
  fs !! path_xrefs num = None ->
  process_item w fuel c fs num do_main do_comments do_timeline false = (Some s2, c2, fs2) ->
  is_Some (fs2 !! path_main num) ->
  let '(pages, c3) := fetch_paginated w fuel (timeline_endpoint num) c2 in
  let '(r, c', fs') := process_item w fuel c fs num do_main do_comments do_timeline true in
  c' = c3
  /\ (forall timeline xrefs,
        pages = Some (Ok timeline) -> extract_xrefs timeline = Ok xrefs ->
        r = Some (incr_fetched s2)
        /\ fs' = delete (path_xrefs_failed num)
                   (<[path_xrefs num := FJson (JList xrefs)]> fs2))
  /\ (forall e,
        pages = Some (Raise e)
        \/ (exists timeline, pages = Some (Ok timeline)
                             /\ extract_xrefs timeline = Raise e) ->
        r = Some (incr_failed s2)
        /\ fs' = write_failed (path_xrefs_failed num) (str_of_err e) "xrefs" fs2)
  /\ (pages = None -> r = None /\ fs' = fs2)
  /\ (fuel <> 0%nat ->
      exists evs0 evs,
        trace c2 = trace c ++ evs0
        /\ trace c' = trace c2 ++ EvGet (page_url (timeline_endpoint num) 1) :: evs)
  /\ (forall content,
        xrefs_step w fuel num s2 c2 (<[path_timeline num := content]> fs2)
        = (r, c', <[path_timeline num := content]> fs'))
  /\ (forall content,
        is_Some (fs !! path_timeline num) ->
        process_item w fuel c (<[path_timeline num := content]> fs) num
          do_main do_comments do_timeline true
        = (r, c', <[path_timeline num := content]> fs')).
Proof.
  intros H404 Hskip Hnone Hrun Hmain.
  assert (Hnone2 : fs2 !! path_xrefs num = None).
  { destruct (process_item_untouched w fuel num c fs do_main do_comments do_timeline false
                Xrefs) as [H _]; [done|done|].
    rewrite Hrun in H. cbn [snd success_path] in H. congruence. }
  pose proof (process_item_after_timeline w fuel num c c2 fs fs2 do_main do_comments
                do_timeline s2 H404 Hskip Hrun Hmain) as Hstep.
  pose proof (xrefs_step_fetches w fuel num s2 c2 fs2 Hnone2) as H.
  pose proof (xrefs_step_ignores_timeline w fuel num s2 c2 fs2) as Hign.
  pose proof (process_item_content w fuel num c fs do_main do_comments do_timeline true)
    as Hcont.
  assert (Hfirst : fuel <> 0%nat -> exists evs,
            trace (fetch_paginated w fuel (timeline_endpoint num) c2).2
            = trace c2 ++ EvGet (page_url (timeline_endpoint num) 1) :: evs).
  { destruct fuel as [|fuel']; [done|]. intros _. apply fetch_paginated_asks_first. }
  assert (Hpre : exists evs0, trace c2 = trace c ++ evs0).
  { pose proof (process_item_extends w fuel num c fs do_main do_comments do_timeline false)
      as X. rewrite Hrun in X; exact X. }
  destruct (fetch_paginated w fuel (timeline_endpoint num) c2) as [pages c3].
  rewrite Hstep in Hcont |- *.
  destruct (xrefs_step w fuel num s2 c2 fs2) as [[r c'] fs'].
  destruct H as (-> & H1 & H2 & H3). cbn [snd] in Hfirst.
  split; [done|]. split; [done|]. split; [done|]. split; [done|].
  split; [|split; [done|]].
  - intros Hfuel. destruct Hpre as [evs0 Hpre], (Hfirst Hfuel) as [evs Hev]. eauto.
  - intros content Htl. by apply Hcont.
Qed.

Lemma xrefs_refetches_timeline_witness :
  let '(r, c', fs') :=
    process_item (answering (JList [xref_populated; xref_without_number])) 1 new_client
      (main_done 7) 7 true false true true in
  gets (trace c') = [page_url (timeline_endpoint 7) 1; page_url (timeline_endpoint 7) 1]
  /\ fs' !! path_timeline 7 = Some (FJson (JList [xref_populated; xref_without_number]))
  /\ fs' !! path_xrefs 7
     = Some (FJson (JList [JObj [("event", JStr "cross-referenced"); ("from", JInt 1234);
                                 ("type", JStr "issue"); ("actor", JStr "brson");
                                 ("date", JStr "2015-03-01T10:00:00Z")]])).
Proof.
  set (w := answering (JList [xref_populated; xref_without_number])).
  destruct (process_item w 1 new_client (main_done 7) 7 true false true false)
    as [[r2 c2] fs2] eqn:E2.
  assert (Hr2 : r2 = Some (incr_fetched (incr_skip_exists stats0))).
  { apply (f_equal (fun x => x.1.1)) in E2. cbn [fst] in E2. rewrite <- E2.
    vm_compute. reflexivity. }
  assert (Hm2 : is_Some (fs2 !! path_main 7)).
  { apply (f_equal (fun x => file_exists (path_main 7) x.2)) in E2. cbn [snd] in E2.
    apply file_exists_true. rewrite <- E2. vm_compute. reflexivity. }
  subst r2.
  pose proof (xrefs_refetches_timeline w 1 new_client c2 (main_done 7) fs2 7
                true false true _ eq_refl eq_refl eq_refl E2 Hm2) as H.
  assert (Hc2 : c2 = (process_item w 1 new_client (main_done 7) 7
                        true false true false).1.2) by (by rewrite E2).
  destruct (fetch_paginated w 1 (timeline_endpoint 7) c2) as [pages c3] eqn:Ef.
  destruct (process_item w 1 new_client (main_done 7) 7 true false true true)
    as [[r c'] fs'] eqn:E.
  destruct H as (-> & _).
  split; [|split].
  - apply (f_equal (fun x => gets (trace x.2))) in Ef. cbn [snd] in Ef. rewrite <- Ef, Hc2.
    vm_compute. reflexivity.
  - apply (f_equal (fun x => x.2 !! path_timeline 7)) in E. cbn [snd] in E. rewrite <- E.
    vm_compute. reflexivity.
  - apply (f_equal (fun x => x.2 !! path_xrefs 7)) in E. cbn [snd] in E. rewrite <- E.
    vm_compute. reflexivity.
Defined.

(** * Further properties of the client *)

Section FetchMore.
Context (w : world).



(** An attempt that does not end the fetch: one request, no other. *)
Lemma fetch_attempts_retry_step (endpoint : string) (a : nat) (rest : list nat)
    (c : client) :
  is_transient (net w endpoint (requests c))
  || is_rate_limited (net w endpoint (requests c)) = true ->
  exists c1 evs,
    fetch_attempts w endpoint (a :: rest) c = fetch_attempts w endpoint rest c1
    /\ requests c1 = S (requests c)
    /\ trace c1 = trace c ++ EvGet endpoint :: evs
    /\ gets evs = [].
Proof.
  intros H. apply orb_true_iff in H as [Ht|Hr].
  - destruct (fetch_attempts_transient_step w endpoint a rest c Ht)
      as (c1 & pause & d & Hf & Hrq & Htr & _ & Hg & _).
    exists c1, (pause ++ [EvBackoff d]). repeat split; try done.
    by rewrite gets_app, Hg.
  - destruct (fetch_attempts_rate_limited_step w endpoint a rest c Hr)
      as (c1 & evs & Hf & Hrq & Htr & Hg).
    by exists c1, evs.
Qed.

(** After [k] failed attempts within the budget, the attempts left run on
    a client that has made [k] requests more. *)
Lemma fetch_attempts_skip (endpoint : string) (k : nat) :
  forall (a : nat) (rest : list nat) (c : client),
    (forall i, (i < k)%nat ->
       is_transient (net w endpoint (requests c + i))
       || is_rate_limited (net w endpoint (requests c + i)) = true) ->
    exists c1 evs,
      fetch_attempts w endpoint (seq a k ++ rest) c = fetch_attempts w endpoint rest c1
      /\ requests c1 = (requests c + k)%nat
      /\ trace c1 = trace c ++ evs
      /\ gets evs = repeat endpoint k.
Proof.
  induction k as [|k IH]; intros a rest c H.
  - exists c, []. by rewrite Nat.add_0_r, app_nil_r.
  - cbn [seq app].
    destruct (fetch_attempts_retry_step endpoint a (seq (S a) k ++ rest) c)
      as (c1 & evs1 & -> & Hrq1 & Htr1 & Hg1).
    { specialize (H 0%nat). rewrite Nat.add_0_r in H. apply H. lia. }
    destruct (IH (S a) rest c1) as (c2 & evs2 & -> & Hrq2 & Htr2 & Hg2).
    { intros i Hi. rewrite Hrq1. replace (S (requests c) + i)%nat
        with (requests c + S i)%nat by lia. apply H. lia. }
    exists c2, (EvGet endpoint :: evs1 ++ evs2).
    split; [done|]. split; [lia|]. split; [rewrite Htr2, Htr1; by app_norm|].
    change (EvGet endpoint :: evs1 ++ evs2) with ([EvGet endpoint] ++ evs1 ++ evs2).
    by rewrite !gets_app, Hg1, Hg2.
Qed.

Lemma seq_split_at (n k : nat) :
  (k < n)%nat -> seq 0 n = seq 0 k ++ k :: seq (S k) (n - S k).
Proof.
  intros H. replace n with (k + S (n - S k))%nat at 1 by lia.
  by rewrite seq_app.
Qed.

End FetchMore.

(** X1: [fetch] recovers from failed attempts.  When the first [k] replies
    (k below the budget of 5) are transient errors or rate-limit statuses
    and the next reply is a 200 with a body that parses, [fetch] returns
    that body after exactly k + 1 requests; when the next reply is a 404 it
    returns [None] after k + 1 requests, without a further attempt. *)
Theorem fetch_recovers (w : world) (endpoint : string) (c : client) (k : nat) :
  (k < MAX_RETRIES)%nat ->
  (forall i, (i < k)%nat ->
     is_transient (net w endpoint (requests c + i))
     || is_rate_limited (net w endpoint (requests c + i)) = true) ->
  (forall hdrs v,
     net w endpoint (requests c + k) = Response 200 hdrs (Some v) ->
     exists c' evs,
       fetch w endpoint c = (Ok v, c')
       /\ requests c' = (requests c + S k)%nat
       /\ trace c' = trace c ++ evs /\ gets evs = repeat endpoint (S k))
  /\ (forall hdrs body,
        net w endpoint (requests c + k) = Response 404 hdrs body ->
        exists c' evs,
          fetch w endpoint c = (Ok JNull, c')
          /\ requests c' = (requests c + S k)%nat
          /\ trace c' = trace c ++ evs /\ gets evs = repeat endpoint (S k)).
Proof.
  intros Hk Hfail. unfold fetch. rewrite (seq_split_at MAX_RETRIES k Hk).
  destruct (fetch_attempts_skip w endpoint k 0 (k :: seq (S k) (MAX_RETRIES - S k)) c Hfail)
    as (c1 & evs1 & -> & Hrq1 & Htr1 & Hg1).
  rewrite <- Hrq1. split.
  - intros hdrs v Hnet.
    rewrite (fetch_attempts_ok w endpoint k _ c1 hdrs v Hnet).
    destruct (check_rate_limit_spec w (_update_rate_limit hdrs (client_get w endpoint c1).2))
      as (pause & Htr & _ & Hg & Hrq).
    eexists _, (evs1 ++ EvGet endpoint :: pause). split; [reflexivity|].
    rewrite Hrq, Htr. cbn [client_get snd _update_rate_limit trace requests].
    split; [lia|]. split; [rewrite Htr1; by app_norm|].
    change (EvGet endpoint :: pause) with ([EvGet endpoint] ++ pause).
    rewrite !gets_app, Hg1, Hg, app_nil_r.
    change (S k) with (1 + k)%nat. rewrite Nat.add_comm, repeat_app. done.
  - intros hdrs body Hnet.
    rewrite (fetch_attempts_not_found w endpoint k _ c1 hdrs body Hnet).
    eexists _, (evs1 ++ [EvGet endpoint]). split; [reflexivity|].
    cbn [client_get snd _update_rate_limit trace requests].
    split; [lia|]. split; [rewrite Htr1; by app_norm|].
    rewrite gets_app, Hg1.
    change (S k) with (1 + k)%nat. rewrite Nat.add_comm, repeat_app. done.
Qed.

Lemma fetch_recovers_witness :
  exists c', fetch (flaky (JObj [("number", JInt 5)])) "/repos/rust-lang/rust/issues/5"
               new_client = (Ok (JObj [("number", JInt 5)]), c')
             /\ requests c' = 3%nat.
Proof.
  destruct (fetch_recovers (flaky (JObj [("number", JInt 5)]))
              "/repos/rust-lang/rust/issues/5" new_client 2) as [H _].
  - unfold MAX_RETRIES. lia.
  - intros [|[|i]] Hi; [reflexivity|reflexivity|lia].
  - destruct (H no_headers (JObj [("number", JInt 5)]) eq_refl) as (c' & evs & Hf & Hrq & _).
    exists c'. split; [exact Hf|exact Hrq].
Defined.

Section FetchBounds.
Context (w : world).


End FetchBounds.



Section Throttling.
Context (w : world).

Lemma handle_rate_limit_blind (c : client) :
  reset_known c = None -> _handle_rate_limit_response w c = c.
Proof. intros H. unfold _handle_rate_limit_response. by rewrite H. Qed.

Lemma fetch_attempts_blind (endpoint : string) (attempts : list nat) :
  forall c,
    reset_known c = None ->
    (forall i, (i < length attempts)%nat ->
       throttled_blind (net w endpoint (requests c + i)) = true) ->
    exists c',
      fetch_attempts w endpoint attempts c = (Raise (failed_after endpoint), c')
      /\ trace c' = trace c ++ repeat (EvGet endpoint) (length attempts)
      /\ clock_reads c' = clock_reads c /\ draws c' = draws c.
Proof.
  induction attempts as [|a rest IH]; intros c Hreset Hall.
  - exists c. cbn [fetch_attempts length repeat]. by rewrite app_nil_r.
  - pose proof (Hall 0%nat) as H0. rewrite Nat.add_0_r in H0.
    cbn [fetch_attempts client_get].
    destruct (net w endpoint (requests c)) as [| |status hdrs body|remaining msg|hdrs msg];
      [cbn in H0; lia|cbn in H0; lia| |cbn in H0; lia|cbn in H0; lia].
    cbn [throttled_blind] in H0. apply andb_true_iff in H0 as [Hst Hhdr]; [|cbn; lia].
    destruct (Z.eqb_spec status 404) as [->|_]; [done|]. rewrite Hst.
    set (c1 := _update_rate_limit hdrs _).
    assert (Hreset1 : reset_known c1 = None).
    { unfold reset_known, c1, _update_rate_limit. cbn [rate_reset].
      destruct (x_ratelimit_reset hdrs) as [t|]; [by rewrite Hhdr|exact Hreset]. }
    rewrite (handle_rate_limit_blind c1 Hreset1).
    destruct (IH c1 Hreset1) as (c' & -> & Htr & Hck & Hdr).
    { intros i Hi. unfold c1. cbn [_update_rate_limit requests].
      replace (S (requests c) + i)%nat with (requests c + S i)%nat by lia.
      apply Hall. cbn [length]. lia. }
    exists c'. split; [done|]. rewrite Htr, Hck, Hdr. unfold c1.
    cbn [_update_rate_limit trace clock_reads draws length repeat].
    split; [by app_norm|done].
Qed.

End Throttling.

(** X3: a rate-limit reply that tells no reset time makes [fetch] retry at
    once.  For a client that knows no reset time, five replies of status
    403 or 429 without a usable reset header lead to five requests in a
    row, with no wait between them and no look at the clock, and then to
    the exception. *)
Theorem throttled_without_reset_no_wait (w : world) (endpoint : string) (c : client) :
  reset_known c = None ->
  (forall i, (i < MAX_RETRIES)%nat ->
     throttled_blind (net w endpoint (requests c + i)) = true) ->
  exists c',
    fetch w endpoint c = (Raise (failed_after endpoint), c')
    /\ trace c' = trace c ++ repeat (EvGet endpoint) MAX_RETRIES
    /\ clock_reads c' = clock_reads c.
Proof.
  intros Hreset Hall. unfold fetch.
  destruct (fetch_attempts_blind w endpoint (seq 0 MAX_RETRIES) c Hreset)
    as (c' & Hf & Htr & Hck & _).
  { intros i Hi. rewrite length_seq in Hi. by apply Hall. }
  rewrite length_seq in Htr. by exists c'.
Qed.

Lemma throttled_without_reset_no_wait_witness :
  exists c', fetch always_429 "/repos/rust-lang/rust/issues/1" new_client
             = (Raise (failed_after "/repos/rust-lang/rust/issues/1"), c')
             /\ trace c' = repeat (EvGet "/repos/rust-lang/rust/issues/1") 5.
Proof.
  destruct (throttled_without_reset_no_wait always_429 "/repos/rust-lang/rust/issues/1"
              new_client eq_refl) as (c' & Hf & Htr & _).
  - intros i _. reflexivity.
  - exists c'. split; [exact Hf|exact Htr].
Defined.

(** X4: the wait of [backoff_sleep] is never negative: for every attempt
    index that [fetch] passes (0 to 4) and every random draw it is one
    wait, strictly positive, from 0.75 to 1.25 times 2 to the power of the
    attempt, both ends included; it takes one draw and makes no request.
    Both ends are reached, the arithmetic being that of floats: the draw 0
    gives 0.75 times the power of 2, the largest draw, 1 - 2^-53, gives
    1.25 times the power of 2 after rounding. *)
Theorem backoff_sleep_positive (w : world) (attempt : nat) (c : client) :
  (attempt < MAX_RETRIES)%nat ->
  exists d,
    trace (backoff_sleep w attempt c) = trace c ++ [EvBackoff d]
    /\ (0 < d)%Q /\ in_jitter_bounds attempt d
    /\ requests (backoff_sleep w attempt c) = requests c
    /\ draws (backoff_sleep w attempt c) = S (draws c)
    /\ (random_bits w (draws c) = 0%N -> (d == (3 # 4) * 2 ^ Z.of_nat attempt)%Q)
    /\ (random_bits w (draws c) = (2 ^ 53 - 1)%N ->
        (d == (5 # 4) * 2 ^ Z.of_nat attempt)%Q).
Proof.
  intros _.
  exists (float_value (backoff_time attempt (random_random w c).1)).
  split; [reflexivity|].
  assert (Hb : in_jitter_bounds attempt
                 (float_value (backoff_time attempt (random_random w c).1)))
    by apply backoff_time_bounds, unit_draw.
  split.
  { destruct Hb as [Hlo _]. pose proof (pow2_Q_pos (Z.of_nat attempt)) as Hp.
    set (b := (2 ^ Z.of_nat attempt)%Q) in *. lra. }
  split; [exact Hb|]. split; [reflexivity|]. split; [reflexivity|].
  destruct (backoff_time_extremes attempt) as [Hlo Hhi].
  unfold random_random. cbn [fst].
  split; intros ->; [exact Hlo|exact Hhi].
Qed.

Lemma backoff_sleep_positive_witness :
  exists d, trace (backoff_sleep always_503_slowest 4 new_client) = [EvBackoff d]
            /\ (d == 20)%Q.
Proof.
  destruct (backoff_sleep_positive always_503_slowest 4 new_client) as (d & Htr & _ & _ & _ & _ & _ & Hhi).
  - unfold MAX_RETRIES. lia.
  - exists d. split; [exact Htr|]. rewrite (Hhi eq_refl). reflexivity.
Defined.

(** X5: a fetch that uses up its budget on transient errors waits, in
    backoff, from 23.25 to 38.75 seconds in all (0.75 and 1.25 times
    1 + 2 + 4 + 8 + 16), whatever the jitter draws, both ends included:
    with the largest draw at every attempt the waits are 1.25, 2.5, 5, 10
    and 20 seconds and add up to 38.75. *)
Theorem backoff_total_wait (w : world) (endpoint : string) (c : client) :
  (forall k, (requests c <= k < requests c + MAX_RETRIES)%nat ->
     is_transient (net w endpoint k) = true) ->
  (exists c' evs d0 d1 d2 d3 d4,
     fetch w endpoint c = (Raise (failed_after endpoint), c')
     /\ trace c' = trace c ++ evs
     /\ without_pauses evs = rounds endpoint [d0; d1; d2; d3; d4]
     /\ (93 # 4 <= d0 + d1 + d2 + d3 + d4)%Q
     /\ (d0 + d1 + d2 + d3 + d4 <= 155 # 4)%Q)
  /\ Forall2 Qeq (backoff_waits (trace (fetch always_503_slowest endpoint new_client).2))
       [5 # 4; 5 # 2; 5; 10; 20]%Q
  /\ (total (backoff_waits (trace (fetch always_503_slowest endpoint new_client).2))
      == 155 # 4)%Q.
Proof.
  intros H. split.
  - unfold fetch.
    destruct (fetch_attempts_all_transient w endpoint MAX_RETRIES 0 c H)
      as (c' & evs & waits & Hf & Htr & Hp & Hw).
    cbn [MAX_RETRIES seq] in Hw.
    repeat match goal with
           | H : Forall2 _ (_ :: _) _ |- _ =>
               apply Forall2_cons_inv_l in H as (? & ? & ? & ? & ->)
           | H : Forall2 _ [] _ |- _ => apply Forall2_nil_inv_l in H as ->
           end.
    do 7 eexists. split; [exact Hf|]. split; [exact Htr|]. split; [exact Hp|].
    unfold in_jitter_bounds in *.
    repeat match goal with
           | H : _ /\ _ |- _ => destruct H
           end.
    change (2 ^ Z.of_nat 0)%Q with 1%Q in *.
    change (2 ^ Z.of_nat 1)%Q with 2%Q in *.
    change (2 ^ Z.of_nat 2)%Q with 4%Q in *.
    change (2 ^ Z.of_nat 3)%Q with 8%Q in *.
    change (2 ^ Z.of_nat 4)%Q with 16%Q in *.
    split; lra.
  - split.
    + match goal with
      | |- Forall2 Qeq ?l _ =>
          let v := eval vm_compute in l in
          assert (E : l = v) by (vm_compute; reflexivity); rewrite E
      end.
      repeat constructor.
    + match goal with
      | |- (total ?l == _)%Q =>
          let v := eval vm_compute in l in
          assert (E : l = v) by (vm_compute; reflexivity); rewrite E
      end.
      reflexivity.
Qed.

Lemma backoff_total_wait_witness :
  exists c', fetch always_503 "/repos/rust-lang/rust/issues/1" new_client
             = (Raise (failed_after "/repos/rust-lang/rust/issues/1"), c').
Proof.
  destruct (backoff_total_wait always_503 "/repos/rust-lang/rust/issues/1" new_client)
    as [(c' & evs & d0 & d1 & d2 & d3 & d4 & Hf & _) _].
  - intros k _. reflexivity.
  - exists c'. exact Hf.
Defined.

Section Tracker.
Context (w : world).

Lemma keeps_tracker_refl (c : client) : keeps_tracker c c.
Proof. by split. Qed.

Lemma keeps_tracker_trans (c1 c2 c3 : client) :
  keeps_tracker c1 c2 -> keeps_tracker c2 c3 -> keeps_tracker c1 c3.
Proof. intros [A1 B1] [A2 B2]. split; auto. Qed.

Lemma keeps_tracker_same (c c' : client) :
  rate_remaining c' = rate_remaining c -> rate_reset c' = rate_reset c ->
  keeps_tracker c c'.
Proof. intros H1 H2. unfold keeps_tracker. by rewrite H1, H2. Qed.

Lemma update_keeps_tracker (hdrs : headers) (c : client) :
  keeps_tracker c (_update_rate_limit hdrs c).
Proof.
  unfold keeps_tracker, _update_rate_limit. cbn [rate_remaining rate_reset].
  split; intros H; [destruct (x_ratelimit_remaining hdrs)|destruct (x_ratelimit_reset hdrs)];
    eauto.
Qed.

Lemma backoff_keeps_tracker (attempt : nat) (c : client) :
  keeps_tracker c (backoff_sleep w attempt c).
Proof. by apply keeps_tracker_same. Qed.

Lemma check_same_tracker (c : client) :
  rate_remaining (_check_rate_limit w c) = rate_remaining c
  /\ rate_reset (_check_rate_limit w c) = rate_reset c.
Proof. unfold _check_rate_limit, time_time, emit. repeat case_match; done. Qed.

Lemma check_keeps_tracker (c : client) : keeps_tracker c (_check_rate_limit w c).
Proof. destruct (check_same_tracker c). by apply keeps_tracker_same. Qed.

Lemma handle_keeps_tracker (c : client) :
  keeps_tracker c (_handle_rate_limit_response w c).
Proof.
  apply keeps_tracker_same; unfold _handle_rate_limit_response, time_time, emit;
    repeat case_match; done.
Qed.

Lemma fetch_attempts_keeps_tracker (endpoint : string) (attempts : list nat) :
  forall c, keeps_tracker c (fetch_attempts w endpoint attempts c).2.
Proof.
  induction attempts as [|a rest IH]; intros c; [apply keeps_tracker_refl|].
  cbn [fetch_attempts client_get].
  set (c1 := {| rate_remaining := rate_remaining c; rate_reset := rate_reset c;
                requests := S (requests c); clock_reads := clock_reads c;
                draws := draws c; trace := trace c ++ [EvGet endpoint] |}).
  assert (H1 : keeps_tracker c c1) by (by apply keeps_tracker_same).
  assert (Hgo : forall c2, keeps_tracker c1 c2 ->
                  keeps_tracker c (fetch_attempts w endpoint rest c2).2).
  { intros c2 H2. eapply keeps_tracker_trans; [|apply IH].
    by eapply keeps_tracker_trans. }
  destruct (net w endpoint (requests c)) as [| |status hdrs body|remaining msg|hdrs msg];
    [| | |cbn [snd]; eapply keeps_tracker_trans; [exact H1|];
          split; [destruct remaining; simpl; eauto|done]
         |cbn [snd]; eapply keeps_tracker_trans; [exact H1|];
          eapply keeps_tracker_trans;
          [apply update_keeps_tracker|apply check_keeps_tracker]].
  - apply Hgo, backoff_keeps_tracker.
  - apply Hgo, backoff_keeps_tracker.
  - pose proof (update_keeps_tracker hdrs c1) as Hu.
    destruct (status =? 404).
    { cbn [snd]. by eapply keeps_tracker_trans. }
    destruct ((status =? 403) || (status =? 429)).
    { apply Hgo. eapply keeps_tracker_trans; [exact Hu|apply handle_keeps_tracker]. }
    destruct (negb (status =? 200)).
    { apply Hgo. eapply keeps_tracker_trans; [exact Hu|apply backoff_keeps_tracker]. }
    pose proof (check_keeps_tracker (_update_rate_limit hdrs c1)) as Hc.
    destruct body.
    + cbn [snd]. eapply keeps_tracker_trans; [exact H1|].
      by eapply keeps_tracker_trans.
    + apply Hgo. eapply keeps_tracker_trans; [exact Hu|].
      eapply keeps_tracker_trans; [exact Hc|apply backoff_keeps_tracker].
Qed.

Lemma fetch_pages_keeps_tracker (endpoint : string) (fuel : nat) :
  forall page all_items c,
    keeps_tracker c (fetch_pages w fuel endpoint page all_items c).2.
Proof.
  induction fuel as [|fuel IH]; intros page all_items c; [apply keeps_tracker_refl|].
  cbn [fetch_pages]. unfold fetch.
  pose proof (fetch_attempts_keeps_tracker (page_url endpoint page) (seq 0 MAX_RETRIES) c)
    as H.
  destruct (fetch_attempts w (page_url endpoint page) (seq 0 MAX_RETRIES) c) as [r c1].
  cbn [snd] in H.
  destruct r as [v|e]; [|done].
  destruct v as [| | | | |l|]; try done.
  destruct (length l =? 0)%nat; [done|].
  destruct (length l <? 100)%nat; [done|].
  eapply keeps_tracker_trans; [exact H|apply IH].
Qed.

End Tracker.

(** X6: the rate-limit tracker does not forget.  Once the remaining quota
    (or the reset time) is known, it is still known after any call of
    [fetch] or [fetch_paginated]; and a reply of status 200 that carries
    both headers and ends the fetch leaves exactly their values in the
    tracker. *)
Theorem tracker_persists (w : world) (endpoint : string) (c : client) (fuel : nat) :
  keeps_tracker c (fetch w endpoint c).2
  /\ keeps_tracker c (fetch_paginated w fuel endpoint c).2
  /\ (forall hdrs v remaining reset,
        net w endpoint (requests c) = Response 200 hdrs (Some v) ->
        x_ratelimit_remaining hdrs = Some remaining ->
        x_ratelimit_reset hdrs = Some reset ->
        rate_remaining (fetch w endpoint c).2 = Some remaining
        /\ rate_reset (fetch w endpoint c).2 = Some reset).
Proof.
  split; [apply fetch_attempts_keeps_tracker|].
  split; [apply fetch_pages_keeps_tracker|].
  intros hdrs v remaining reset Hnet Hrem Hres.
  destruct (fetch_ok w endpoint c hdrs v Hnet) as (c' & pause & -> & -> & _).
  cbn [snd].
  destruct (check_same_tracker w (_update_rate_limit hdrs (client_get w endpoint c).2))
    as [-> ->].
  unfold _update_rate_limit. cbn [rate_remaining rate_reset]. by rewrite Hrem, Hres.
Qed.

Lemma tracker_persists_witness :
  is_Some (rate_remaining
             (fetch quota_spent "/repos/rust-lang/rust/issues/2"
                (fetch quota_spent "/repos/rust-lang/rust/issues/1" new_client).2).2).
Proof.
  destruct (tracker_persists quota_spent "/repos/rust-lang/rust/issues/2"
              (fetch quota_spent "/repos/rust-lang/rust/issues/1" new_client).2 0)
    as [[H _] _].
  apply H. exists 0. reflexivity.
Defined.

Section PaginationErrors.
Context (w : world) (endpoint : string).

(** An exception of [fetch] on a page ends the loop with that exception. *)
Lemma fetch_pages_raises (fuel page : nat) (all_items : list json) (c c' : client)
    (e : pyerr) :
  fetch w (page_url endpoint page) c = (Raise e, c') ->
  fetch_pages w (S fuel) endpoint page all_items c = (Some (Raise e), c').
Proof. intros H. cbn [fetch_pages]. by rewrite H. Qed.

End PaginationErrors.

(** X7: [fetch_paginated] keeps nothing of a listing it cannot finish.
    When the pages before have come in full and the fetch of the next page
    meets five transient errors or rate-limit statuses, the whole call
    raises the exception that names that page, and the items gathered from
    the pages before are not returned. *)
Theorem fetch_paginated_page_failure (w : world) (endpoint : string) (c : client)
    (full : list (list json)) (fuel : nat) :
  Forall (fun p => (100 <= length p)%nat) full ->
  (forall i p, full !! i = Some p -> serves w endpoint c i (JList p)) ->
  (length full < fuel)%nat ->
  (forall k, (requests c + length full <= k < requests c + length full + MAX_RETRIES)%nat ->
     is_transient (net w (page_url endpoint (S (length full))) k)
     || is_rate_limited (net w (page_url endpoint (S (length full))) k) = true) ->
  exists c',
    fetch_paginated w fuel endpoint c
    = (Some (Raise (failed_after (page_url endpoint (S (length full))))), c')
    /\ requests c' = (requests c + length full + MAX_RETRIES)%nat.
Proof.
  intros Hfull Hserves Hfuel Hfail. unfold fetch_paginated.
  destruct (fetch_pages_full w endpoint full (fuel - length full) 1 [] c Hfull)
    as (c1 & evs1 & Hf1 & Hrq1 & _); [exact Hserves|].
  replace (length full + (fuel - length full))%nat with fuel in Hf1 by lia.
  rewrite Hf1.
  destruct (fuel - length full)%nat as [|fuel'] eqn:Efuel; [lia|].
  destruct (fetch_attempts_exhausts w (page_url endpoint (1 + length full)) MAX_RETRIES 0 c1)
    as (c' & evs & Hf & _ & Hrq & _).
  { intros k Hk. apply Hfail. lia. }
  exists c'. split; [|lia].
  by apply fetch_pages_raises.
Qed.

Lemma fetch_paginated_page_failure_witness :
  exists c',
    fetch_paginated second_page_down 2 (comments_endpoint 1) new_client
    = (Some (Raise (failed_after (page_url (comments_endpoint 1) 2))), c')
    /\ requests c' = 6%nat.
Proof.
  destruct (fetch_paginated_page_failure second_page_down (comments_endpoint 1) new_client
              [items 100] 2) as (c' & Hf & Hrq).
  - constructor; [|constructor]. vm_compute. lia.
  - intros [|i] p Hi; [|done]. injection Hi as <-. exists no_headers. reflexivity.
  - cbn. lia.
  - intros k _. reflexivity.
  - exists c'. split; [exact Hf|exact Hrq].
Defined.

(** * Further properties of the extractor *)

Lemma extract_xrefs_loop_acc (timeline : list json) :
  forall xrefs,
    extract_xrefs_loop timeline xrefs
    = rbind (extract_xrefs timeline) (fun out => Ok (xrefs ++ out)).
Proof.
  unfold extract_xrefs.
  induction timeline as [|event rest IH]; intros xrefs.
  - cbn. by rewrite app_nil_r.
  - cbn [extract_xrefs_loop].
    destruct (xref_of_event event) as [[x|]|e]; [| |done].
    + rewrite (IH (xrefs ++ [x])), (IH ([] ++ [x])).
      destruct (extract_xrefs_loop rest []) as [out|e]; [|done].
      cbn. by rewrite <- app_assoc.
    + apply IH.
Qed.

Lemma extract_xrefs_loop_app (a b : list json) :
  forall xrefs,
    extract_xrefs_loop (a ++ b) xrefs
    = rbind (extract_xrefs_loop a xrefs) (extract_xrefs_loop b).
Proof.
  induction a as [|event rest IH]; intros xrefs; [done|].
  cbn [app extract_xrefs_loop].
  destruct (xref_of_event event) as [[x|]|e]; [apply IH|apply IH|done].
Qed.

(** X8: extraction goes through concatenation.  The cross-references of
    two runs of events put end to end are those of the first followed by
    those of the second; an exception of the first part comes first. *)
Theorem extract_xrefs_app (a b : list json) :
  extract_xrefs (a ++ b)
  = rbind (extract_xrefs a) (fun xa =>
      rbind (extract_xrefs b) (fun xb => Ok (xa ++ xb))).
Proof.
  unfold extract_xrefs at 1. rewrite extract_xrefs_loop_app.
  fold (extract_xrefs a).
  destruct (extract_xrefs a) as [xa|e]; [|done].
  cbn [rbind]. apply extract_xrefs_loop_acc.
Qed.

Lemma xref_entry_shape (event x : json) :
  xref_entry event = Some x -> is_xref_entry x.
Proof.
  destruct event as [| | | | | |ev]; try done.
  unfold xref_entry.
  destruct (is_str (dict_get ev "event") "cross-referenced").
  - destruct (truthy (issue_number ev)) eqn:Hn; [|done].
    intros [= <-]. left. eauto 10.
  - destruct (is_str (dict_get ev "event") "referenced"); [|done].
    destruct (truthy (dict_get ev "commit_id")) eqn:Hc; [|done].
    intros [= <-]. right. eauto 10.
Qed.

(** X9: whatever [extract_xrefs] returns is a list of entries of the two
    shapes only: a cross-reference with the five fields event, from, type,
    actor, date and a truthy value under from, or a commit reference with
    the four fields event, commit, actor, date and a truthy value under
    commit.  The value is the one the event held and need not be a number
    or a commit hash: a source issue whose "number" is the string "12", or
    [true], gives an entry with that value under from. *)
Theorem extract_xrefs_entries (timeline out : list json) :
  (extract_xrefs timeline = Ok out -> Forall is_xref_entry out)
  /\ (forall number,
        truthy number = true ->
        extract_xrefs [xref_numbered number]
        = Ok [JObj [("event", JStr "cross-referenced"); ("from", number);
                    ("type", JStr "issue"); ("actor", JNull); ("date", JNull)]])
  /\ truthy (JStr "12") = true /\ truthy (JBool true) = true.
Proof.
  split; [|split; [|done]].
  - intros H.
    destruct (forallb well_shaped timeline) eqn:Hws.
    + unfold extract_xrefs in H. rewrite extract_xrefs_loop_well_shaped in H by done.
      injection H as <-. cbn [app].
      clear Hws. induction timeline as [|event rest IH]; [constructor|].
      change (omap xref_entry (event :: rest))
        with (match xref_entry event with
              | Some x => x :: omap xref_entry rest
              | None => omap xref_entry rest
              end).
      destruct (xref_entry event) as [x|] eqn:Hx; [|done].
      constructor; [by eapply xref_entry_shape|done].
    + destruct (extract_xrefs_loop_ill_shaped timeline [] Hws) as [e He].
      unfold extract_xrefs in H. congruence.
  - intros number Hn. unfold extract_xrefs, xref_numbered.
    cbn. rewrite Hn. reflexivity.
Qed.

Lemma extract_xrefs_entries_witness :
  Forall is_xref_entry
    [JObj [("event", JStr "cross-referenced"); ("from", JInt 1234);
           ("type", JStr "issue"); ("actor", JStr "brson");
           ("date", JStr "2015-03-01T10:00:00Z")]].
Proof.
  apply (proj1 (extract_xrefs_entries [xref_populated; xref_without_number] _)).
  reflexivity.
Defined.

(** * Marker names *)

Lemma zeros_length (k : nat) : String.length (zeros k) = k.
Proof. induction k as [|k IH]; [done|]. simpl. by rewrite IH. Qed.

Lemma string_length_app (a b : string) :
  String.length (a +:+ b) = (String.length a + String.length b)%nat.
Proof. induction a as [|ch a IH]; [done|]. simpl. by rewrite IH. Qed.

Lemma all_digits_app (a b : string) :
  all_digits (a +:+ b) = all_digits a && all_digits b.
Proof.
  induction a as [|ch a IH]; [done|]. simpl. rewrite IH. by rewrite andb_assoc.
Qed.

Lemma all_digits_zeros (k : nat) : all_digits (zeros k) = true.
Proof. induction k as [|k IH]; [done|]. simpl. by rewrite IH. Qed.

Lemma all_digits_uint (d : uint) : all_digits (NilEmpty.string_of_uint d) = true.
Proof. induction d; simpl; try done; by rewrite IHd. Qed.

Lemma to_uint_nonnil (m : N) : N.to_uint m <> Nil.
Proof. destruct m; [done|]. apply DecimalPos.Unsigned.to_uint_nonnil. Qed.

Lemma digits_of_N (m : N) :
  NilZero.string_of_uint (N.to_uint m) = NilEmpty.string_of_uint (N.to_uint m).
Proof.
  pose proof (to_uint_nonnil m). by destruct (N.to_uint m).
Qed.

Lemma uint_of_zeros (k : nat) (s : string) (d : uint) :
  NilEmpty.uint_of_string s = Some d ->
  NilEmpty.uint_of_string (zeros k +:+ s) = Some (Nat.iter k D0 d).
Proof.
  intros H. induction k as [|k IH]; [done|].
  change (zeros (S k) +:+ s) with (String "0"%char (zeros k +:+ s)).
  change (Nat.iter (S k) D0 d) with (D0 (Nat.iter k D0 d)).
  cbn [NilEmpty.uint_of_string]. by rewrite IH.
Qed.

Lemma of_uint_D0 (d : uint) : N.of_uint (D0 d) = N.of_uint d.
Proof.
  rewrite <- (DecimalN.Unsigned.of_uint_norm (D0 d)).
  rewrite <- (DecimalN.Unsigned.of_uint_norm d). reflexivity.
Qed.

Lemma of_uint_iter_zeros (k : nat) (d : uint) :
  N.of_uint (Nat.iter k D0 d) = N.of_uint d.
Proof.
  induction k as [|k IH]; [done|].
  change (Nat.iter (S k) D0 d) with (D0 (Nat.iter k D0 d)). by rewrite of_uint_D0.
Qed.

(** The digits of [padded], with their padding, read back as the number. *)
Lemma padded_digits (k : nat) (m : N) :
  exists d,
    NilEmpty.uint_of_string (zeros k +:+ NilZero.string_of_uint (N.to_uint m)) = Some d
    /\ N.of_uint d = m.
Proof.
  exists (Nat.iter k D0 (N.to_uint m)). split.
  - apply uint_of_zeros. rewrite digits_of_N. apply NilEmpty.usu.
  - rewrite of_uint_iter_zeros. apply DecimalN.Unsigned.of_to.
Qed.

Lemma padded_body_nonempty (k : nat) (m : N) :
  zeros k +:+ NilZero.string_of_uint (N.to_uint m) <> "".
Proof.
  destruct k; [|done]. simpl. rewrite digits_of_N.
  pose proof (to_uint_nonnil m). by destruct (N.to_uint m).
Qed.

Lemma padded_body_digit_first (k : nat) (m : N) :
  exists a rest,
    zeros k +:+ NilZero.string_of_uint (N.to_uint m) = String a rest
    /\ is_digit a = true /\ all_digits rest = true.
Proof.
  assert (Hall : all_digits (zeros k +:+ NilZero.string_of_uint (N.to_uint m)) = true).
  { rewrite all_digits_app, all_digits_zeros, digits_of_N. apply all_digits_uint. }
  pose proof (padded_body_nonempty k m) as Hne.
  destruct (zeros k +:+ NilZero.string_of_uint (N.to_uint m)) as [|a rest]; [done|].
  simpl in Hall. apply andb_true_iff in Hall as [? ?]. eauto.
Qed.

Lemma digit_not_minus (a : ascii) : is_digit a = true -> Ascii.eqb a "-"%char = false.
Proof.
  intros H. destruct (Ascii.eqb_spec a "-"%char) as [->|]; [|done]. discriminate H.
Qed.

Lemma unpadded_padded (z : Z) : unpadded (padded z) = Some z.
Proof.
  unfold unpadded, padded.
  destruct (Z.ltb_spec z 0) as [Hneg|Hpos].
  - destruct (padded_digits (5 - String.length (NilZero.string_of_uint
                                                  (N.to_uint (Z.abs_N z)))) (Z.abs_N z))
      as (d & Hd & Hv).
    pose proof (padded_body_nonempty
                  (5 - String.length (NilZero.string_of_uint (N.to_uint (Z.abs_N z))))
                  (Z.abs_N z)) as Hne.
    change ("-" +:+ ?x) with (String "-"%char x).
    unfold NilZero.int_of_string. rewrite Ascii.eqb_refl.
    unfold NilZero.uint_of_string.
    destruct (zeros _ +:+ _) as [|a rest] eqn:E; [done|].
    rewrite Hd. cbn [option_map Z.of_int]. unfold Z.of_uint.
    change (Pos.of_uint d) with (N.of_uint d). rewrite Hv. f_equal. lia.
  - destruct (padded_digits (6 - String.length (NilZero.string_of_uint
                                                  (N.to_uint (Z.abs_N z)))) (Z.abs_N z))
      as (d & Hd & Hv).
    destruct (padded_body_digit_first
                (6 - String.length (NilZero.string_of_uint (N.to_uint (Z.abs_N z))))
                (Z.abs_N z)) as (a & rest & E & Ha & _).
    rewrite E in Hd |- *. unfold NilZero.int_of_string.
    rewrite (digit_not_minus a Ha). unfold NilZero.uint_of_string. rewrite Hd.
    cbn [option_map Z.of_int]. unfold Z.of_uint.
    change (Pos.of_uint d) with (N.of_uint d). rewrite Hv. f_equal. lia.
Qed.

Lemma padded_inj (a b : Z) : padded a = padded b -> a = b.
Proof.
  intros H. apply (f_equal unpadded) in H. rewrite !unpadded_padded in H. by injection H.
Qed.

Lemma padded_length (n : Z) : (6 <= String.length (padded n))%nat.
Proof.
  unfold padded. destruct (n <? 0).
  - change ("-" +:+ ?x) with (String "-"%char x). cbn [String.length].
    rewrite string_length_app, zeros_length. lia.
  - rewrite string_length_app, zeros_length. lia.
Qed.

(** X10: [padded] loses nothing.  The text it makes for a record number,
    negative numbers and numbers of more than six digits included, reads
    back as that number; so two different records never get the same
    prefix, and the text is at least six characters long. *)
Theorem padded_round_trip (n : Z) :
  unpadded (padded n) = Some n
  /\ (forall n', padded n' = padded n -> n' = n)
  /\ (6 <= String.length (padded n))%nat.
Proof.
  split; [apply unpadded_padded|]. split; [intros n'; apply padded_inj|apply padded_length].
Qed.

Lemma padded_round_trip_witness :
  unpadded "001234" = Some 1234 /\ (forall n', padded n' = "001234" -> n' = 1234).
Proof.
  destruct (padded_round_trip 1234) as (H1 & H2 & _). split; [exact H1|exact H2].
Defined.

Lemma digits_prefix_app (t s : string) :
  all_digits t = true -> starts_non_digit s = true -> digits_prefix (t +:+ s) = t.
Proof.
  intros Ht Hs. induction t as [|a t IH].
  - destruct s as [|b s]; [done|]. simpl in *. by destruct (is_digit b).
  - simpl in Ht |- *. apply andb_true_iff in Ht as [Ha Ht]. rewrite Ha. by rewrite IH.
Qed.

Lemma numeral_prefix_padded (n : Z) (s : string) :
  starts_non_digit s = true -> numeral_prefix (padded n +:+ s) = padded n.
Proof.
  intros Hs. unfold padded. destruct (n <? 0).
  - change ("-" +:+ ?x) with (String "-"%char x).
    change (String "-"%char ?x +:+ s) with (String "-"%char (x +:+ s)).
    unfold numeral_prefix. rewrite Ascii.eqb_refl. f_equal.
    apply digits_prefix_app; [|done].
    rewrite all_digits_app, all_digits_zeros, digits_of_N. apply all_digits_uint.
  - destruct (padded_body_digit_first
                (6 - String.length (NilZero.string_of_uint (N.to_uint (Z.abs_N n))))
                (Z.abs_N n)) as (a & rest & -> & Ha & Hrest).
    change (String a rest +:+ s) with (String a (rest +:+ s)).
    unfold numeral_prefix. rewrite (digit_not_minus a Ha).
    cbn [digits_prefix]. rewrite Ha. f_equal. by apply digits_prefix_app.
Qed.

Lemma marker_suffix_non_digit (s : string) :
  In s marker_suffixes -> starts_non_digit s = true.
Proof.
  intros H. assert (Hall : forallb starts_non_digit marker_suffixes = true) by reflexivity.
  rewrite forallb_forall in Hall. by apply Hall.
Qed.

Lemma item_path_eq_inv (a b : Z) (s s' : string) :
  In s marker_suffixes -> In s' marker_suffixes ->
  item_path a s = item_path b s' -> a = b /\ s = s'.
Proof.
  intros Hs Hs' H. unfold item_path, ITEMS_DIR in H.
  apply (string_app_inv_head "items") in H.
  apply (string_app_inv_head "/") in H.
  assert (Hp : padded a = padded b).
  { rewrite <- (numeral_prefix_padded a s), <- (numeral_prefix_padded b s');
      [by rewrite H| |]; by apply marker_suffix_non_digit. }
  apply padded_inj in Hp as ->. split; [done|].
  by apply string_app_inv_head in H.
Qed.

(** X11: the markers of different records are different files.  Two
    marker paths are equal only for the same record number and the same
    one of the ten suffixes. *)
Theorem marker_paths_distinct (a b : Z) (s s' : string) :
  In s marker_suffixes -> In s' marker_suffixes ->
  item_path a s = item_path b s' -> a = b /\ s = s'.
Proof. apply item_path_eq_inv. Qed.

Lemma marker_paths_distinct_witness :
  path_main 12 <> path_main 120 /\ path_404 7 <> path_skip 7.
Proof.
  split; intros H.
  - apply (marker_paths_distinct 12 120 "-main.json" "-main.json") in H as [H _];
      [discriminate H| |]; simpl; tauto.
  - apply (marker_paths_distinct 7 7 ".404" ".skip") in H as [_ H];
      [discriminate H| |]; simpl; tauto.
Defined.

(** * Further properties of the driver *)

Section Frame.
Context (w : world) (fuel : nat) (num : Z).

Lemma marker_path_is_own (p : string) :
  (forall s, In s marker_suffixes -> p <> item_path num s) ->
  p <> path_404 num /\ p <> path_skip num /\ p <> path_main num
  /\ p <> path_main_failed num
  /\ forall comp, p <> success_path num comp /\ p <> failure_path num comp.
Proof.
  intros H.
  assert (H' : forall s, In s marker_suffixes -> p <> item_path num s) by exact H.
  repeat split; try (apply H'; simpl; tauto).
  all: destruct comp; apply H'; simpl; tauto.
Qed.

(** What [process_item] leaves alone. *)
Lemma process_item_frame (c : client) (fs : gmap string file)
    (do_main do_comments do_timeline do_xrefs : bool) (p : string) :
  (forall s, In s marker_suffixes -> p <> item_path num s) ->
  (process_item w fuel c fs num do_main do_comments do_timeline do_xrefs).2 !! p = fs !! p.
Proof.
  intros Hp. destruct (marker_path_is_own p Hp) as (H1 & H2 & H3 & H4 & H5).
  unfold process_item.
  destruct (file_exists (path_404 num) fs); [done|].
  destruct (file_exists (path_skip num) fs); [done|].
  assert (Hmain :
    let '(fl, s1, c1, fs1) :=
      (if do_main then main_step w num stats0 c fs else (Continue, stats0, c, fs)) in
    fs1 !! p = fs !! p).
  { destruct do_main; [|done].
    pose proof (main_step_effect w num stats0 c fs) as H. unfold main_effect in H.
    destruct (main_step w num stats0 c fs) as [[[fl s1] c1] fs1].
    destruct H as (_ & H & _). by apply H. }
  destruct (if do_main then main_step w num stats0 c fs else (Continue, stats0, c, fs))
    as [[[fl s1] c1] fs1].
  destruct fl; [|done].
  destruct (_ && _); [done|].
  pose proof (optional_steps_effect w fuel num do_comments do_timeline do_xrefs
                (Some s1, c1, fs1)) as (_ & F & _).
  cbn [snd] in F. rewrite F; [done|]. intros comp _. apply H5.
Qed.

End Frame.

(** X12: [process_item] touches the ten markers of its own record and
    nothing else: every other path, in particular every marker of every
    other record, holds after the call what it held before. *)
Theorem process_item_other_records (w : world) (fuel : nat) (c : client)
    (fs : gmap string file) (num : Z) (do_main do_comments do_timeline do_xrefs : bool) :
  let fs' := (process_item w fuel c fs num do_main do_comments do_timeline do_xrefs).2 in
  (forall p, (forall s, In s marker_suffixes -> p <> item_path num s) ->
             fs' !! p = fs !! p)
  /\ (forall num' s, num' <> num -> In s marker_suffixes ->
                     fs' !! item_path num' s = fs !! item_path num' s).
Proof.
  cbv zeta. split; [intros p; apply process_item_frame|].
  intros num' s Hne Hs. apply process_item_frame.
  intros s' Hs' Heq. by destruct (item_path_eq_inv num' num s s' Hs Hs' Heq).
Qed.

Lemma process_item_other_records_witness :
  (process_item (answering (record_created "2015-01-01T00:00:00Z")) 1 new_client
     (main_done 8) 9 true false false false).2 !! path_main 8
  = Some (FJson (JObj [("number", JInt 8)])).
Proof.
  destruct (process_item_other_records (answering (record_created "2015-01-01T00:00:00Z")) 1
              new_client (main_done 8) 9 true false false false) as [_ H].
  change (path_main 8) with (item_path 8 "-main.json").
  rewrite (H 8 "-main.json"); [reflexivity|lia|simpl; tauto].
Defined.

Section Persistence.
Context (w : world) (fuel : nat) (num : Z).

Lemma main_step_terminal (s : stats) (c : client) (fs : gmap string file) :
  terminal_effect num fs (main_step w num s c fs).
Proof.
  unfold main_step, terminal_effect.
  destruct (file_exists (path_main num) fs); [by left|].
  destruct (fetch w (main_endpoint num) c) as [r c1].
  assert (Hfail : forall e,
    (write_failed (path_main_failed num) (str_of_err e) "main" fs) !! path_404 num
    = fs !! path_404 num
    /\ (write_failed (path_main_failed num) (str_of_err e) "main" fs) !! path_skip num
       = fs !! path_skip num) by (intros e; by fs_simpl).
  assert (H404 : (<[path_404 num := FEmpty]> fs) !! path_404 num = Some FEmpty
                 /\ (<[path_404 num := FEmpty]> fs) !! path_skip num = fs !! path_skip num)
    by (by fs_simpl).
  destruct r as [data|e]; [|by left].
  destruct data; try (right; left; by split);
    (destruct (classify_main _) as [[|payload]|e];
     [right; right; split; [done|by fs_simpl] | left; by fs_simpl | by left]).
Qed.

(** A success marker that exists is still there, unchanged, afterwards. *)
Lemma process_item_success_kept (c : client) (fs : gmap string file)
    (do_main do_comments do_timeline do_xrefs : bool) (comp : component) (x : file) :
  fs !! success_path num comp = Some x ->
  (process_item w fuel c fs num do_main do_comments do_timeline do_xrefs).2
    !! success_path num comp = Some x.
Proof.
  intros Hx. unfold process_item.
  destruct (file_exists (path_404 num) fs); [done|].
  destruct (file_exists (path_skip num) fs); [done|].
  assert (Hmain :
    let '(fl, s1, c1, fs1) :=
      (if do_main then main_step w num stats0 c fs else (Continue, stats0, c, fs)) in
    fs1 !! success_path num comp = Some x).
  { destruct do_main; [|done].
    pose proof (main_step_effect w num stats0 c fs) as H. unfold main_effect in H.
    destruct (main_step w num stats0 c fs) as [[[fl s1] c1] fs1].
    destruct H as (_ & F & J & _).
    destruct comp; simpl in *; [|by rewrite F by path_ne..].
    destruct J as [->|(Hn & _)]; [done|congruence]. }
  destruct (if do_main then main_step w num stats0 c fs else (Continue, stats0, c, fs))
    as [[[fl s1] c1] fs1].
  destruct fl; [|done].
  destruct (_ && _); [done|].
  pose proof (optional_steps_effect w fuel num do_comments do_timeline do_xrefs
                (Some s1, c1, fs1)) as (_ & F & J & _).
  cbn [snd] in *. destruct comp.
  - rewrite F; [done|]. intros comp Hreq. destruct comp; try done; split; path_ne.
  - destruct (J Comments) as [->|(Hn & _)]; [done|done|congruence].
  - destruct (J Timeline) as [->|(Hn & _)]; [done|done|congruence].
  - destruct (J Xrefs) as [->|(Hn & _)]; [done|done|congruence].
Qed.

(** The two terminal markers after a call, from what they were before. *)
Lemma process_item_terminal (c : client) (fs : gmap string file)
    (do_main do_comments do_timeline do_xrefs : bool) :
  let fs' := (process_item w fuel c fs num do_main do_comments do_timeline do_xrefs).2 in
  (fs' !! path_404 num = fs !! path_404 num /\ fs' !! path_skip num = fs !! path_skip num)
  \/ (do_main = true /\ fs !! path_404 num = None /\ fs !! path_skip num = None
      /\ ((fs' !! path_404 num = Some FEmpty /\ fs' !! path_skip num = None)
          \/ (fs' !! path_skip num = Some FEmpty /\ fs' !! path_404 num = None))).
Proof.
  cbv zeta. unfold process_item.
  destruct (file_exists (path_404 num) fs) eqn:E404; [by left|].
  destruct (file_exists (path_skip num) fs) eqn:Eskip; [by left|].
  apply file_exists_false in E404, Eskip.
  assert (Hopt : forall s1 c1 fs1,
    (optional_steps w fuel num do_comments do_timeline do_xrefs (Some s1, c1, fs1)).2
      !! path_404 num = fs1 !! path_404 num
    /\ (optional_steps w fuel num do_comments do_timeline do_xrefs (Some s1, c1, fs1)).2
         !! path_skip num = fs1 !! path_skip num).
  { intros s1 c1 fs1.
    pose proof (optional_steps_effect w fuel num do_comments do_timeline do_xrefs
                  (Some s1, c1, fs1)) as (_ & F & _).
    cbn [snd] in F.
    split; apply F; intros comp Hreq; destruct comp; try done; split; path_ne. }
  destruct do_main.
  - pose proof (main_step_terminal stats0 c fs) as H. unfold terminal_effect in H.
    destruct (main_step w num stats0 c fs) as [[[fl s1] c1] fs1].
    destruct (Hopt s1 c1 fs1) as [O1 O2].
    destruct H as [[H1 H2] | [(-> & H1 & H2) | (-> & H1 & H2)]].
    + left. destruct fl; [|done]. destruct (_ && _); [done|]. by rewrite O1, O2.
    + right. cbn [snd]. rewrite H1, H2. repeat split; try done. by left.
    + right. cbn [snd]. rewrite H1, H2. repeat split; try done. by right.
  - left. destruct (_ && _); [done|]. apply Hopt.
Qed.

End Persistence.

(** X13: [process_item] never deletes or rewrites what is complete.  A
    terminal marker and the success marker of any component that exist
    before a call exist after it with the same content. *)
Theorem markers_never_overwritten (w : world) (fuel : nat) (c : client)
    (fs : gmap string file) (num : Z) (do_main do_comments do_timeline do_xrefs : bool) :
  let fs' := (process_item w fuel c fs num do_main do_comments do_timeline do_xrefs).2 in
  (forall x, fs !! path_404 num = Some x -> fs' !! path_404 num = Some x)
  /\ (forall x, fs !! path_skip num = Some x -> fs' !! path_skip num = Some x)
  /\ (forall comp x, fs !! success_path num comp = Some x ->
                     fs' !! success_path num comp = Some x).
Proof.
  cbv zeta.
  pose proof (process_item_terminal w fuel num c fs do_main do_comments do_timeline do_xrefs)
    as H. cbv zeta in H.
  split; [|split].
  - intros x Hx. destruct H as [[-> _] | (_ & Hn & _)]; [done|congruence].
  - intros x Hx. destruct H as [[_ ->] | (_ & _ & Hn & _)]; [done|congruence].
  - intros comp x. apply process_item_success_kept.
Qed.

Lemma markers_never_overwritten_witness :
  (process_item (answering (JList [JObj [("body", JStr "new")]])) 2 new_client
     (<[ path_comments 7 := FJson (JList []) ]> (main_done 7)) 7 true true false false).2
    !! path_comments 7 = Some (FJson (JList [])).
Proof.
  destruct (markers_never_overwritten (answering (JList [JObj [("body", JStr "new")]])) 2
              new_client (<[ path_comments 7 := FJson (JList []) ]> (main_done 7)) 7
              true true false false) as (_ & _ & H).
  apply (H Comments). reflexivity.
Defined.

(** X14: a record never has both terminal markers through the program.
    If the not-found and the excluded-by-date marker are not both present
    before a call of [process_item], they are not both present after it;
    and without [do_main] neither of them is created. *)
Theorem terminal_markers_exclusive (w : world) (fuel : nat) (c : client)
    (fs : gmap string file) (num : Z) (do_main do_comments do_timeline do_xrefs : bool) :
  let fs' := (process_item w fuel c fs num do_main do_comments do_timeline do_xrefs).2 in
  (~ (is_Some (fs !! path_404 num) /\ is_Some (fs !! path_skip num)) ->
   ~ (is_Some (fs' !! path_404 num) /\ is_Some (fs' !! path_skip num)))
  /\ (do_main = false ->
      fs' !! path_404 num = fs !! path_404 num
      /\ fs' !! path_skip num = fs !! path_skip num).
Proof.
  cbv zeta.
  pose proof (process_item_terminal w fuel num c fs do_main do_comments do_timeline do_xrefs)
    as H. cbv zeta in H.
  split.
  - intros Hnot [[x Hx] [y Hy]].
    destruct H as [[H1 H2] | (_ & _ & _ & [[_ H2] | [_ H1]])]; [|congruence..].
    apply Hnot. rewrite <- H1, <- H2. eauto.
  - intros ->. destruct H as [H | (H & _)]; [done|discriminate H].
Qed.

Lemma terminal_markers_exclusive_witness :
  ~ (is_Some ((process_item always_404 1 new_client ∅ 3 true true false false).2
              !! path_404 3)
     /\ is_Some ((process_item always_404 1 new_client ∅ 3 true true false false).2
                 !! path_skip 3)).
Proof.
  destruct (terminal_markers_exclusive always_404 1 new_client ∅ 3 true true false false)
    as [H _].
  apply H. intros [[x Hx] _]. discriminate Hx.
Defined.


(** X15: a record the API does not know is marked not-found and left.
    With [do_main], no marker for the record, and a first reply of status
    404 -- or of status 200 with the body [null], which [fetch] cannot
    tell from a 404 -- [process_item] writes the empty not-found marker,
    returns the not-found count alone, and makes no other request,
    whatever other components are asked for. *)
Theorem main_not_found (w : world) (fuel : nat) (c : client) (fs : gmap string file)
    (num : Z) (do_comments do_timeline do_xrefs : bool) :
  fs !! path_404 num = None -> fs !! path_skip num = None ->
  fs !! path_main num = None ->
  (exists hdrs body, net w (main_endpoint num) (requests c) = Response 404 hdrs body)
  \/ (exists hdrs, net w (main_endpoint num) (requests c) = Response 200 hdrs (Some JNull)) ->
  exists c1,
    process_item w fuel c fs num true do_comments do_timeline do_xrefs
    = (Some (set_skip_404 stats0), c1, <[path_404 num := FEmpty]> fs)
    /\ requests c1 = S (requests c).
Proof.
  intros H404 Hskip Hmain Hnet.
  assert (Hf : exists c1, fetch w (main_endpoint num) c = (Ok JNull, c1)
                          /\ requests c1 = S (requests c)).
  { destruct Hnet as [(hdrs & body & Hnet) | (hdrs & Hnet)].
    - destruct (fetch_not_found w _ c hdrs body Hnet) as (c1 & Hf & Hrq & _). eauto.
    - destruct (fetch_ok w _ c hdrs JNull Hnet) as (c1 & pause & Hf & _ & Hrq & _). eauto. }
  destruct Hf as (c1 & Hf & Hrq). exists c1. split; [|done].
  by rewrite (process_item_main_result w fuel num c c1 fs _ _ _ (Ok JNull)).
Qed.

Lemma main_not_found_witness :
  exists c1,
    process_item always_404 3 new_client ∅ 3 true true true true
    = (Some (set_skip_404 stats0), c1, {[ path_404 3 := FEmpty ]})
    /\ requests c1 = 1%nat.
Proof.
  destruct (main_not_found always_404 3 new_client ∅ 3 true true true
              (lookup_empty _) (lookup_empty _) (lookup_empty _)) as (c1 & Hp & Hrq).
  - left. exists no_headers, None. reflexivity.
  - exists c1. split; [exact Hp|exact Hrq].
Defined.

(** X16: a record whose fetch fails is marked failed and left.  With
    [do_main], no marker for the record, and five replies that are
    transient errors or rate-limit statuses, [process_item] writes the
    failure marker of main with the message that names the endpoint,
    returns a failed count of 1 alone, and does not attempt comments,
    timeline or xrefs: the five requests are all it makes. *)
Theorem main_fetch_failure (w : world) (fuel : nat) (c : client) (fs : gmap string file)
    (num : Z) (do_comments do_timeline do_xrefs : bool) :
  fs !! path_404 num = None -> fs !! path_skip num = None ->
  fs !! path_main num = None ->
  (forall k, (requests c <= k < requests c + MAX_RETRIES)%nat ->
     is_transient (net w (main_endpoint num) k)
     || is_rate_limited (net w (main_endpoint num) k) = true) ->
  exists c1,
    process_item w fuel c fs num true do_comments do_timeline do_xrefs
    = (Some (incr_failed stats0), c1,
       <[path_main_failed num :=
           FFailed ("Failed after 5 attempts: " +:+ main_endpoint num) "main"]> fs)
    /\ requests c1 = (requests c + MAX_RETRIES)%nat.
Proof.
  intros H404 Hskip Hmain Hnet.
  destruct (fetch_attempts_exhausts w (main_endpoint num) MAX_RETRIES 0 c Hnet)
    as (c1 & evs & Hf & _ & Hrq & _).
  exists c1. split; [|done].
  by rewrite (process_item_main_result w fuel num c c1 fs _ _ _
                (Raise (failed_after (main_endpoint num)))).
Qed.

Lemma main_fetch_failure_witness :
  exists c1,
    process_item always_503 3 new_client ∅ 3 true true true true
    = (Some (incr_failed stats0), c1,
       {[ path_main_failed 3 :=
            FFailed "Failed after 5 attempts: /repos/rust-lang/rust/issues/3" "main" ]})
    /\ requests c1 = 5%nat.
Proof.
  destruct (main_fetch_failure always_503 3 new_client ∅ 3 true true true
              (lookup_empty _) (lookup_empty _) (lookup_empty _)) as (c1 & Hp & Hrq).
  - intros k _. reflexivity.
  - exists c1. split; [exact Hp|exact Hrq].
Defined.

(** X17: a record body of the wrong shape is a failure of main, not a
    crash.  When the reply is a 200 whose body is not an object (and not
    [null]), or an object whose [created_at] is not a string, the
    exception of the [try] block ([AttributeError] of [.get], [TypeError]
    of [>=]) is caught: the failure marker of main holds its message, the
    failed count is 1, no terminal or success marker is written and no
    other component is attempted. *)
Theorem main_malformed_body (w : world) (fuel : nat) (c : client) (fs : gmap string file)
    (num : Z) (do_comments do_timeline do_xrefs : bool) (hdrs : headers) (data : json) :
  fs !! path_404 num = None -> fs !! path_skip num = None ->
  fs !! path_main num = None ->
  net w (main_endpoint num) (requests c) = Response 200 hdrs (Some data) ->
  is_none data = false ->
  (forall kvs, data = JObj kvs ->
     forall s, dict_get_default kvs "created_at" (JStr "") <> JStr s) ->
  exists c1 message,
    process_item w fuel c fs num true do_comments do_timeline do_xrefs
    = (Some (incr_failed stats0), c1,
       <[path_main_failed num := FFailed message "main"]> fs)
    /\ requests c1 = S (requests c)
    /\ message
       = match data with
         | JObj kvs =>
             "'>=' not supported between instances of '"
             +:+ type_name (dict_get_default kvs "created_at" (JStr "")) +:+ "' and 'str'"
         | _ => "'" +:+ type_name data +:+ "' object has no attribute 'get'"
         end.
Proof.
  intros H404 Hskip Hmain Hnet Hdata Hshape.
  destruct (fetch_ok w _ c hdrs data Hnet) as (c1 & pause & Hf & _ & Hrq & _).
  exists c1. eexists. split; [|split; [done|reflexivity]].
  rewrite (process_item_main_result w fuel num c c1 fs _ _ _ (Ok data)) by done.
  destruct data as [| | | | | |kvs]; try done.
  unfold classify_main.
  destruct (dict_get_default kvs "created_at" (JStr "")) as [| | | |s| |] eqn:E;
    try reflexivity.
  by destruct (Hshape kvs eq_refl s).
Qed.

Lemma main_malformed_body_witness :
  exists c1,
    process_item (answering record_numeric_date) 3 new_client ∅ 3 true true false false
    = (Some (incr_failed stats0), c1,
       {[ path_main_failed 3 :=
            FFailed "'>=' not supported between instances of 'int' and 'str'" "main" ]}).
Proof.
  destruct (main_malformed_body (answering record_numeric_date) 3 new_client ∅ 3
              true false false no_headers record_numeric_date
              (lookup_empty _) (lookup_empty _) (lookup_empty _) eq_refl eq_refl)
    as (c1 & message & Hp & _ & Hm).
  - intros kvs [= <-] s. discriminate.
  - exists c1. rewrite Hp, Hm. reflexivity.
Defined.

(** X18: without main there is nothing to do.  When [do_main] is off and
    no main marker (and no terminal marker) exists for the record,
    [process_item] returns all counts 0 and changes nothing -- no request,
    no file -- whichever of comments, timeline and xrefs are asked for. *)
Theorem optional_components_need_main (w : world) (fuel : nat) (c : client)
    (fs : gmap string file) (num : Z) (do_comments do_timeline do_xrefs : bool) :
  fs !! path_404 num = None -> fs !! path_skip num = None ->
  fs !! path_main num = None ->
  process_item w fuel c fs num false do_comments do_timeline do_xrefs = (Some stats0, c, fs).
Proof.
  intros H404 Hskip Hmain. unfold process_item.
  apply file_exists_false in H404, Hskip, Hmain. rewrite H404, Hskip, Hmain.
  destruct do_comments, do_timeline, do_xrefs; reflexivity.
Qed.

Lemma optional_components_need_main_witness :
  process_item (answering (JList [])) 3 new_client ∅ 3 false true true true
  = (Some stats0, new_client, ∅).
Proof.
  apply (optional_components_need_main (answering (JList [])) 3 new_client ∅ 3
           true true true); apply lookup_empty.
Defined.

Section Counting.
Context (w : world) (fuel : nat) (num : Z).

Lemma counted_refl (s : stats) : counted 0 s s.
Proof. unfold counted, outcomes. repeat split; lia. Qed.

Lemma counted_trans (n m : nat) (s1 s2 s3 : stats) :
  counted n s1 s2 -> counted m s2 s3 -> counted (n + m) s1 s3.
Proof.
  unfold counted, outcomes. intros (A1 & A2 & A3 & A4 & A5 & A6) (B1 & B2 & B3 & B4 & B5 & B6).
  repeat split; try congruence; lia.
Qed.

(** A block that returns adds one outcome; if it adds no failure, its
    success marker is in place afterwards. *)
Lemma component_step_counted (endpoint path path_failed comp : string)
    (post : list json -> result (list json)) (s s' : stats) (c c' : client)
    (fs fs' : gmap string file) :
  path <> path_failed ->
  component_step w fuel endpoint path path_failed comp post s c fs = (Some s', c', fs') ->
  counted 1 s s' /\ (failed s' = failed s -> is_Some (fs' !! path)).
Proof.
  intros Hne. unfold component_step.
  destruct (file_exists path fs) eqn:Ex.
  - intros [= <- <- <-]. apply file_exists_true in Ex. split; [|done].
    unfold counted, outcomes. simpl. repeat split; lia.
  - destruct (fetch_paginated w fuel endpoint c) as [[r|] c1]; [|done].
    destruct (rbind r post) as [items|e]; intros [= <- <- <-].
    + split; [unfold counted, outcomes; simpl; repeat split; lia|].
      intros _. rewrite lookup_delete_ne, lookup_insert_eq by done. eauto.
    + split; [unfold counted, outcomes; simpl; repeat split; lia|].
      simpl. lia.
Qed.

Lemma when_step_counted (flag : bool) (endpoint path path_failed comp : string)
    (post : list json -> result (list json))
    (st : option stats * client * gmap string file) (s' : stats) (c' : client)
    (fs' : gmap string file) :
  path <> path_failed ->
  when flag (component_step w fuel endpoint path path_failed comp post) st = (Some s', c', fs') ->
  exists s, st.1.1 = Some s
    /\ counted (asked flag) s s'
    /\ (flag = true -> failed s' = failed s -> is_Some (fs' !! path)).
Proof.
  intros Hne. destruct st as [[[s|] c] fs]; [|done]. cbn [when].
  destruct flag.
  - intros H. exists s. split; [done|].
    destruct (component_step_counted _ _ _ _ _ _ _ _ _ _ _ Hne H). by split.
  - intros [= <- <- <-]. exists s. split; [done|]. split; [apply counted_refl|done].
Qed.

(** The optional blocks, when they return: one outcome for each component
    asked for, and without a failure every one of them has its marker. *)
Lemma optional_steps_counted (do_comments do_timeline do_xrefs : bool)
    (s s' : stats) (c c' : client) (fs fs' : gmap string file) :
  optional_steps w fuel num do_comments do_timeline do_xrefs (Some s, c, fs)
  = (Some s', c', fs') ->
  counted (asked do_comments + asked do_timeline + asked do_xrefs) s s'
  /\ (failed s' = failed s ->
      forall comp, requested do_comments do_timeline do_xrefs comp = true ->
                   is_Some (fs' !! success_path num comp)).
Proof.
  unfold optional_steps. intros H.
  pose proof (when_step_effect w fuel do_timeline (timeline_endpoint num)
                (path_timeline num) (path_timeline_failed num) "timeline" Ok
                (when do_comments (comments_step w fuel num) (Some s, c, fs))
                (success_failure_ne num Timeline)) as (_ & F2 & _).
  fold (timeline_step w fuel num) in F2.
  pose proof (when_step_effect w fuel do_xrefs (timeline_endpoint num)
                (path_xrefs num) (path_xrefs_failed num) "xrefs" extract_xrefs
                (when do_timeline (timeline_step w fuel num)
                   (when do_comments (comments_step w fuel num) (Some s, c, fs)))
                (success_failure_ne num Xrefs)) as (_ & F3 & _).
  fold (xrefs_step w fuel num) in F3. rewrite H in F3. cbn [snd] in F3.
  apply when_step_counted in H as (s2 & H2 & C3 & K3); [|apply (success_failure_ne num Xrefs)].
  destruct (when do_timeline (timeline_step w fuel num)
              (when do_comments (comments_step w fuel num) (Some s, c, fs)))
    as [[o2 c2] fs2] eqn:E2.
  cbn [fst snd] in H2, F2, F3. subst o2.
  apply when_step_counted in E2 as (s1 & H1 & C2 & K2);
    [|apply (success_failure_ne num Timeline)].
  destruct (when do_comments (comments_step w fuel num) (Some s, c, fs))
    as [[o1 c1] fs1] eqn:E1.
  cbn [fst snd] in H1, F2. subst o1.
  apply when_step_counted in E1 as (s0 & [= <-] & C1 & K1);
    [|apply (success_failure_ne num Comments)].
  split; [exact (counted_trans _ _ _ _ _ (counted_trans _ _ _ _ _ C1 C2) C3)|].
  intros Hclean comp Hreq.
  destruct C1 as (_ & _ & _ & _ & D1 & _), C2 as (_ & _ & _ & _ & D2 & _),
           C3 as (_ & _ & _ & _ & D3 & _).
  destruct comp; simpl in Hreq |- *; [done| | |].
  - rewrite F3, F2 by path_ne. apply K1; [done|lia].
  - rewrite F3 by path_ne. apply K2; [done|lia].
  - apply K3; [done|lia].
Qed.

(** With every component asked for already marked, the optional blocks
    only count. *)
Lemma optional_steps_all_present (w' : world) (fuel' : nat)
    (do_comments do_timeline do_xrefs : bool) (s : stats) (c : client)
    (fs : gmap string file) :
  (forall comp, requested do_comments do_timeline do_xrefs comp = true ->
                is_Some (fs !! success_path num comp)) ->
  optional_steps w' fuel' num do_comments do_timeline do_xrefs (Some s, c, fs)
  = (Some (skipped do_xrefs (skipped do_timeline (skipped do_comments s))), c, fs).
Proof.
  intros Hall. unfold optional_steps.
  assert (H1 : when do_comments (comments_step w' fuel' num) (Some s, c, fs)
               = (Some (skipped do_comments s), c, fs)).
  { destruct do_comments; [|done]. cbn [when]. unfold comments_step.
    rewrite component_step_exists; [done|]. by apply (Hall Comments). }
  rewrite H1.
  assert (H2 : when do_timeline (timeline_step w' fuel' num)
                 (Some (skipped do_comments s), c, fs)
               = (Some (skipped do_timeline (skipped do_comments s)), c, fs)).
  { destruct do_timeline; [|done]. cbn [when]. unfold timeline_step.
    rewrite component_step_exists; [done|]. by apply (Hall Timeline). }
  rewrite H2.
  destruct do_xrefs; [|done]. cbn [when]. unfold xrefs_step.
  rewrite component_step_exists; [done|]. by apply (Hall Xrefs).
Qed.

Lemma skipped_counts (a b d : bool) (s : stats) :
  fetched (skipped a (skipped b (skipped d s))) = fetched s
  /\ failed (skipped a (skipped b (skipped d s))) = failed s.
Proof. by destruct a, b, d. Qed.

End Counting.

Section Rerun.
Context (w : world) (fuel : nat) (num : Z).

(** The terminal markers and the main marker come through the optional
    blocks untouched. *)
Lemma optional_steps_keep_main (do_comments do_timeline do_xrefs : bool)
    (st : option stats * client * gmap string file) :
  let fs' := (optional_steps w fuel num do_comments do_timeline do_xrefs st).2 in
  fs' !! path_404 num = st.2 !! path_404 num
  /\ fs' !! path_skip num = st.2 !! path_skip num
  /\ fs' !! path_main num = st.2 !! path_main num.
Proof.
  pose proof (optional_steps_effect w fuel num do_comments do_timeline do_xrefs st)
    as (_ & F & _).
  cbv zeta. repeat split; apply F; intros comp Hreq; destruct comp; try done; split; path_ne.
Qed.

Lemma all_present_spec (do_comments do_timeline do_xrefs : bool) (fs : gmap string file) :
  all_present num do_comments do_timeline do_xrefs fs = true
  <-> (forall comp, requested do_comments do_timeline do_xrefs comp = true ->
                    is_Some (fs !! success_path num comp)).
Proof.
  unfold all_present. cbn [forallb]. rewrite !andb_true_iff. split.
  - intros (H1 & H2 & H3 & _) comp Hreq. apply file_exists_true.
    destruct comp; [done| | |]; [revert H1|revert H2|revert H3]; rewrite Hreq; done.
  - intros H. repeat split; try done.
    all: match goal with
         | |- implb (requested _ _ _ ?comp) _ = true =>
             destruct (requested do_comments do_timeline do_xrefs comp) eqn:E; [|done];
             apply (file_exists_true (success_path num comp)); by apply H
         end.
Qed.

(** A settled record costs nothing: no request, no file, nothing fetched
    and nothing failed, in whatever state the network is. *)
Lemma process_item_settled_quiet (c : client) (fs : gmap string file)
    (do_main do_comments do_timeline do_xrefs : bool) :
  settled num do_main do_comments do_timeline do_xrefs fs = true ->
  exists s,
    process_item w fuel c fs num do_main do_comments do_timeline do_xrefs = (Some s, c, fs)
    /\ fetched s = 0%nat /\ failed s = 0%nat.
Proof.
  unfold settled, process_item.
  destruct (file_exists (path_404 num) fs); [by eexists|].
  destruct (file_exists (path_skip num) fs); [by eexists|].
  cbn [orb]. destruct do_main.
  - intros [Hm Hall]%andb_true_iff. unfold main_step. rewrite Hm, gate_with_main.
    pose proof (proj1 (all_present_spec _ _ _ _) Hall) as Hreq.
    rewrite (optional_steps_all_present num w fuel _ _ _ _ _ _ Hreq).
    eexists. split; [reflexivity|]. apply skipped_counts.
  - cbn [negb]. rewrite andb_true_r.
    destruct (_ && _); [intros _; by eexists|]. cbn [orb]. intros Hall.
    pose proof (proj1 (all_present_spec _ _ _ _) Hall) as Hreq.
    rewrite (optional_steps_all_present num w fuel _ _ _ _ _ _ Hreq).
    eexists. split; [reflexivity|]. apply skipped_counts.
Qed.

(** A call without failure leaves its record settled. *)
Lemma process_item_clean_settles (c c1 : client) (fs fs1 : gmap string file)
    (do_main do_comments do_timeline do_xrefs : bool) (s : stats) :
  process_item w fuel c fs num do_main do_comments do_timeline do_xrefs = (Some s, c1, fs1) ->
  failed s = 0%nat ->
  settled num do_main do_comments do_timeline do_xrefs fs1 = true.
Proof.
  unfold process_item, settled.
  destruct (file_exists (path_404 num) fs) eqn:E404.
  { intros [= <- <- <-] _. by rewrite E404. }
  destruct (file_exists (path_skip num) fs) eqn:Eskip.
  { intros [= <- <- <-] _. by rewrite E404, Eskip. }
  assert (Hdone : forall fsm s0 cm,
    (do_main = true -> is_Some (fsm !! path_main num)) ->
    optional_steps w fuel num do_comments do_timeline do_xrefs (Some s0, cm, fsm)
    = (Some s, c1, fs1) ->
    failed s = 0%nat ->
    file_exists (path_404 num) fs1 || file_exists (path_skip num) fs1
    || (if do_main
        then file_exists (path_main num) fs1
             && all_present num do_comments do_timeline do_xrefs fs1
        else ((do_comments || do_timeline || do_xrefs)
              && negb (file_exists (path_main num) fs1))
             || all_present num do_comments do_timeline do_xrefs fs1) = true).
  { intros fsm s0 cm Hmmain Hopt Hclean.
    destruct (optional_steps_counted w fuel num _ _ _ _ _ _ _ _ _ Hopt)
      as [(_ & _ & _ & _ & D & _) Hall].
    specialize (Hall ltac:(lia)).
    rewrite (proj2 (all_present_spec _ _ _ _) Hall).
    pose proof (optional_steps_keep_main do_comments do_timeline do_xrefs
                  (Some s0, cm, fsm)) as (_ & _ & K3).
    rewrite Hopt in K3. cbn [snd] in K3.
    destruct do_main; [|by rewrite !orb_true_r].
    assert (Xmain : file_exists (path_main num) fs1 = true).
    { apply file_exists_true. rewrite K3. by apply Hmmain. }
    by rewrite Xmain, !orb_true_r. }
  apply file_exists_false in E404, Eskip.
  destruct do_main.
  - destruct (main_step_outcome w num stats0 c fs)
      as [Hex | c' e Hn | c' Hn | c' Hn | c' payload Hn].
    + rewrite gate_with_main. intros Hopt Hclean.
      by apply (Hdone fs (incr_skip_exists stats0) c (fun _ => Hex) Hopt).
    + intros [= <- <- <-] Hclean. discriminate Hclean.
    + intros [= <- <- <-] _.
      assert (X : file_exists (path_404 num) (<[path_404 num := FEmpty]> fs) = true).
      { apply file_exists_true. rewrite lookup_insert_eq. eauto. }
      by rewrite X.
    + intros [= <- <- <-] _.
      assert (Y : file_exists (path_skip num) (<[path_skip num := FEmpty]> fs) = true).
      { apply file_exists_true. rewrite lookup_insert_eq. eauto. }
      by rewrite Y, orb_true_r.
    + rewrite gate_with_main. intros Hopt Hclean.
      apply (Hdone (delete (path_main_failed num) (<[path_main num := FJson payload]> fs))
               (incr_fetched stats0) c'); try done.
      intros _. fs_simpl. eauto.
  - cbn [negb]. rewrite andb_true_r.
    destruct ((do_comments || do_timeline || do_xrefs)
              && negb (file_exists (path_main num) fs)) eqn:Egate.
    + intros [= <- <- <-] _. by rewrite Egate, orb_true_r.
    + intros Hopt Hclean. by apply (Hdone fs stats0 c).
Qed.

End Rerun.

(** X19: a call that went through without failure need not be repeated.
    If [process_item] returns with a failed count of 0, then a second call
    for the same record with the same flags -- in any state of the network,
    with any client, even without fuel -- makes no request, changes no
    file, and reports nothing fetched and nothing failed. *)
Theorem process_item_idempotent (w w' : world) (fuel fuel' : nat) (c c1 c2 : client)
    (fs fs1 : gmap string file) (num : Z)
    (do_main do_comments do_timeline do_xrefs : bool) (s : stats) :
  process_item w fuel c fs num do_main do_comments do_timeline do_xrefs = (Some s, c1, fs1) ->
  failed s = 0%nat ->
  exists s2,
    process_item w' fuel' c2 fs1 num do_main do_comments do_timeline do_xrefs
    = (Some s2, c2, fs1)
    /\ fetched s2 = 0%nat /\ failed s2 = 0%nat.
Proof.
  intros Hrun Hclean. apply process_item_settled_quiet.
  exact (process_item_clean_settles w fuel num _ _ _ _ _ _ _ _ _ Hrun Hclean).
Qed.

Lemma process_item_idempotent_witness :
  exists s2 c1 fs1,
    process_item always_503 0 c1 fs1 9 true false false false = (Some s2, c1, fs1)
    /\ fetched s2 = 0%nat /\ failed s2 = 0%nat
    /\ fs1 !! path_main 9
       = Some (FJson (JObj [("number", JInt 9);
                            ("pull_request", JObj [("url", JStr "u")]);
                            ("_meta", JObj [("type", JStr "pr")])])).
Proof.
  destruct (process_item (answering record_without_date) 3 new_client ∅ 9
              true false false false) as [[r c1] fs1] eqn:E.
  assert (Hr : r = Some (incr_fetched stats0)).
  { apply (f_equal (fun x => x.1.1)) in E. cbn [fst] in E. rewrite <- E.
    vm_compute. reflexivity. }
  assert (Hfs : fs1 !! path_main 9
                = Some (FJson (JObj [("number", JInt 9);
                                     ("pull_request", JObj [("url", JStr "u")]);
                                     ("_meta", JObj [("type", JStr "pr")])]))).
  { apply (f_equal (fun x => x.2 !! path_main 9)) in E. cbn [snd] in E. rewrite <- E.
    vm_compute. reflexivity. }
  subst r.
  destruct (process_item_idempotent (answering record_without_date) always_503 3 0
              new_client c1 c1 ∅ fs1 9 true false false false (incr_fetched stats0)
              E eq_refl) as (s2 & Hp & Hf & Hfail).
  exists s2, c1, fs1. repeat split; done.
Defined.

(** The counts of one call. *)
Lemma process_item_tally (w : world) (fuel : nat) (c c1 : client)
    (fs fs1 : gmap string file) (num : Z)
    (do_main do_comments do_timeline do_xrefs : bool) (s : stats) :
  process_item w fuel c fs num do_main do_comments do_timeline do_xrefs = (Some s, c1, fs1) ->
  (skip_404 s + skip_date s <= 1)%nat
  /\ (outcomes s
      <= asked do_main + asked do_comments + asked do_timeline + asked do_xrefs)%nat
  /\ (skip_404 s + skip_date s = 1 -> outcomes s = 0)%nat
  /\ (do_main = true -> 1 <= skip_404 s + skip_date s + outcomes s)%nat.
Proof.
  unfold process_item.
  destruct (file_exists (path_404 num) fs).
  { intros [= <- <- <-]. cbn. lia. }
  destruct (file_exists (path_skip num) fs).
  { intros [= <- <- <-]. cbn. lia. }
  assert (Hopt : forall s0 cm fsm,
    optional_steps w fuel num do_comments do_timeline do_xrefs (Some s0, cm, fsm)
    = (Some s, c1, fs1) ->
    skip_404 s = skip_404 s0 /\ skip_date s = skip_date s0
    /\ outcomes s = (outcomes s0 + (asked do_comments + asked do_timeline + asked do_xrefs))%nat).
  { intros s0 cm fsm H.
    destruct (optional_steps_counted w fuel num _ _ _ _ _ _ _ _ _ H)
      as [(A & B & _ & _ & _ & D) _]. done. }
  destruct do_main.
  - destruct (main_step_outcome w num stats0 c fs)
      as [Hex | c' e Hn | c' Hn | c' Hn | c' payload Hn].
    + rewrite gate_with_main. intros H. destruct (Hopt _ _ _ H) as (-> & -> & ->).
      cbn. lia.
    + intros [= <- <- <-]. cbn. lia.
    + intros [= <- <- <-]. cbn. lia.
    + intros [= <- <- <-]. cbn. lia.
    + rewrite gate_with_main. intros H. destruct (Hopt _ _ _ H) as (-> & -> & ->).
      cbn. lia.
  - destruct (_ && _).
    + intros [= <- <- <-]. cbn. lia.
    + intros H. destruct (Hopt _ _ _ H) as (-> & -> & ->). cbn. lia.
Qed.

(** X20: what the counts of one call add up to.  When [process_item]
    returns, at most one of the two terminal counts is 1 and then no
    component outcome is counted; otherwise fetched, already-existing and
    failed components together number at most the components asked for;
    and with the main component asked for the record is counted at least
    once. *)
Theorem process_item_counts (w : world) (fuel : nat) (c c1 : client)
    (fs fs1 : gmap string file) (num : Z)
    (do_main do_comments do_timeline do_xrefs : bool) (s : stats) :
  process_item w fuel c fs num do_main do_comments do_timeline do_xrefs = (Some s, c1, fs1) ->
  (skip_404 s + skip_date s <= 1)%nat
  /\ (outcomes s
      <= asked do_main + asked do_comments + asked do_timeline + asked do_xrefs)%nat
  /\ (skip_404 s + skip_date s = 1 -> outcomes s = 0)%nat
  /\ (do_main = true -> 1 <= skip_404 s + skip_date s + outcomes s)%nat.
Proof. apply process_item_tally. Qed.

Lemma process_item_counts_witness :
  exists s c1 fs1,
    process_item (failing_comments 7) 2 new_client (main_done 7) 7 true true true false
    = (Some s, c1, fs1)
    /\ (outcomes s <= 3)%nat.
Proof.
  destruct (process_item (failing_comments 7) 2 new_client (main_done 7) 7
              true true true false) as [[r c1] fs1] eqn:E.
  assert (Hr : exists s, r = Some s).
  { apply (f_equal (fun x => x.1.1)) in E. cbn [fst] in E. rewrite <- E.
    vm_compute. eexists. reflexivity. }
  destruct Hr as [s ->].
  destruct (process_item_counts _ _ _ _ _ _ _ _ _ _ _ _ E) as (_ & H & _ & _).
  exists s, c1, fs1. split; [reflexivity|exact H].
Defined.

(** * Discovery *)

(** What [fetch] can raise: the exception after the last attempt, or the
    one of a reply that it does not catch. *)
Lemma fetch_attempts_raises (w : world) (endpoint : string) (attempts : list nat)
    (c c' : client) (e : pyerr) :
  fetch_attempts w endpoint attempts c = (Raise e, c') ->
  e = failed_after endpoint
  \/ (exists msg, e = ValueError msg) \/ (exists msg, e = UnicodeDecodeError msg).
Proof.
  revert c. induction attempts as [|attempt rest IH]; intros c.
  - intros [= <- _]. by left.
  - cbn [fetch_attempts]. destruct (client_get w endpoint c) as [rep c1].
    destruct rep as [| |status hdrs body|remaining msg|hdrs msg]; try apply IH.
    + destruct (status =? 404); [discriminate|].
      destruct (_ || _); [apply IH|].
      destruct (negb _); [apply IH|].
      destruct body; [discriminate|apply IH].
    + intros [= <- _]. right; left; eauto.
    + intros [= <- _]. right; right; eauto.
Qed.

Lemma subscript_number_raises (v : json) :
  subscript_number v <> Raises (Uncaught could_not_discover).
Proof. destruct v as [| | | | | |kvs]; try discriminate. simpl. by destruct (assoc _ _). Qed.

(** X21: what [discover_latest] returns.  It returns [n] exactly when the
    fetch of the newest record came back with a list whose first element is
    a dict holding [n] under "number"; the client is the one the fetch has
    left. *)
Theorem discover_latest_returns (w : world) (c c' : client) (n : json) :
  discover_latest w c = (Returns n, c')
  <-> exists kvs rest,
        fetch w discover_endpoint c = (Ok (JList (JObj kvs :: rest)), c')
        /\ assoc "number" kvs = Some n.
Proof.
  unfold discover_latest. destruct (fetch w discover_endpoint c) as [r c1]. split.
  - destruct r as [data|e]; [|discriminate].
    destruct (negb (truthy data)); [discriminate|].
    destruct data as [|b|z|q|s|l|kvs]; try discriminate.
    + simpl. destruct (String.eqb s ""); [discriminate|]. by destruct s.
    + destruct l as [|first l]; [discriminate|]. cbn [len_is_0 first_number].
      destruct first as [| | | | | |kvs]; try discriminate.
      simpl. destruct (assoc "number" kvs) as [m|] eqn:E; [|discriminate].
      intros [= <- <-]. by exists kvs, l.
    + simpl. by destruct kvs.
  - intros (kvs & rest & [= -> ->] & Hn). simpl. by rewrite Hn.
Qed.

Lemma discover_latest_returns_witness :
  (discover_latest (latest_is 42) new_client).1 = Returns (JInt 42).
Proof.
  destruct (fetch (latest_is 42) discover_endpoint new_client) as [r c'] eqn:E.
  assert (Hr : r = Ok (JList [JObj [("number", JInt 42)]])).
  { apply (f_equal fst) in E. cbn [fst] in E. rewrite <- E. vm_compute. reflexivity. }
  subst r.
  by rewrite (proj2 (discover_latest_returns (latest_is 42) new_client c' (JInt 42))
                (ex_intro _ [("number", JInt 42)] (ex_intro _ [] (conj E eq_refl)))).
Defined.

(** X22: when [discover_latest] gives up.  It raises "Could not discover
    latest issue number" exactly when the fetch came back with a falsy value:
    [None] after a 404, an empty list, an empty dict, an empty string, 0 or
    false.  On a truthy value the length test that follows never holds. *)
Theorem discover_latest_gives_up (w : world) (c c' : client) :
  discover_latest w c = (Raises (Uncaught could_not_discover), c')
  <-> exists data, fetch w discover_endpoint c = (Ok data, c') /\ truthy data = false.
Proof.
  unfold discover_latest. destruct (fetch w discover_endpoint c) as [r c1] eqn:Ef. split.
  - destruct r as [data|e].
    + destruct (truthy data) eqn:T; cbn [negb].
      * destruct data as [|b|z|q|s|l|kvs]; try discriminate.
        -- simpl in T |- *. destruct (String.eqb s ""); [discriminate|]. by destruct s.
        -- destruct l as [|first l]; [discriminate|]. cbn [len_is_0 first_number].
           intros [= H _]. by destruct (subscript_number_raises first).
        -- by destruct kvs.
      * intros [= <-]. by exists data.
    + intros [= -> <-].
      apply fetch_attempts_raises in Ef as [Ef | [[msg Ef] | [msg Ef]]]; discriminate Ef.
  - intros (data & [= -> ->] & T). by rewrite T.
Qed.

Lemma discover_latest_gives_up_witness :
  (discover_latest always_404 new_client).1 = Raises (Uncaught could_not_discover).
Proof.
  destruct (fetch always_404 discover_endpoint new_client) as [r c'] eqn:E.
  assert (Hr : r = Ok JNull).
  { apply (f_equal fst) in E. cbn [fst] in E. rewrite <- E. vm_compute. reflexivity. }
  subst r.
  by rewrite (proj2 (discover_latest_gives_up always_404 new_client c')
                (ex_intro _ JNull (conj E eq_refl))).
Defined.

(** * The range loop *)

Section Range.
Context (do_main do_comments do_timeline do_xrefs : bool).

(** Whether a record is settled is read off its own markers. *)
Lemma settled_agree (num : Z) (fs fs' : gmap string file) :
  (forall s, In s marker_suffixes -> fs' !! item_path num s = fs !! item_path num s) ->
  settled num do_main do_comments do_timeline do_xrefs fs'
  = settled num do_main do_comments do_timeline do_xrefs fs.
Proof.
  intros H. unfold settled, all_present, file_exists. cbn [forallb success_path].
  unfold path_404, path_skip, path_main, path_comments, path_timeline, path_xrefs.
  by rewrite !H by (simpl; tauto).
Qed.

Lemma process_item_settled_other (w : world) (fuel : nat) (c : client)
    (fs : gmap string file) (num num' : Z) :
  num' <> num ->
  settled num' do_main do_comments do_timeline do_xrefs
    (process_item w fuel c fs num do_main do_comments do_timeline do_xrefs).2
  = settled num' do_main do_comments do_timeline do_xrefs fs.
Proof.
  intros Hne. apply settled_agree. intros s Hs. apply process_item_frame.
  intros s' Hs' Heq. by destruct (item_path_eq_inv num' num s s' Hs Hs' Heq).
Qed.

Lemma process_items_frame (w : world) (fuel : nat) (nums : list Z) (p : string) :
  (forall n s, In n nums -> In s marker_suffixes -> p <> item_path n s) ->
  forall totals c fs,
    (process_items w fuel do_main do_comments do_timeline do_xrefs nums totals c fs).2 !! p
    = fs !! p.
Proof.
  induction nums as [|num rest IH]; intros Hp totals c fs; [done|].
  cbn [process_items].
  pose proof (process_item_frame w fuel num c fs do_main do_comments do_timeline do_xrefs p
                (fun s Hs => Hp num s (or_introl eq_refl) Hs)) as F.
  destruct (process_item w fuel c fs num do_main do_comments do_timeline do_xrefs)
    as [[[s|] c1] fs1]; cbn [snd] in F |- *; [|done].
  rewrite IH; [done|]. intros n sfx Hn. apply Hp. by right.
Qed.

Lemma process_items_failed_mono (w : world) (fuel : nat) (nums : list Z) :
  forall totals c fs t c1 fs1,
    process_items w fuel do_main do_comments do_timeline do_xrefs nums totals c fs
    = (Some t, c1, fs1) ->
    (failed totals <= failed t)%nat.
Proof.
  induction nums as [|num rest IH]; intros totals c fs t c1 fs1.
  - by intros [= <- _ _].
  - cbn [process_items].
    destruct (process_item w fuel c fs num do_main do_comments do_timeline do_xrefs)
      as [[[s|] c0] fs0]; [|discriminate].
    intros H. apply IH in H. cbn in H. lia.
Qed.

(** A run without failure leaves every record of the list settled. *)
Lemma process_items_settles (w : world) (fuel : nat) (nums : list Z) :
  forall totals c fs t c1 fs1,
    process_items w fuel do_main do_comments do_timeline do_xrefs nums totals c fs
    = (Some t, c1, fs1) ->
    failed t = failed totals ->
    (forall n, In n nums -> settled n do_main do_comments do_timeline do_xrefs fs1 = true)
    /\ (forall n, ~ In n nums ->
                  settled n do_main do_comments do_timeline do_xrefs fs1
                  = settled n do_main do_comments do_timeline do_xrefs fs).
Proof.
  induction nums as [|num rest IH]; intros totals c fs t c1 fs1.
  - intros [= <- _ <-] _. split; [intros n []|done].
  - cbn [process_items].
    pose proof (process_item_settled_other w fuel c fs num) as Hoth.
    destruct (process_item w fuel c fs num do_main do_comments do_timeline do_xrefs)
      as [[[s|] c0] fs0] eqn:E; [|discriminate].
    cbn [snd] in Hoth. intros Hrun Hclean.
    pose proof (process_items_failed_mono _ _ _ _ _ _ _ _ _ Hrun) as Hmono.
    cbn [add_stats failed] in Hmono.
    destruct (IH _ _ _ _ _ _ Hrun) as [IH1 IH2]; [cbn; lia|].
    assert (Hset : settled num do_main do_comments do_timeline do_xrefs fs0 = true)
      by (apply (process_item_clean_settles w fuel num _ _ _ _ _ _ _ _ _ E); lia).
    split.
    + intros n [<-|Hn]; [|by apply IH1].
      destruct (in_dec Z.eq_dec num rest) as [Hin|Hout]; [by apply IH1|].
      by rewrite IH2.
    + intros n Hn. rewrite IH2 by (intros Hin; apply Hn; by right).
      apply Hoth. intros ->. apply Hn. by left.
Qed.

(** Over settled records the loop only counts. *)
Lemma process_items_quiet (w : world) (fuel : nat) (nums : list Z) (fs : gmap string file) :
  (forall n, In n nums -> settled n do_main do_comments do_timeline do_xrefs fs = true) ->
  forall totals c,
  exists t,
    process_items w fuel do_main do_comments do_timeline do_xrefs nums totals c fs
    = (Some t, c, fs)
    /\ fetched t = fetched totals /\ failed t = failed totals.
Proof.
  induction nums as [|num rest IH]; intros Hall totals c.
  - by exists totals.
  - cbn [process_items].
    destruct (process_item_settled_quiet w fuel num c fs _ _ _ _
                (Hall num (or_introl eq_refl))) as (s & -> & Hf & Hx).
    destruct (IH (fun n Hn => Hall n (or_intror Hn)) (add_stats totals s) c)
      as (t & -> & Hf' & Hx').
    exists t. split; [done|]. cbn in Hf', Hx'. lia.
Qed.

(** The totals of a run. *)
Lemma process_items_tally (w : world) (fuel : nat) (nums : list Z) :
  let K := (asked do_main + asked do_comments + asked do_timeline + asked do_xrefs)%nat in
  forall totals c fs t c1 fs1,
    process_items w fuel do_main do_comments do_timeline do_xrefs nums totals c fs
    = (Some t, c1, fs1) ->
    exists sum,
      t = add_stats totals sum
      /\ (skip_404 sum + skip_date sum <= length nums)%nat
      /\ (outcomes sum + (skip_404 sum + skip_date sum) * K <= length nums * K)%nat
      /\ (do_main = true -> length nums <= skip_404 sum + skip_date sum + outcomes sum)%nat.
Proof.
  intros K. induction nums as [|num rest IH]; intros totals c fs t c1 fs1.
  - intros [= <- _ _]. exists stats0. split.
    + destruct totals. unfold add_stats. cbn. f_equal; lia.
    + cbn. lia.
  - cbn [process_items].
    destruct (process_item w fuel c fs num do_main do_comments do_timeline do_xrefs)
      as [[[s|] c0] fs0] eqn:E; [|discriminate].
    destruct (process_item_tally _ _ _ _ _ _ _ _ _ _ _ _ E) as (A & B & C & D).
    fold K in B.
    intros Hrun. destruct (IH _ _ _ _ _ _ Hrun) as (sum & -> & A' & B' & D').
    exists (add_stats s sum). split.
    + unfold add_stats. cbn. f_equal; lia.
    + unfold outcomes in *. cbn [add_stats fetched skip_404 skip_date skip_exists failed length].
      repeat split; [lia|nia|intros Hm; specialize (D Hm); specialize (D' Hm); lia].
Qed.

End Range.

Lemma mkdir_items_spec (d : disk) :
  ((ITEMS_DIR ∉ directories d) /\ is_Some (files d !! ITEMS_DIR)
   /\ mkdir_items d
      = Raises (FileExistsError ("[Errno 17] File exists: '" +:+ ITEMS_DIR +:+ "'")))
  \/ (exists d1, mkdir_items d = Returns d1
                 /\ files d1 = files d
                 /\ directories d1 = {[ ITEMS_DIR ]} ∪ directories d
                 /\ (ITEMS_DIR ∈ directories d \/ files d !! ITEMS_DIR = None)).
Proof.
  unfold mkdir_items. destruct (decide (ITEMS_DIR ∈ directories d)) as [Hdir|Hdir].
  - right. exists d. split; [done|]. split; [done|]. split; [|by left].
    apply set_eq. intros x. rewrite elem_of_union, elem_of_singleton.
    split; [by right|]. by intros [->|H].
  - destruct (files d !! ITEMS_DIR) as [f|] eqn:Hfile.
    + left. split; [done|]. split; [eauto|done].
    + right. eexists. split; [done|]. split; [done|]. split; [done|by right].
Qed.

(** [discover_latest] has nothing to do with files. *)
Lemma discover_latest_no_file_error (w : world) (c : client) (e : string) :
  (discover_latest w c).1 <> Raises (FileExistsError e).
Proof.
  unfold discover_latest. destruct (fetch w discover_endpoint c) as [r c1].
  destruct r as [data|err]; [|done].
  destruct (negb (truthy data)); [done|].
  destruct (len_is_0 data) as [[|]|err]; try done. cbn [fst].
  destruct data as [| | | |s|l|kvs]; try done.
  - destruct s; [done|]. cbn [first_number subscript_number]. done.
  - destruct l as [|first l]; [done|]. cbn [first_number].
    destruct first as [| | | | | |kvs]; try done. simpl. by destruct (assoc _ _).
Qed.

(** X23: a run writes inside its range.  [main] first makes the
    directory [items] when it is not there, before it looks at
    [--discover] or at the range: when a file has that name it dies of
    [FileExistsError] without a request and without a change; otherwise the
    directory exists afterwards and is the only one that may have been
    added.  As to the files, whatever [main] is asked to do, a path that is
    not one of the ten markers of a record between [--start] and [--end]
    holds after the run what it held before; with [--discover], or without
    a range, that is every path. *)
Theorem main_writes_in_range (w : world) (fuel : nat) (args : arguments)
    (d : disk) (p : string) :
  (forall a b n s,
     args_discover args = false ->
     args_start args = Some a -> args_end args = Some b ->
     a <= n <= b -> In s marker_suffixes -> p <> item_path n s) ->
  let '(r, c', d') := main w fuel args d in
  files d' !! p = files d !! p
  /\ (ITEMS_DIR ∉ directories d -> is_Some (files d !! ITEMS_DIR) ->
      r = Some (Traceback (FileExistsError
                             ("[Errno 17] File exists: '" +:+ ITEMS_DIR +:+ "'")))
      /\ c' = new_client /\ d' = d)
  /\ (ITEMS_DIR ∈ directories d \/ files d !! ITEMS_DIR = None ->
      directories d' = {[ ITEMS_DIR ]} ∪ directories d
      /\ forall e, r <> Some (Traceback (FileExistsError e))).
Proof.
  intros Hp. unfold main.
  destruct (mkdir_items_spec d)
    as [(Hdir & Hfile & ->) | (d1 & -> & Hf1 & Hdir1 & Hok)].
  { split; [done|]. split; [done|]. intros [H|H]; [done|].
    rewrite H in Hfile. by destruct Hfile. }
  assert (Hno : ITEMS_DIR ∉ directories d -> is_Some (files d !! ITEMS_DIR) ->
                forall P : Prop, P).
  { intros A [x B]. destruct Hok as [Hok|Hok]; [done|congruence]. }
  destruct (args_discover args) eqn:Hdisc.
  - pose proof (discover_latest_no_file_error w new_client) as X.
    destruct (discover_latest w new_client) as [[latest|e] c1]; cbn [fst] in X.
    + split; [by rewrite Hf1|]. split; [intros A B; by apply (Hno A B)|].
      intros _. split; [done|]. intros e' H. discriminate H.
    + split; [by rewrite Hf1|]. split; [intros A B; by apply (Hno A B)|].
      intros _. split; [done|]. intros e' H. injection H as ->. by apply (X e').
  - destruct (args_start args) as [a|];
      [|split; [by rewrite Hf1|]; split; [intros A B; by apply (Hno A B)|];
        intros _; split; [done|]; intros e' H; discriminate H].
    destruct (args_end args) as [b|];
      [|split; [by rewrite Hf1|]; split; [intros A B; by apply (Hno A B)|];
        intros _; split; [done|]; intros e' H; discriminate H].
    assert (Hin : forall n s, In n (py_range a (b + 1)) -> In s marker_suffixes ->
                              p <> item_path n s).
    { intros n s Hn. apply (Hp a b); try done.
      unfold py_range in Hn. apply in_map_iff in Hn as (k & <- & Hk).
      apply in_seq in Hk. lia. }
    pose proof (process_items_frame (args_main args) (args_comments args)
                  (args_timeline args) (args_xrefs args) w fuel (py_range a (b + 1))
                  p Hin stats0 new_client (files d1)) as F.
    destruct (process_items w fuel _ _ _ _ (py_range a (b + 1)) stats0 new_client
                (files d1)) as [[[t|] c1] fs1]; cbn [snd] in F; cbn [files directories];
      (split; [by rewrite F, Hf1|]; split; [intros A B; by apply (Hno A B)|];
       intros _; split; [done|]; intros e' H; discriminate H).
Qed.

Lemma main_writes_in_range_witness :
  let '(r, c', d') :=
    main (answering (record_created "2015-01-01T00:00:00Z")) 1
      (range_args 9 10 true false false false)
      {| directories := ∅; files := main_done 8 |} in
  files d' !! path_main 8 = Some (FJson (JObj [("number", JInt 8)]))
  /\ directories d' = {[ ITEMS_DIR ]} ∪ ∅.
Proof.
  pose proof (main_writes_in_range (answering (record_created "2015-01-01T00:00:00Z")) 1
                (range_args 9 10 true false false false)
                {| directories := ∅; files := main_done 8 |} (path_main 8)) as H.
  destruct (main _ _ _ _) as [[r c'] d'].
  destruct H as (H1 & _ & H3).
  - intros a b n s _ [= <-] [= <-] Hn Hs Heq.
    change (path_main 8) with (item_path 8 "-main.json") in Heq.
    destruct (item_path_eq_inv 8 n "-main.json" s) as [Hn' _]; [simpl; tauto|done|done|lia].
  - split; [rewrite H1; reflexivity|]. apply H3. by right.
Defined.

(** X24: a finished run without failure need not be repeated.  If [main]
    runs over a range and reports a failed total of 0, a second run with the
    same arguments on the files it has left -- in any state of the network,
    even without fuel -- makes no request, changes no file and reports
    nothing fetched and nothing failed. *)
Theorem main_resumes (w w' : world) (fuel fuel' : nat) (args : arguments)
    (fs fs1 : disk) (c1 : client) (t : stats) :
  main w fuel args fs = (Some (Done t), c1, fs1) ->
  failed t = 0%nat ->
  exists t2,
    main w' fuel' args fs1 = (Some (Done t2), new_client, fs1)
    /\ fetched t2 = 0%nat /\ failed t2 = 0%nat.
Proof.
  unfold main. destruct (mkdir_items fs) as [d1|e] eqn:Hmk; [|done].
  assert (Hdir : ITEMS_DIR ∈ directories d1).
  { unfold mkdir_items in Hmk. destruct (decide _); [by injection Hmk as <-|].
    destruct (files fs !! ITEMS_DIR); [done|]. injection Hmk as <-. set_solver. }
  destruct (args_discover args).
  { by destruct (discover_latest w new_client) as [[latest|e] c0]. }
  destruct (args_start args) as [a|]; [|done].
  destruct (args_end args) as [b|]; [|done].
  destruct (process_items w fuel _ _ _ _ (py_range a (b + 1)) stats0 new_client (files d1))
    as [[[t0|] c0] fs0] eqn:E; [|done].
  intros [= -> -> <-] Hclean.
  destruct (process_items_settles _ _ _ _ _ _ _ _ _ _ _ _ _ E Hclean) as [Hall _].
  destruct (process_items_quiet _ _ _ _ w' fuel' _ _ Hall stats0 new_client)
    as (t2 & Hq & Hf & Hx).
  unfold mkdir_items. cbn [directories files].
  destruct (decide (ITEMS_DIR ∈ directories d1)); [|done].
  cbn [directories files]. rewrite Hq. by exists t2.
Qed.

Lemma main_resumes_witness :
  exists t2 fs1,
    main always_503 0 (range_args 9 10 true false false false) fs1
    = (Some (Done t2), new_client, fs1)
    /\ fetched t2 = 0%nat /\ failed t2 = 0%nat
    /\ file_exists (path_main 9) (files fs1) = true
    /\ file_exists (path_main 10) (files fs1) = true.
Proof.
  destruct (main (answering record_without_date) 3
              (range_args 9 10 true false false false)
              {| directories := ∅; files := ∅ |}) as [[r c1] fs1] eqn:E.
  assert (Hr : r = Some (Done (add_stats (incr_fetched stats0) (incr_fetched stats0)))).
  { apply (f_equal (fun x => x.1.1)) in E. cbn [fst] in E. rewrite <- E.
    vm_compute. reflexivity. }
  assert (H9 : file_exists (path_main 9) (files fs1) = true).
  { apply (f_equal (fun x => file_exists (path_main 9) (files x.2))) in E. cbn [snd] in E.
    rewrite <- E. vm_compute. reflexivity. }
  assert (H10 : file_exists (path_main 10) (files fs1) = true).
  { apply (f_equal (fun x => file_exists (path_main 10) (files x.2))) in E. cbn [snd] in E.
    rewrite <- E. vm_compute. reflexivity. }
  subst r.
  destruct (main_resumes (answering record_without_date) always_503 3 0
              (range_args 9 10 true false false false) _ fs1 c1 _ E eq_refl)
    as (t2 & Hm & Hf & Hx).
  exists t2, fs1. repeat split; done.
Defined.

(** X25: what the totals of a run add up to.  When [main] finishes a
    range of [n] records, the two terminal totals together are at most [n];
    the fetched, already-existing and failed components together are at
    most the components asked for of the records not counted as terminal;
    and with the main component asked for every record of the range is
    counted at least once.  An empty range gives totals of 0. *)
Theorem main_totals (w : world) (fuel : nat) (args : arguments)
    (fs fs1 : disk) (c1 : client) (t : stats) (a b : Z) :
  main w fuel args fs = (Some (Done t), c1, fs1) ->
  args_start args = Some a -> args_end args = Some b ->
  let n := Z.to_nat (b + 1 - a) in
  let K := (asked (args_main args) + asked (args_comments args)
            + asked (args_timeline args) + asked (args_xrefs args))%nat in
  (skip_404 t + skip_date t <= n)%nat
  /\ (outcomes t + (skip_404 t + skip_date t) * K <= n * K)%nat
  /\ (args_main args = true -> n <= skip_404 t + skip_date t + outcomes t)%nat.
Proof.
  unfold main. destruct (mkdir_items fs) as [d1|e]; [|done].
  destruct (args_discover args).
  { by destruct (discover_latest w new_client) as [[latest|e] c0]. }
  intros H Ha Hb. rewrite Ha, Hb in H.
  destruct (process_items w fuel _ _ _ _ (py_range a (b + 1)) stats0 new_client (files d1))
    as [[[t0|] c0] fs0] eqn:E; [|done].
  injection H as -> _ _.
  destruct (process_items_tally _ _ _ _ _ _ _ _ _ _ _ _ _ E) as (sum & -> & A & B & D).
  unfold py_range in A, B, D. rewrite length_map, length_seq in A, B, D.
  cbv zeta. unfold outcomes in *. cbn [add_stats stats0 fetched skip_404 skip_date skip_exists failed].
  cbn [Nat.add]. done.
Qed.

Lemma main_totals_witness :
  exists t,
    (main (answering record_without_date) 3
       (range_args 9 10 true false false false)
       {| directories := ∅; files := ∅ |}).1.1 = Some (Done t)
    /\ (2 <= skip_404 t + skip_date t + outcomes t)%nat.
Proof.
  destruct (main (answering record_without_date) 3
              (range_args 9 10 true false false false)
              {| directories := ∅; files := ∅ |}) as [[r c1] fs1] eqn:E.
  assert (Hr : exists t, r = Some (Done t)).
  { apply (f_equal (fun x => x.1.1)) in E. cbn [fst] in E. rewrite <- E.
    vm_compute. eexists. reflexivity. }
  destruct Hr as [t ->].
  destruct (main_totals _ _ _ _ _ _ _ 9 10 E eq_refl eq_refl) as (_ & _ & H).
  exists t. split; [reflexivity|]. by apply H.
Defined.
